(** * xpmir: samplers, listeners and trainers, embedded from the Python sources

    The development follows [xpmir/letor/learner.py], [xpmir/letor/samplers.py],
    [xpmir/letor/trainers/pointwise.py] and [xpmir/letor/distillation/pairwise.py].
    Python integers are [Z], Python floats are binary64 primitive floats,
    dictionaries are insertion-ordered association lists, exceptions are an
    explicit error result.  Definitions come first, theorems follow. *)

From Stdlib Require Import ZArith List Ascii String Bool Lia Floats.
Import ListNotations.

Local Open Scope Z_scope.
Set Warnings "-inexact-float".

(* ===================================================================== *)
(** * Part I. Definitions                                                  *)
(* ===================================================================== *)

(** ** The Python fragment the sources rely on *)

Module Py.

(** Exceptions that the embedded code can raise. *)
Inductive exn : Type :=
| KeyError (key : string)
| ValueError (msg : string)
| IndexError
| ZeroDivisionError
| AssertionError (msg : string)
| NameError (name : string)
| RuntimeError (msg : string)
| StopIteration
| SystemExit (code : Z).

Inductive result (A : Type) : Type :=
| Ok (a : A)
| Raise (e : exn).

Arguments Ok {A} a.
Arguments Raise {A} e.

Definition bind {A B : Type} (c : result A) (k : A -> result B) : result B :=
  match c with
  | Ok a => k a
  | Raise e => Raise e
  end.

Definition is_ok {A : Type} (c : result A) : bool :=
  match c with
  | Ok _ => true
  | Raise _ => false
  end.

(** [a % b] on integers: the sign follows the divisor, a zero divisor raises. *)
Definition mod_ (a b : Z) : result Z :=
  if b =? 0 then Raise ZeroDivisionError else Ok (a mod b).

(** [max(iterable)] on integers. *)
Definition max_ (l : list Z) : result Z :=
  match l with
  | [] => Raise (ValueError "max() arg is an empty sequence")
  | x :: xs => Ok (fold_left Z.max xs x)
  end.

(** [a > b] on floats. *)
Definition float_gt (a b : float) : bool := PrimFloat.ltb b a.

(** Dictionaries keep insertion order; assigning an existing key keeps its
    position. *)
Definition dict (V : Type) : Type := list (string * V).

Fixpoint get {V : Type} (d : dict V) (k : string) : option V :=
  match d with
  | [] => None
  | (k', v) :: d' => if String.eqb k' k then Some v else get d' k
  end.

Fixpoint setitem {V : Type} (d : dict V) (k : string) (v : V) : dict V :=
  match d with
  | [] => [(k, v)]
  | (k', v') :: d' =>
      if String.eqb k' k then (k', v) :: d' else (k', v') :: setitem d' k v
  end.

Definition getitem {V : Type} (d : dict V) (k : string) : result V :=
  match get d k with
  | Some v => Ok v
  | None => Raise (KeyError k)
  end.

Definition get_default {V : Type} (d : dict V) (k : string) (dflt : V) : V :=
  match get d k with
  | Some v => v
  | None => dflt
  end.

(** Truth value of a container: non-empty. *)
Definition truthy {A : Type} (l : list A) : bool :=
  match l with
  | [] => false
  | _ :: _ => true
  end.

Definition keys {V : Type} (d : dict V) : list string := map fst d.

(** [sep.join(parts)] *)
Fixpoint join (sep : string) (parts : list string) : string :=
  match parts with
  | [] => EmptyString
  | [p] => p
  | p :: ps => (p ++ sep ++ join sep ps)%string
  end.

(** [l[i]] on lists: a negative index counts from the end, an index out of
    range raises. *)
Definition position {A : Type} (l : list A) (i : Z) : result nat :=
  let n := Z.of_nat (List.length l) in
  let j := if i <? 0 then i + n else i in
  if (0 <=? j) && (j <? n) then Ok (Z.to_nat j) else Raise IndexError.

Definition getitem_list {A : Type} (l : list A) (i : Z) : result A :=
  match position l i with
  | Ok j =>
      match nth_error l j with
      | Some a => Ok a
      | None => Raise IndexError
      end
  | Raise e => Raise e
  end.

(** The list [l] after a method changed the object at position [j] in place. *)
Fixpoint alter {A : Type} (f : A -> A) (j : nat) (l : list A) : list A :=
  match l, j with
  | [], _ => []
  | a :: l', O => f a :: l'
  | a :: l', S j' => a :: alter f j' l'
  end.

End Py.

Import Py.

Declare Scope py_scope.
Notation "x <- c1 ;; c2" := (Py.bind c1 (fun x => c2))
  (at level 61, c1 at next level, right associativity) : py_scope.
Local Open Scope py_scope.

(** ** Listeners ([xpmir/letor/learner.py]) *)

(** [LearnerListenerStatus], which the source imports from
    [xpmir.learning.learner]. *)
Inductive LearnerListenerStatus : Type :=
| NO_DECISION
| STOP
| DONT_STOP.

(** [TrainState]: the per-epoch snapshot handed to the listeners. *)
Record TrainState : Type := mkTrainState {
  epoch : Z;
  step : Z;
  path : string
}.

Module ValidationListener.

(** One entry of the best-so-far table: [{"value": ..., "epoch": ...}]. *)
Record TopState : Type := mkTop {
  top_value : float;
  top_epoch : Z
}.

(** The parameters of the listener. *)
Record Config : Type := mkConfig {
  id : string;
  metrics : dict bool;
  warmup : Z;
  bestpath : string;
  last_checkpoint_path : string;
  store_last_checkpoint : bool;
  info : string;
  validation_interval : Z;
  early_stop : Z
}.

(** Calls received by the telemetry writer of the context. *)
Inductive WriterEvent : Type :=
| add_scalar (tag : string) (value : float) (step : Z)
| add_histogram (tag : string) (values : list float) (step : Z).

(** What a listener call can read and change: its table [top], the epoch of
    the trainer context, the telemetry received so far, the checkpoint
    directories (each holds one snapshot, named here by the epoch of the
    context that wrote it), and the content of the [info] file when it exists. *)
Record World : Type := mkWorld {
  top : dict TopState;
  context_epoch : Z;
  writer : list WriterEvent;
  directories : dict Z;
  info_file : option (dict TopState)
}.

(** The result of [evaluate]: the means and the per-query values. *)
Record Evaluation : Type := mkEvaluation {
  means : dict float;
  details : dict (dict float)
}.

Definition validate (self : Config) : result unit :=
  r <- mod_ (early_stop self) (validation_interval self) ;;
  if r =? 0 then Ok tt
  else Raise (AssertionError
                "Early stop should be a multiple of the validation interval").

(** [initialize]: reads the table back from the [info] file, and starts from
    an empty table when that fails. *)
Definition initialize (self : Config) (w : World) : World :=
  {| top := match info_file w with Some t => t | None => [] end;
     context_epoch := context_epoch w;
     writer := writer w;
     directories := directories w;
     info_file := info_file w |}.

(** The generator [info["epoch"] for key, info in self.top.items() if
    self.metrics[key]], run to its end. *)
Fixpoint kept_epochs (metrics : dict bool) (items : dict TopState)
  : result (list Z) :=
  match items with
  | [] => Ok []
  | (key, info) :: rest =>
      keep <- getitem metrics key ;;
      es <- kept_epochs metrics rest ;;
      Ok (if keep : bool then top_epoch info :: es else es)
  end.

(** [epoch or self.context.epoch] *)
Definition epoch_or (epoch ctx_epoch : Z) : Z :=
  if epoch =? 0 then ctx_epoch else epoch.

Definition should_stop (self : Config) (w : World) (epoch : Z)
  : result LearnerListenerStatus :=
  if (0 <? early_stop self) && truthy (top w) then
    es <- kept_epochs (metrics self) (top w) ;;
    m <- max_ es ;;
    let epochs_since_imp := epoch_or epoch (context_epoch w) - m in
    if early_stop self <=? epochs_since_imp then Ok STOP else Ok DONT_STOP
  else Ok DONT_STOP.

Definition path_join (dir name : string) : string := (dir ++ "/" ++ name)%string.

(** [self.context.copy(path)] *)
Definition copy (target : string) (w : World) : World :=
  {| top := top w;
     context_epoch := context_epoch w;
     writer := writer w;
     directories := setitem (directories w) target (context_epoch w);
     info_file := info_file w |}.

Definition write (ev : WriterEvent) (w : World) : World :=
  {| top := top w;
     context_epoch := context_epoch w;
     writer := writer w ++ [ev];
     directories := directories w;
     info_file := info_file w |}.

Definition set_top (metric : string) (t : TopState) (w : World) : World :=
  {| top := setitem (top w) metric t;
     context_epoch := context_epoch w;
     writer := writer w;
     directories := directories w;
     info_file := info_file w |}.

Definition dump_info (w : World) : World :=
  {| top := top w;
     context_epoch := context_epoch w;
     writer := writer w;
     directories := directories w;
     info_file := Some (top w) |}.

(** The new best of a metric: the table entry, and the checkpoint when the
    metric is kept. *)
Definition save_top (self : Config) (metric : string) (keep : bool)
  (value : float) (w : World) : World :=
  let w1 := set_top metric (mkTop value (context_epoch w)) w in
  if keep then copy (path_join (bestpath self) metric) w1 else w1.

(** "Update the top validation" *)
Definition update_top (self : Config) (state : TrainState) (metric : string)
  (keep : bool) (value : float) (w : World) : World :=
  if warmup self <=? epoch state then
    match get (top w) metric with
    | None => save_top self metric keep value w
    | Some topstate =>
        if float_gt value (top_value topstate)
        then save_top self metric keep value w
        else w
    end
  else w.

(** The loop [for metric, keep in self.metrics.items()]. *)
Fixpoint validate_metrics (self : Config) (state : TrainState)
  (ev : Evaluation) (items : dict bool) (w : World) : result World :=
  match items with
  | [] => Ok w
  | (metric, keep) :: rest =>
      value <- getitem (means ev) metric ;;
      let w1 :=
        write (add_scalar (id self ++ "/" ++ metric ++ "/mean") value
                 (step state)) w in
      per_query <- getitem (details ev) metric ;;
      let w2 :=
        write (add_histogram (id self ++ "/" ++ metric) (map snd per_query)
                 (step state)) w1 in
      validate_metrics self state ev rest
        (update_top self state metric keep value w2)
  end.

(** The validation pass run when [state.epoch % validation_interval == 0]. *)
Definition validation_pass (self : Config) (state : TrainState)
  (ev : Evaluation) (w : World) : result World :=
  w1 <- validate_metrics self state ev (metrics self) w ;;
  let w2 :=
    if store_last_checkpoint self then copy (last_checkpoint_path self) w1
    else w1 in
  Ok (dump_info w2).

(** [__call__] *)
Definition call (self : Config) (state : TrainState) (ev : Evaluation)
  (w : World) : result (World * LearnerListenerStatus) :=
  early <- should_stop self w (epoch state - 1) ;;
  match early with
  | STOP => Ok (w, STOP)
  | _ =>
      r <- mod_ (epoch state) (validation_interval self) ;;
      w' <- (if r =? 0 then validation_pass self state ev w else Ok w) ;;
      status <- should_stop self w' 0 ;;
      Ok (w', status)
  end.

(** Successive epochs: each call sees the context at the epoch of its state. *)
Definition at_epoch (e : Z) (w : World) : World :=
  {| top := top w;
     context_epoch := e;
     writer := writer w;
     directories := directories w;
     info_file := info_file w |}.

(** Calls made one after the other, each with the context at the epoch of the
    state it receives; the statuses are returned in order. *)
Fixpoint calls (self : Config) (inputs : list (TrainState * Evaluation))
  (w : World) : result (World * list LearnerListenerStatus) :=
  match inputs with
  | [] => Ok (w, [])
  | (state, ev) :: rest =>
      r <- call self state ev (at_epoch (epoch state) w) ;;
      r' <- calls self rest (fst r) ;;
      Ok (fst r', snd r :: snd r')
  end.

End ValidationListener.

Module NegativeSamplerListener.

(** The listener: its parameter and the two attributes set by [initialize]. *)
Record Listener : Type := mkListener {
  sampling_interval : Z;
  change : bool;
  sampler_index : Z
}.

(** What the listener reaches through [state.trainer.sampler], a
    [PairwiseListSamplers]: the sub-samplers, each one counted by the number of
    [update()] calls it has received, and the iterators that [pairwise_iter()]
    has returned so far, each one with its current index. *)
Record Trainer : Type := mkTrainer {
  samplers : list nat;
  iterators : list Z
}.

Definition initialize (self : Listener) : Listener :=
  {| sampling_interval := sampling_interval self;
     change := true;
     sampler_index := 0 |}.

(** [PairwiseListSamplers.pairwise_iter]: every call builds a new
    [ListwiseSerializableIterator] over new iterators of the sub-samplers. The
    result is the store with the new iterator, and its handle.

    Modelled from the spec: [ListwiseSerializableIterator] (xpmir.utils.iter)
    is not among the sources; it "holds an ordered list of iterators plus a
    current index", which starts at the first iterator, and [set_current(i)]
    changes that index. *)
Definition pairwise_iter (tr : Trainer) : Trainer * nat :=
  ({| samplers := samplers tr; iterators := iterators tr ++ [0] |},
   List.length (iterators tr)).

Definition set_current (handle : nat) (i : Z) (tr : Trainer) : Trainer :=
  {| samplers := samplers tr;
     iterators := alter (fun _ => i) handle (iterators tr) |}.

(** [state.trainer.sampler.samplers[i].update()] *)
Definition update (i : Z) (tr : Trainer) : result Trainer :=
  j <- position (samplers tr) i ;;
  Ok {| samplers := alter S j (samplers tr); iterators := iterators tr |}.

(** [__call__] *)
Definition call (self : Listener) (state : TrainState) (tr : Trainer)
  : result (Listener * Trainer * LearnerListenerStatus) :=
  r <- mod_ (epoch state) (sampling_interval self) ;;
  if r =? 0 then
    let '(self1, tr1) :=
      if change self then
        let index := sampler_index self + 1 in
        let '(tr0, handle) := pairwise_iter tr in
        ({| sampling_interval := sampling_interval self;
            change := false;
            sampler_index := index |},
         set_current handle index tr0)
      else (self, tr) in
    tr2 <- update (sampler_index self1) tr1 ;;
    Ok (self1, tr2, NO_DECISION)
  else Ok (self, tr, NO_DECISION).

(** The calls of a run, one per epoch and in order. *)
Fixpoint calls (self : Listener) (states : list TrainState) (tr : Trainer)
  : result (Listener * Trainer) :=
  match states with
  | [] => Ok (self, tr)
  | state :: rest =>
      r <- call self state tr ;;
      calls (fst (fst r)) rest (snd (fst r))
  end.

(** The epochs of a run that trigger the listener. *)
Definition triggers (self : Listener) (states : list TrainState)
  : list TrainState :=
  filter (fun state => epoch state mod sampling_interval self =? 0) states.

End NegativeSamplerListener.

(** ** Samplers ([xpmir/letor/samplers.py]) *)

(** The data of an [Adhoc] dataset and of a retriever, as the samplers read
    them. *)
Record Qrel : Type := mkQrel {
  docno : string;
  rel : Z
}.

Record AssessedTopic : Type := mkAssessedTopic {
  assessed_qid : string;
  topic_assessments : list Qrel
}.

Record Topic : Type := mkTopic {
  qid : string;
  text : string
}.

Record ScoredDocument : Type := mkScoredDocument {
  docid : string;
  score : float
}.

Record Adhoc : Type := mkAdhoc {
  assessments : list AssessedTopic;
  topics : list Topic
}.

Definition tab : string := String "009"%char EmptyString.

(** The loop that reads the assessments into [assessments], a dictionary from
    query id to the dictionary [doc2rel] of that query. *)
Definition doc2rel_of (qrels : AssessedTopic) : dict Z :=
  fold_left (fun doc2rel qrel => setitem doc2rel (docno qrel) (rel qrel))
    (topic_assessments qrels) [].

Definition read_assessments (data : list AssessedTopic) : dict (dict Z) :=
  fold_left (fun acc qrels => setitem acc (assessed_qid qrels) (doc2rel_of qrels))
    data [].

(** The loop variable [qrels] once that loop is over: the last assessed
    topic, and nothing when there was none. *)
Definition qrels_after_loop (data : list AssessedTopic) : option AssessedTopic :=
  last (map Some data) None.

Module ModelBasedSampler.

Record Config : Type := mkConfig {
  dataset : Adhoc;
  retrieve : string -> list ScoredDocument;
  max_query : Z;
  (** [random.sample] of the standard library, on its global generator *)
  random_sample : list Topic -> Z -> result (list Topic)
}.

(** A document of a topic: [(docno, rel, score)]. *)
Definition Candidate : Type := (string * Z * float)%type.

(** "Write all the positive documents" *)
Definition positives_of (qassessments : dict Z) : list Candidate :=
  flat_map (fun item : string * Z =>
              if 0 <? snd item then [(fst item, snd item, 0%float)] else [])
    qassessments.

(** The loop over [scoreddocuments] that collects the negatives. *)
Definition negatives_of (qassessments : dict Z)
  (scoreddocuments : list ScoredDocument) : list Candidate :=
  flat_map (fun sd =>
              let rel := get_default qassessments (docid sd) 0 in
              if 0 <? rel then [] else [(docid sd, rel, score sd)])
    scoreddocuments.

(** The body of the loop over the queries: [None] when the topic is skipped. *)
Definition topic_step (self : Config) (assessments : dict (dict Z))
  (query : Topic)
  : result (option (string * list Candidate * list Candidate)) :=
  match get assessments (qid query) with
  | None => Ok None
  | Some qassessments =>
      if negb (truthy qassessments) then Ok None
      else
        let positives := positives_of qassessments in
        if negb (truthy positives) then Ok None
        else
          let negatives :=
            negatives_of qassessments (retrieve self (text query)) in
          if truthy positives && truthy negatives
          then Ok (Some (text query, positives, negatives))
          else Raise (AssertionError "")
  end.

Fixpoint topics_loop (self : Config) (assessments : dict (dict Z))
  (queries : list Topic)
  : result (list (string * list Candidate * list Candidate) * Z) :=
  match queries with
  | [] => Ok ([], 0)
  | query :: rest =>
      r <- topic_step self assessments query ;;
      rs <- topics_loop self assessments rest ;;
      Ok (match r with
          | Some y => (y :: fst rs, snd rs)
          | None => (fst rs, 1 + snd rs)
          end)
  end.

(** [_itertopics], run to its end as [readrecords] does: the triples it
    yields, and the number of skipped topics. *)
Definition itertopics (self : Config)
  : result (list (string * list Candidate * list Candidate) * Z) :=
  let assessments := read_assessments (assessments (dataset self)) in
  queries <- (if 0 <=? max_query self
              then random_sample self (topics (dataset self)) (max_query self)
              else Ok (topics (dataset self))) ;;
  topics_loop self assessments queries.

End ModelBasedSampler.

Module ModelBasedHardNegativeSampler.

Record Config : Type := mkConfig {
  dataset : Adhoc;
  retrieve : string -> list ScoredDocument
}.

(** The loop over [enumerate(scoreddocuments)]. *)
Definition split (qassessments : dict Z) (scoreddocuments : list ScoredDocument)
  : list string * list string :=
  (map docid
     (filter (fun sd => 0 <? get_default qassessments (docid sd) 0)
        scoreddocuments),
   map docid
     (filter (fun sd => negb (0 <? get_default qassessments (docid sd) 0))
        scoreddocuments)).

(** The f-string given to [fp.write]. *)
Definition line (qid positive_str negative_str : string) : string :=
  (qid ++ tab ++ "positives:" ++ tab ++ positive_str ++ tab
       ++ "negatives:" ++ tab ++ negative_str)%string.

(** The body of the loop over the queries: what is written for the topic, or
    [None] when it is skipped. [qrels] is the variable of the loop that read
    the assessments. *)
Definition topic_step (self : Config) (assessments : dict (dict Z))
  (qrels : option AssessedTopic) (query : Topic) : result (option string) :=
  match get assessments (qid query) with
  | None => Ok None
  | Some qassessments =>
      if negb (truthy qassessments) then Ok None
      else
        let '(positives, negatives) :=
          split qassessments (retrieve self (text query)) in
        if negb (truthy positives) then Ok None
        else if negb (truthy negatives) then Ok None
        else
          match qrels with
          | Some q =>
              Ok (Some (line (assessed_qid q) (join " " positives)
                          (join " " negatives)))
          | None => Raise (NameError "qrels")
          end
  end.

Fixpoint topics_loop (self : Config) (assessments : dict (dict Z))
  (qrels : option AssessedTopic) (queries : list Topic)
  : result (list string * Z) :=
  match queries with
  | [] => Ok ([], 0)
  | query :: rest =>
      r <- topic_step self assessments qrels query ;;
      rs <- topics_loop self assessments qrels rest ;;
      Ok (match r with
          | Some written => (written :: fst rs, snd rs)
          | None => (fst rs, 1 + snd rs)
          end)
  end.

(** [execute]: the strings written to the file, in order, and the number of
    skipped topics. *)
Definition execute (self : Config) : result (list string * Z) :=
  topics_loop self (read_assessments (assessments (dataset self)))
    (qrels_after_loop (assessments (dataset self)))
    (topics (dataset self)).

End ModelBasedHardNegativeSampler.

(** The records of [xpmir.letor.records] that the samplers build. *)
Record Query : Type := mkQuery {
  query_id : option string;
  query_text : option string
}.

Record Document : Type := mkDocument {
  document_docid : option string;
  document_text : option string;
  document_score : option float
}.

Record PairwiseRecord : Type := mkPairwiseRecord {
  query : Query;
  positive : Document;
  negative : Document
}.

(** A two-dimensional tensor, row by row. *)
Definition Tensor2 : Type := list (list float).

(** Modelled from the spec: [ProductRecords] (xpmir.letor.records) is not
    among the sources; it is the batchwise record "{queries, documents,
    relevance matrix}", filled by [addQueries], [addDocuments] and
    [setRelevances]. *)
Record ProductRecords : Type := mkProductRecords {
  queries : list Query;
  documents : list Document;
  relevances : option Tensor2
}.

Module Torch.

(** [torch.eye(n)] *)
Definition eye (n : Z) : result Tensor2 :=
  if n <? 0 then Raise (RuntimeError "n must be greater or equal to 0")
  else
    Ok (map (fun i => map (fun j => if Nat.eqb i j then 1%float else 0%float)
                        (seq 0 (Z.to_nat n)))
          (seq 0 (Z.to_nat n))).

(** [torch.zeros(rows, columns)] *)
Definition zeros (rows columns : Z) : result Tensor2 :=
  if (rows <? 0) || (columns <? 0)
  then Raise (RuntimeError "negative dimension")
  else Ok (repeat (repeat 0%float (Z.to_nat columns)) (Z.to_nat rows)).

(** [torch.cat((a, b), 1)]: the rows side by side; the numbers of rows must
    agree. *)
Fixpoint cat1 (a b : Tensor2) : result Tensor2 :=
  match a, b with
  | [], [] => Ok []
  | row_a :: a', row_b :: b' =>
      rest <- cat1 a' b' ;;
      Ok ((row_a ++ row_b) :: rest)
  | _, _ => Raise (RuntimeError "Sizes of tensors must match")
  end.

End Torch.

Module PairwiseInBatchNegativesSampler.

Section BatchwiseIter.

(** The iterator of the base pairwise sampler: a state, and [next], which
    raises [StopIteration] when the iterator is exhausted. *)
Variable PairIter : Type.
Variable pair_next : PairIter -> result (PairwiseRecord * PairIter).

(** The generator [iter(pair_iter)] once started: the relevance matrix that
    was computed before the loop, and the iterator it reads. *)
Record Generator : Type := mkGenerator {
  batch_size : Z;
  precomputed : Tensor2;
  pair_iter : PairIter
}.

(** "Pre-compute relevance matrix (query x document)" *)
Definition relevance_matrix (batch_size : Z) : result Tensor2 :=
  e <- Torch.eye batch_size ;;
  z <- Torch.zeros batch_size batch_size ;;
  Torch.cat1 e z.

Definition start (batch_size : Z) (it : PairIter) : result Generator :=
  m <- relevance_matrix batch_size ;;
  Ok {| batch_size := batch_size; precomputed := m; pair_iter := it |}.

(** [for _, record in zip(range(batch_size), pair_iter)]: at most [n]
    records; the loop ends early when [pair_iter] is exhausted. *)
Fixpoint take (n : nat) (it : PairIter)
  : result (list PairwiseRecord * PairIter) :=
  match n with
  | O => Ok ([], it)
  | S n' =>
      match pair_next it with
      | Ok (record, it') =>
          r <- take n' it' ;;
          Ok (record :: fst r, snd r)
      | Raise StopIteration => Ok ([], it)
      | Raise e => Raise e
      end
  end.

(** One round of the [while True] loop: the batch it yields. *)
Definition next (g : Generator) : result (ProductRecords * Generator) :=
  r <- take (Z.to_nat (batch_size g)) (pair_iter g) ;;
  let records := fst r in
  Ok ({| queries := map query records;
         documents := map positive records ++ map negative records;
         relevances := Some (precomputed g) |},
      {| batch_size := batch_size g;
         precomputed := precomputed g;
         pair_iter := snd r |}).

(** The first [n] batches of the generator. *)
Fixpoint batches (n : nat) (g : Generator)
  : result (list ProductRecords * Generator) :=
  match n with
  | O => Ok ([], g)
  | S n' =>
      r <- next g ;;
      rs <- batches n' (snd r) ;;
      Ok (fst r :: fst rs, snd rs)
  end.

(** [batchwise_iter(batch_size)], read [n] times. *)
Definition batchwise_iter (batch_size : Z) (it : PairIter) (n : nat)
  : result (list ProductRecords) :=
  g <- start batch_size it ;;
  r <- batches n g ;;
  Ok (fst r).

End BatchwiseIter.

End PairwiseInBatchNegativesSampler.

(** *** Serializable iterators *)

Module SerializableIterators.

(** The interface [SerializableIterator]: [next], [state_dict] and
    [load_state_dict]. [next] returns nothing when the fuel given to the
    loops it runs is used up. *)
Class SerializableIterator (A State Snapshot : Type) : Type := {
  next : State -> option (result (A * State));
  state_dict : State -> Snapshot;
  load_state_dict : State -> Snapshot -> State
}.

(** Drawing [n] items: the items drawn, and the iterator after them, or the
    exception that ended the drawing. *)
Fixpoint draw {A State Snapshot : Type}
  {it : SerializableIterator A State Snapshot} (n : nat) (st : State)
  : list A * option (result State) :=
  match n with
  | O => ([], Some (Ok st))
  | S n' =>
      match next st with
      | Some (Ok (a, st')) =>
          let r := draw n' st' in
          (a :: fst r, snd r)
      | Some (Raise e) => ([], Some (Raise e))
      | None => ([], None)
      end
  end.

Section RandomIterators.

(** [np.random.RandomState]: the state that [get_state] returns and
    [set_state] installs, and [randint(low, high)], which draws from
    [low] (inclusive) to [high] (exclusive). *)
Variable RandomState : Type.
Variable randint : Z -> Z -> RandomState -> result (Z * RandomState).

(** **** [PairwiseModelBasedSampler] *)

Record PairwiseModelBasedSampler : Type := mkPairwiseModelBasedSampler {
  sampler_topics :
    list (string * list ModelBasedSampler.Candidate
          * list ModelBasedSampler.Candidate);
  (** the document store: the text of a document, when it has one *)
  store_text : string -> option string
}.

(** [sample]: draws candidates until one has a text. *)
Fixpoint sample (self : PairwiseModelBasedSampler) (fuel : nat)
  (samples : list ModelBasedSampler.Candidate) (random : RandomState)
  : option (result (Document * RandomState)) :=
  match fuel with
  | O => None
  | S fuel' =>
      match randint 0 (Z.of_nat (List.length samples)) random with
      | Raise e => Some (Raise e)
      | Ok (i, random') =>
          match getitem_list samples i with
          | Raise e => Some (Raise e)
          | Ok (docid, _, score) =>
              match store_text self docid with
              | Some text =>
                  Some (Ok (mkDocument (Some docid) (Some text) (Some score),
                            random'))
              | None => sample self fuel' samples random'
              end
          end
      end
  end.

(** One round of the generator [iter(random)] of [pairwise_iter]. *)
Definition pairwise_next (self : PairwiseModelBasedSampler) (fuel : nat)
  (random : RandomState) : option (result (PairwiseRecord * RandomState)) :=
  match randint 0 (Z.of_nat (List.length (sampler_topics self))) random with
  | Raise e => Some (Raise e)
  | Ok (i, random1) =>
      match getitem_list (sampler_topics self) i with
      | Raise e => Some (Raise e)
      | Ok (title, positives, negatives) =>
          match sample self fuel positives random1 with
          | None => None
          | Some (Raise e) => Some (Raise e)
          | Some (Ok (pos, random2)) =>
              match sample self fuel negatives random2 with
              | None => None
              | Some (Raise e) => Some (Raise e)
              | Some (Ok (neg, random3)) =>
                  Some (Ok (mkPairwiseRecord (mkQuery None (Some title))
                              pos neg, random3))
              end
          end
      end
  end.

(** Modelled from the spec: [RandomSerializableIterator] (xpmir.utils.iter)
    is not among the sources. It runs the generator on the random state of
    the sampler; its state is that [RandomState], and "restoring RandomState
    reproduces future draws exactly": [load_state_dict] installs the saved
    state in the random state that the generator reads. *)
#[local] Instance RandomSerializableIterator
  (self : PairwiseModelBasedSampler) (fuel : nat)
  : SerializableIterator PairwiseRecord RandomState RandomState := {
  next := pairwise_next self fuel;
  state_dict := fun random => random;
  load_state_dict := fun _ state => state
}.

(** **** [PairwiseDatasetTripletBasedSampler] *)

(** [PairwiseSample]: a query, its positives, and its groups of negatives as
    [sample.negatives().values()] lists them. *)
Record PairwiseSample : Type := mkPairwiseSample {
  sample_topic : Query;
  sample_positives : list Document;
  sample_negatives : list (list Document)
}.

(** The iterator [_Iterator]: its random state and, from [SkippingIterator],
    the number of items produced and the rest of the underlying iterator. *)
Record TripletIterator : Type := mkTripletIterator {
  random : RandomState;
  stream_position : nat;
  iter : list PairwiseSample
}.

(** Modelled from the spec: [SkippingIterator] (xpmir.utils.iter) is not
    among the sources. Its state is the "count of items already produced";
    "on restore, a fresh underlying iterator is advanced past StreamPosition
    already-produced items before resuming". *)
Definition skipping_next (it : TripletIterator)
  : result (PairwiseSample * TripletIterator) :=
  match iter it with
  | [] => Raise StopIteration
  | sample :: rest =>
      Ok (sample,
          {| random := random it;
             stream_position := S (stream_position it);
             iter := rest |})
  end.

Definition skipping_restore (source : list PairwiseSample) (count : nat)
  (it : TripletIterator) : TripletIterator :=
  {| random := random it;
     stream_position := count;
     iter := skipn count source |}.

(** [_Iterator.next] *)
Definition triplet_next (it : TripletIterator)
  : result (PairwiseRecord * TripletIterator) :=
  r <- skipping_next it ;;
  let sample := fst r in
  let it1 := snd r in
  d1 <- randint 0 (Z.of_nat (List.length (sample_positives sample)))
          (random it1) ;;
  pos <- getitem_list (sample_positives sample) (fst d1) ;;
  let all_negatives := sample_negatives sample in
  d2 <- randint 0 (Z.of_nat (List.length all_negatives)) (snd d1) ;;
  negatives <- getitem_list all_negatives (fst d2) ;;
  d3 <- randint 0 (Z.of_nat (List.length negatives)) (snd d2) ;;
  neg <- getitem_list negatives (fst d3) ;;
  Ok (mkPairwiseRecord (sample_topic sample) pos neg,
      {| random := snd d3;
         stream_position := stream_position it1;
         iter := iter it1 |}).

(** [_Iterator.state_dict]: ["random"] and the state of [SkippingIterator]. *)
Definition triplet_state_dict (it : TripletIterator) : RandomState * nat :=
  (random it, stream_position it).

(** [_Iterator.load_state_dict]: the restoration of [SkippingIterator], then
    [self.random.set_state(state["random"])]. *)
Definition triplet_load_state_dict (source : list PairwiseSample)
  (it : TripletIterator) (state : RandomState * nat) : TripletIterator :=
  let it1 := skipping_restore source (snd state) it in
  {| random := fst state;
     stream_position := stream_position it1;
     iter := iter it1 |}.

(** [_Iterator.restore_state]: [self.random.set_state(state["random"])], then
    the restoration of [SkippingIterator]. *)
Definition triplet_restore_state (source : list PairwiseSample)
  (it : TripletIterator) (state : RandomState * nat) : TripletIterator :=
  let it1 :=
    {| random := fst state;
       stream_position := stream_position it;
       iter := iter it |} in
  skipping_restore source (snd state) it1.

(** The iterator over [self.dataset.iter()], as [pairwise_iter] creates it. *)
Definition triplet_create (source : list PairwiseSample) (seed : RandomState)
  : TripletIterator :=
  {| random := seed; stream_position := 0; iter := source |}.

#[local] Instance TripletSerializableIterator (source : list PairwiseSample)
  : SerializableIterator PairwiseRecord TripletIterator (RandomState * nat) := {
  next := fun it => Some (triplet_next it);
  state_dict := triplet_state_dict;
  load_state_dict := triplet_load_state_dict source
}.

End RandomIterators.

End SerializableIterators.

(** ** Trainers ([xpmir/letor/trainers/pointwise.py],
       [xpmir/letor/distillation/pairwise.py]) *)

(** [torch.isnan(t).any() or torch.isinf(t).any()] on the entries of a
    tensor. *)
Definition nan_or_inf (entries : list float) : bool :=
  existsb PrimFloat.is_nan entries || existsb PrimFloat.is_infinity entries.

(** [torch.FloatTensor(values)]: a Python float, which is a binary64 number,
    becomes the nearest float32 number (ties to even; beyond the float32
    range an infinity, below it a subnormal number or a zero). *)
Definition to_float32 (x : float) : float :=
  match Prim2SF x with
  | S754_finite s m e => SF2Prim (binary_round 24 128 s m e)
  | _ => x
  end.

Module PointwiseTrainer.

(** A record of a pointwise batch, and what [Metrics.update] receives. *)
Record PointwiseRecord : Type := mkPointwiseRecord {
  record_query : string;
  record_docid : string;
  record_score : float;
  record_relevance : float
}.

Definition MetricsUpdate : Type := (string * float * Z)%type.

Record Config : Type := mkConfig {
  batch_size : Z;
  (** the scorer: the relevance scores of a batch, flattened *)
  ranker : list PointwiseRecord -> list float;
  (** [lossfn.compute] and the name under which the loss is recorded *)
  lossfn : list float -> list float -> float;
  lossfn_name : string
}.

(** [train_batch], for the batch that [next(self.train_iter)] returned: the
    loss, and the update that [metrics] receives. *)
Definition train_batch (self : Config) (batch : list PointwiseRecord)
  : result (float * MetricsUpdate) :=
  let rel_scores := ranker self batch in
  if nan_or_inf rel_scores then Raise (SystemExit 1)
  else
    let target_relscores :=
      map (fun r => if PrimFloat.eqb r (-999)%float then 0%float else r)
        (map to_float32 (map record_relevance batch)) in
    let loss := lossfn self rel_scores target_relscores in
    Ok (loss, (lossfn_name self, loss, batch_size self)).

End PointwiseTrainer.

Module DistillationPairwiseTrainer.

(** A document of a distillation sample, with the score of the teacher. *)
Record ScoredText : Type := mkScoredText {
  content : string;
  teacher_score : float
}.

Record PairwiseDistillationSample : Type := mkSample {
  sample_query : Query;
  first_document : ScoredText;
  second_document : ScoredText
}.

Record Config : Type := mkConfig {
  (** the scorer: one score per query and document, the first documents of
      all records and then the second ones *)
  ranker : list PairwiseRecord -> list float;
  (** the loss hooks of the context: the losses they add for the scores and
      the teacher scores *)
  hooks : Tensor2 -> Tensor2 -> list (string * float)
}.

(** [t.reshape(2, n).T]: row [i] holds entries [i] and [n + i]. *)
Definition reshape_2_T (t : list float) (n : nat) : result Tensor2 :=
  if Nat.eqb (List.length t) (2 * n)
  then Ok (map (fun pair => [fst pair; snd pair])
             (combine (firstn n t) (skipn n t)))
  else Raise (RuntimeError "shape is invalid for input").

(** "Builds records and teacher score matrix" *)
Definition teacher_scores_of (samples : list PairwiseDistillationSample)
  : Tensor2 :=
  map (fun sample => [teacher_score (first_document sample);
                      teacher_score (second_document sample)]) samples.

Definition records_of (samples : list PairwiseDistillationSample)
  : list PairwiseRecord :=
  map (fun sample =>
         mkPairwiseRecord (sample_query sample)
           (mkDocument None (Some (content (first_document sample))) None)
           (mkDocument None (Some (content (second_document sample))) None))
    samples.

Definition train_batch (self : Config) (samples : list PairwiseDistillationSample)
  : result (list (string * float)) :=
  let teacher_scores := teacher_scores_of samples in
  let records := records_of samples in
  scores <- reshape_2_T (ranker self records) (List.length records) ;;
  if nan_or_inf (List.concat scores) then Raise (SystemExit 1)
  else Ok (hooks self scores teacher_scores).

End DistillationPairwiseTrainer.

Module Trainer.

(** Modelled from the spec: the loop that calls [train_batch] (the [Trainer]
    and [Learner] base classes, xpmir.letor.trainers and
    xpmir.learning.learner) is not among the sources. "Per epoch: draw a
    configured number of batches from the Sampler, run the external
    optimization step per batch, increment the step counter"; "everything
    else propagates up and terminates the Learner loop". The result holds
    what the completed steps returned, in order, and how the loop ended. *)
Fixpoint train {Batch Output : Type} (train_batch : Batch -> result Output)
  (batches : list Batch) : list Output * result unit :=
  match batches with
  | [] => ([], Ok tt)
  | batch :: rest =>
      match train_batch batch with
      | Ok output =>
          let r := train train_batch rest in
          (output :: fst r, snd r)
      | Raise e => ([], Raise e)
      end
  end.

End Trainer.

(** ** Further functions of the sources *)

(** *** [ValidationListener]: metrics and outputs *)

Module ValidationListenerOutputs.
Import ValidationListener.

(** The key [f"{self.id}/final/{metric}"]. *)
Definition final_key (self : Config) (metric : string) : string :=
  (id self ++ "/final/" ++ metric)%string.

(** The loop of [update_metrics] over [self.metrics.keys()]. *)
Fixpoint final_values (self : Config) (w : World) (names : list string)
  (metrics : dict float) : result (dict float) :=
  match names with
  | [] => Ok metrics
  | metric :: rest =>
      t <- getitem (top w) metric ;;
      final_values self w rest
        (setitem metrics (final_key self metric) (top_value t))
  end.

(** [update_metrics]: the dictionary [metrics] after the call. *)
Definition update_metrics (self : Config) (w : World) (metrics : dict float)
  : result (dict float) :=
  if truthy (top w) then final_values self w (keys (ValidationListener.metrics self)) metrics
  else Ok metrics.

(** [monitored] *)
Definition monitored (self : Config) : list string :=
  map fst (filter (fun item : string * bool => snd item)
             (ValidationListener.metrics self)).

(** What [copyconfig] is given: the object that is copied and the path of
    its checkpoint. *)
Inductive Output : Type :=
| model_at (checkpoint : string)
| scorer_at (checkpoint : string).

Definition checkpoint_of (o : Output) : string :=
  match o with
  | model_at c => c
  | scorer_at c => c
  end.

(** [taskoutputs] *)
Definition taskoutputs (self : Config) : dict Output :=
  let res :=
    fold_left
      (fun res (item : string * bool) =>
         if snd item
         then setitem res (fst item) (model_at (path_join (bestpath self) (fst item)))
         else res)
      (ValidationListener.metrics self) [] in
  if store_last_checkpoint self
  then setitem res "last_checkpoint" (scorer_at (last_checkpoint_path self))
  else res.

End ValidationListenerOutputs.

(** *** Strings and the TSV files of the hard negatives *)

Module PyStr.

(** [s.split(sep)] for a separator of one character: the parts between the
    separators, of which there is always at least one. *)
Fixpoint split (sep : ascii) (s : string) : list string :=
  match s with
  | EmptyString => [EmptyString]
  | String c rest =>
      if Ascii.eqb c sep then EmptyString :: split sep rest
      else
        match split sep rest with
        | [] => [String c EmptyString]
        | part :: parts => String c part :: parts
        end
  end.

(** The character [c] occurs in [s]. *)
Fixpoint occurs (c : ascii) (s : string) : Prop :=
  match s with
  | EmptyString => False
  | String c' rest => c' = c \/ occurs c rest
  end.

End PyStr.

Module PairwiseSampleDatasetFromTSV.

(** [PairwiseSample(query, positives, negatives)], as [iter] builds it from
    the strings of a row. *)
Record PairwiseSample : Type := mkPairwiseSample {
  sample_query : string;
  sample_positives : list string;
  sample_negatives : list string
}.

(** The body of the loop of [iter] for one row [triplet] of the file. *)
Definition sample_of_row (triplet : list string) : result PairwiseSample :=
  query <- getitem_list triplet 0 ;;
  positives <- getitem_list triplet 2 ;;
  negatives <- getitem_list triplet 4 ;;
  Ok (mkPairwiseSample query (PyStr.split " " positives)
        (PyStr.split " " negatives)).

(** [iter], for the rows that [read_tsv] returns. *)
Fixpoint iter (rows : list (list string)) : result (list PairwiseSample) :=
  match rows with
  | [] => Ok []
  | triplet :: rest =>
      sample <- sample_of_row triplet ;;
      samples <- iter rest ;;
      Ok (sample :: samples)
  end.

End PairwiseSampleDatasetFromTSV.

(** *** [TripletBasedSampler] *)

Module TripletBasedSampler.

(** The source of triplets, [ids] telling whether its strings are document
    ids, and the index, when one is given. *)
Record Config : Type := mkConfig {
  source_ids : bool;
  source_iter : list (string * string * string);
  index : option (string -> option string)
}.

Definition validate (self : Config) : result unit :=
  if negb (source_ids self)
     || match index self with Some _ => true | None => false end
  then Ok tt
  else Raise (AssertionError
                "An index should be provided if source is IDs only").

(** [_fromid] *)
Definition fromid (self : Config) (docid : string) : result Document :=
  match index self with
  | Some document_text =>
      Ok (mkDocument (Some docid) (document_text docid) None)
  | None => Raise (AssertionError "")
  end.

(** [_fromtext] *)
Definition fromtext (text : string) : Document :=
  mkDocument None (Some text) None.

Definition getdoc (self : Config) (s : string) : result Document :=
  if source_ids self then fromid self s else Ok (fromtext s).

(** The records of the generator that [pairwise_iter] wraps, read to the end
    of the source. *)
Fixpoint records (self : Config) (triplets : list (string * string * string))
  : result (list PairwiseRecord) :=
  match triplets with
  | [] => Ok []
  | (q, pos, neg) :: rest =>
      p <- getdoc self pos ;;
      n <- getdoc self neg ;;
      rs <- records self rest ;;
      Ok (mkPairwiseRecord (mkQuery None (Some q)) p n :: rs)
  end.

Definition pairwise_iter (self : Config) : result (list PairwiseRecord) :=
  records self (source_iter self).

End TripletBasedSampler.

(** *** [ModelBasedSampler._itertopics_batchwise] and [readrecords] *)

Module ModelBasedSamplerBatchwise.
Import ModelBasedSampler.

(** The exceptions of these functions: those of [Py.exn], and the
    [AttributeError] of a method called on [None]. *)
Inductive error : Type :=
| Python (e : exn)
| AttributeError (msg : string).

Inductive outcome (A : Type) : Type :=
| Done (a : A)
| Failed (e : error).

Arguments Done {A} a.
Arguments Failed {A} e.

Definition lift {A : Type} (r : result A) : outcome A :=
  match r with
  | Ok a => Done a
  | Raise e => Failed (Python e)
  end.

Definition and_then {A B : Type} (c : outcome A) (k : A -> outcome B)
  : outcome B :=
  match c with
  | Done a => k a
  | Failed e => Failed e
  end.

Record Config : Type := mkConfig {
  sampler : ModelBasedSampler.Config;
  batch_size : Z;
  (** [xpmir.utils.utils.batchiter], on the list of the queries *)
  batchiter : Z -> list Topic -> list (list Topic);
  (** [retriever.retrieve_all]: from a dictionary of query texts to a
      dictionary of retrieved documents *)
  retrieve_all : dict string -> dict (list ScoredDocument)
}.

(** What the generators yield: [(title, positives, negatives)]. *)
Definition Yielded : Type := (string * list Candidate * list Candidate)%type.

(** [{query.qid: query.text for query in batch}] *)
Definition queries_dict (batch : list Topic) : dict string :=
  fold_left (fun d query => setitem d (qid query) (text query)) batch [].

(** The body of the loop over [scoreddocuments_batch.items()]:
    [qassessments.items()] fails when the query has no assessments. *)
Definition item_step (assessments : dict (dict Z)) (queries_dict : dict string)
  (item : string * list ScoredDocument) : outcome Yielded :=
  match get assessments (fst item) with
  | None =>
      Failed (AttributeError "'NoneType' object has no attribute 'items'")
  | Some qassessments =>
      let positives := positives_of qassessments in
      let negatives := negatives_of qassessments (snd item) in
      match getitem queries_dict (fst item) with
      | Ok title => Done (title, positives, negatives)
      | Raise e => Failed (Python e)
      end
  end.

Fixpoint items_loop (assessments : dict (dict Z)) (queries_dict : dict string)
  (items : dict (list ScoredDocument)) : outcome (list Yielded) :=
  match items with
  | [] => Done []
  | item :: rest =>
      and_then (item_step assessments queries_dict item) (fun y =>
      and_then (items_loop assessments queries_dict rest) (fun ys =>
      Done (y :: ys)))
  end.

(** The loop over the batches of queries. *)
Fixpoint batches_loop (self : Config) (assessments : dict (dict Z))
  (batches : list (list Topic)) : outcome (list Yielded) :=
  match batches with
  | [] => Done []
  | batch :: rest =>
      let queries_dict := queries_dict batch in
      and_then (items_loop assessments queries_dict
                  (retrieve_all self queries_dict)) (fun ys =>
      and_then (batches_loop self assessments rest) (fun ys' =>
      Done (ys ++ ys')))
  end.

(** [_itertopics_batchwise], read to its end. *)
Definition itertopics_batchwise (self : Config) : outcome (list Yielded) :=
  let data := dataset (sampler self) in
  let assessments := read_assessments (assessments data) in
  and_then
    (lift (if 0 <=? max_query (sampler self)
           then random_sample (sampler self) (topics data)
                  (max_query (sampler self))
           else Ok (topics data)))
    (fun queries =>
       batches_loop self assessments
         (batchiter self (batch_size self) queries)).

(** [PairwiseModelBasedSampler._readrecords]: the topics, read one by one
    when [batch_size] is 0 and batch by batch otherwise. *)
Definition _readrecords (self : Config) : outcome (list Yielded) :=
  if batch_size self =? 0
  then lift (r <- itertopics (sampler self) ;; Ok (fst r))
  else itertopics_batchwise self.

End ModelBasedSamplerBatchwise.

Module PointwiseModelBasedSampler.
Import ModelBasedSamplerBatchwise.

(** [PointwiseRecord(title, docno, None, score, rel)], by its arguments. *)
Record PointwiseRecord : Type := mkPointwiseRecord {
  record_title : string;
  record_docno : string;
  record_content : option string;
  record_score : float;
  record_rel : Z
}.

(** The two inner loops of [readrecords] over the documents of a topic. *)
Definition records_of (title : string)
  (candidates : list ModelBasedSampler.Candidate) : list PointwiseRecord :=
  map (fun c : ModelBasedSampler.Candidate =>
         let '(docno, rel, score) := c in
         mkPointwiseRecord title docno None score rel)
    candidates.

(** [readrecords]: [(pos_records, neg_records)], from the topics read one by
    one or batch by batch, as in [_readrecords]. *)
Definition readrecords (self : Config)
  : outcome (list PointwiseRecord * list PointwiseRecord) :=
  and_then (_readrecords self) (fun yielded =>
  Done (flat_map (fun y : Yielded => records_of (fst (fst y)) (snd (fst y)))
          yielded,
        flat_map (fun y : Yielded => records_of (fst (fst y)) (snd y))
          yielded)).

End PointwiseModelBasedSampler.

(** *** [DistillationPairwiseTrainer.train_batch]: the pointwise hooks *)

Module DistillationPointwiseHooks.
Import DistillationPairwiseTrainer.


Definition zeros (n : nat) : list float := repeat 0%float n.




End DistillationPointwiseHooks.

(** *** [PointwiseTrainer]: the batches and the losses *)

Module PointwiseTrainerBatches.
Import PointwiseTrainer.

Section IterBatches.

(** The iterator [self.train_iter_core] of the sampler: a state, and [next],
    which raises [StopIteration] when the iterator is exhausted. *)
Variable RecordIter : Type.
Variable record_next : RecordIter -> result (PointwiseRecord * RecordIter).

(** [for _, record in zip(range(self.batch_size), it)] *)
Fixpoint take (n : nat) (it : RecordIter)
  : result (list PointwiseRecord * RecordIter) :=
  match n with
  | O => Ok ([], it)
  | S n' =>
      match record_next it with
      | Ok (record, it') =>
          r <- take n' it' ;;
          Ok (record :: fst r, snd r)
      | Raise StopIteration => Ok ([], it)
      | Raise e => Raise e
      end
  end.

(** One round of the [while True] loop of [iter_batches]. *)
Definition iter_batches_next (self : Config) (it : RecordIter)
  : result (list PointwiseRecord * RecordIter) :=
  take (Z.to_nat (batch_size self)) it.

(** [train_batch], from [next(self.train_iter)] on. *)
Definition train_step (self : Config) (it : RecordIter)
  : result (float * MetricsUpdate * RecordIter) :=
  r <- iter_batches_next self it ;;
  output <- train_batch self (fst r) ;;
  Ok (output, snd r).

End IterBatches.

(** [BinaryCrossEntropyLoss.compute]: [self.loss], which is [BCELoss] or
    [BCEWithLogitsLoss], receives the scores and
    [(target_relscores > 0).float()]. *)
Definition binary_targets (target_relscores : list float) : list float :=
  map (fun r => if float_gt r 0%float then 1%float else 0%float)
    target_relscores.

Definition bce_compute (loss : list float -> list float -> float)
  (rel_scores target_relscores : list float) : float :=
  loss rel_scores (binary_targets target_relscores).

End PointwiseTrainerBatches.

(* ===================================================================== *)
(** * Part I (continued). Vocabulary of the statements and example inputs *)
(* ===================================================================== *)

Module ValidationListenerCases.
Import ValidationListener.

(** [m] is the largest best-epoch recorded in the table of [w] for a metric
    that [self] keeps. *)
Definition is_max_kept_epoch (self : Config) (w : World) (m : Z) : Prop :=
  (exists k t, In (k, t) (top w) /\ get (metrics self) k = Some true
               /\ top_epoch t = m) /\
  (forall k t, In (k, t) (top w) -> get (metrics self) k = Some true ->
               top_epoch t <= m).

(** A listener on ["map"], validating every second epoch and stopping after
    four epochs without improvement. *)
Definition map_listener : Config :=
  {| id := "validation";
     metrics := [("map"%string, true)];
     warmup := -1;
     bestpath := "best";
     last_checkpoint_path := "last_checkpoint";
     store_last_checkpoint := false;
     info := "info.json";
     validation_interval := 2;
     early_stop := 4 |}.

Definition cold_start : World :=
  {| top := []; context_epoch := 0; writer := []; directories := [];
     info_file := None |}.

Definition map_eval (v : float) : Evaluation :=
  {| means := [("map"%string, v)];
     details := [("map"%string, [("q1"%string, v)])] |}.

Definition state_at (e : Z) : TrainState :=
  {| epoch := e; step := 100 * e; path := "checkpoint" |}.

Definition world_of {A : Type} (r : result (World * A)) : World :=
  match r with
  | Ok (w, _) => w
  | Raise _ => cold_start
  end.

(** The table after improving validations at epochs 0, 2 and 4. *)
Definition bests_at_0_2_4 : World :=
  world_of (calls map_listener
              [(state_at 0, map_eval 0.125%float);
               (state_at 2, map_eval 0.25%float);
               (state_at 4, map_eval 0.5%float)] cold_start).

(** A listener that validates at every epoch and stops after one epoch
    without improvement. *)
Definition eager_listener : Config :=
  {| id := "validation";
     metrics := [("map"%string, true)];
     warmup := -1;
     bestpath := "best";
     last_checkpoint_path := "last_checkpoint";
     store_last_checkpoint := false;
     info := "info.json";
     validation_interval := 1;
     early_stop := 1 |}.

(** The world in which the listener is called at epoch 1, after a first
    validation at epoch 0. *)
Definition best_at_0_seen_at_1 : World :=
  at_epoch 1
    (world_of (calls eager_listener [(state_at 0, map_eval 0.5%float)]
                 cold_start)).

(** The same listener, with the checkpoint of ["map"] not kept. *)
Definition unkept_map_listener : Config :=
  {| id := "validation";
     metrics := [("map"%string, false)];
     warmup := -1;
     bestpath := "best";
     last_checkpoint_path := "last_checkpoint";
     store_last_checkpoint := false;
     info := "info.json";
     validation_interval := 2;
     early_stop := 4 |}.

(** The only ways an entry [t] of the table can become [t'] during a
    validation pass that evaluated its metric at [v]. *)
Definition same_or_improved (v : option float) (t t' : TopState) : Prop :=
  t' = t \/
  (v = Some (top_value t') /\ float_gt (top_value t') (top_value t) = true).

(** During a validation pass that evaluated a metric at [v], the table went
    from [before] to a new entry for that metric: the first one, or one with
    a strictly greater value. *)
Definition recorded_anew (v : option float) (before after : option TopState)
  : Prop :=
  exists t', after = Some t' /\ v = Some (top_value t') /\
    (before = None \/
     exists t, before = Some t
               /\ float_gt (top_value t') (top_value t) = true).

(** Validations of ["map"] every second epoch, starting from an empty table. *)
Definition validations (values : list (Z * float)) : World :=
  world_of (calls map_listener
              (map (fun ev => (state_at (fst ev), map_eval (snd ev))) values)
              cold_start).

End ValidationListenerCases.

Module NegativeSamplerListenerCases.
Import NegativeSamplerListener.

(** The listener once it has switched to the second sub-sampler. *)
Definition switched (self : Listener) : Listener :=
  {| sampling_interval := sampling_interval self;
     change := false;
     sampler_index := 1 |}.

End NegativeSamplerListenerCases.

Module SplitCases.

(** The document ids of a list of candidates. *)
Definition names (l : list ModelBasedSampler.Candidate) : list string :=
  map (fun c => fst (fst c)) l.

(** Judgements [{d1: 1, d2: 0, d3: -1}] for one query, and a retriever that
    returns [d1], [d2] and [d4]. *)
Definition judged_d1_d2_d3 : Adhoc :=
  {| assessments :=
       [mkAssessedTopic "q1"
          [mkQrel "d1" 1; mkQrel "d2" 0; mkQrel "d3" (-1)]];
     topics := [mkTopic "q1" "first query"] |}.

Definition retrieves_d1_d2_d4 (_ : string) : list ScoredDocument :=
  [mkScoredDocument "d1" 3%float; mkScoredDocument "d2" 2%float;
   mkScoredDocument "d4" 1%float].

Definition model_based_example : ModelBasedSampler.Config :=
  {| ModelBasedSampler.dataset := judged_d1_d2_d3;
     ModelBasedSampler.retrieve := retrieves_d1_d2_d4;
     ModelBasedSampler.max_query := -1;
     ModelBasedSampler.random_sample := fun population _ => Ok population |}.

Definition hard_negative_example : ModelBasedHardNegativeSampler.Config :=
  {| ModelBasedHardNegativeSampler.dataset := judged_d1_d2_d3;
     ModelBasedHardNegativeSampler.retrieve := retrieves_d1_d2_d4 |}.

Definition judgements_example : dict Z :=
  [("d1"%string, 1); ("d2"%string, 0); ("d3"%string, -1)].

(** The queries that the loop of [_itertopics] goes over: the topics of the
    dataset, or what [random.sample] drew from them when [max_query] is not
    negative. *)
Definition processed (self : ModelBasedSampler.Config) (queries : list Topic)
  : Prop :=
  if 0 <=? ModelBasedSampler.max_query self
  then ModelBasedSampler.random_sample self
         (topics (ModelBasedSampler.dataset self))
         (ModelBasedSampler.max_query self) = Ok queries
  else queries = topics (ModelBasedSampler.dataset self).

End SplitCases.

Module ExportCases.
Import ModelBasedHardNegativeSampler.

(** Two assessed topics, of which only the first is a topic to export. *)
Definition two_assessed_topics : Config :=
  {| dataset :=
       {| assessments :=
            [mkAssessedTopic "q1" [mkQrel "d1" 1];
             mkAssessedTopic "q2" [mkQrel "d9" 1]];
          topics := [mkTopic "q1" "first query"] |};
     retrieve := fun _ =>
       [mkScoredDocument "d1" 2%float; mkScoredDocument "d2" 1%float] |}.

End ExportCases.

Module InBatchCases.
Import PairwiseInBatchNegativesSampler.

(** Row [i] of the relevance matrix for [n] queries. *)
Definition relevance_row (n i : nat) : list float :=
  map (fun j => if Nat.eqb i j then 1%float else 0%float) (seq 0 n)
  ++ repeat 0%float n.

Section BaseIterator.
Variable PairIter : Type.
Variable pair_next : PairIter -> result (PairwiseRecord * PairIter).

(** The base iterator yields or stops, and raises nothing else. *)
Definition yields_or_stops : Prop :=
  forall it e, pair_next it = Raise e -> e = StopIteration.

End BaseIterator.

(** A base iterator that yields, for ever, records numbered by their rank. *)
Definition numbered (k : nat) : result (PairwiseRecord * nat) :=
  let name := Some (String (ascii_of_nat (48 + k)) EmptyString) in
  Ok ({| query := mkQuery None name;
         positive := mkDocument name None None;
         negative := mkDocument None name None |}, S k).

(** The first batch of three of these records. *)
Definition first_numbered_batch : list ProductRecords :=
  match batchwise_iter nat numbered 3 0%nat 1 with
  | Ok bs => bs
  | Raise _ => []
  end.

End InBatchCases.

Module IteratorCases.
Import SerializableIterators.

Section Generators.
Variable RandomState : Type.
Variable randint : Z -> Z -> RandomState -> result (Z * RandomState).

(** A state of [_Iterator] over [source] holds what is left of [source]
    after the items it has produced. *)
Definition in_step (source : list PairwiseSample) (it : TripletIterator RandomState)
  : Prop :=
  iter RandomState it = skipn (stream_position RandomState it) source.

(** [randint(0, high)] returns an index below [high] whenever [high] is
    positive. *)
Definition randint_in_range : Prop :=
  forall high s, 0 < high ->
    exists i s', randint 0 high s = Ok (i, s') /\ 0 <= i < high.

(** The pools of the sampler are not empty and every candidate has a text. *)
Definition pools_ready (self : PairwiseModelBasedSampler) : Prop :=
  sampler_topics self <> [] /\
  forall title positives negatives,
    In (title, positives, negatives) (sampler_topics self) ->
    positives <> [] /\ negatives <> [] /\
    forall docid rel score,
      In (docid, rel, score) (positives ++ negatives) ->
      store_text self docid <> None.

End Generators.

(** A linear congruential generator in the place of the random state. *)
Definition lcg_randint (low high state : Z) : result (Z * Z) :=
  if high <=? low then Raise (ValueError "low >= high")
  else
    let state' := (1103515245 * state + 12345) mod 2147483648 in
    Ok (low + (state' / 65536) mod (high - low), state').

(** Two topics; the document [n2] has no text. *)
Definition two_topics : PairwiseModelBasedSampler :=
  {| sampler_topics :=
       [("t1"%string,
         [("p1"%string, 1, 0%float)],
         [("n1"%string, 0, 1.5%float); ("n2"%string, 0, 0.5%float)]);
        ("t2"%string,
         [("p2"%string, 1, 0%float); ("p3"%string, 2, 0%float)],
         [("n3"%string, 0, 1%float)])];
     store_text := fun docid =>
       if String.eqb docid "n2" then None
       else Some ("text of " ++ docid)%string |}.

Definition lcg_iterator : SerializableIterator PairwiseRecord Z Z :=
  RandomSerializableIterator Z lcg_randint two_topics 8.

(** Three samples of a triplet dataset. *)
Definition three_samples : list PairwiseSample :=
  let doc := fun name => mkDocument (Some name) None None in
  [mkPairwiseSample (mkQuery (Some "q1"%string) None)
     [doc "p1"%string; doc "p2"%string]
     [[doc "n1"%string; doc "n2"%string]; [doc "n3"%string]];
   mkPairwiseSample (mkQuery (Some "q2"%string) None)
     [doc "p3"%string]
     [[doc "n4"%string]; [doc "n5"%string; doc "n6"%string]];
   mkPairwiseSample (mkQuery (Some "q3"%string) None)
     [doc "p4"%string; doc "p5"%string; doc "p6"%string]
     [[doc "n7"%string; doc "n8"%string; doc "n9"%string]]].

Definition triplet_iterator
  : SerializableIterator PairwiseRecord (TripletIterator Z) (Z * nat) :=
  TripletSerializableIterator Z lcg_randint three_samples.

(** The state in which a drawing ended, and [default] when it ended on an
    exception. *)
Definition state_after {A State : Type} (default : State)
  (r : list A * option (result State)) : State :=
  match snd r with
  | Some (Ok st) => st
  | _ => default
  end.

End IteratorCases.

Module TrainerCases.

(** A scorer that returns the score stored in each record, and ten batches of
    one record of which the third carries a NaN. *)
Definition stored_scores : PointwiseTrainer.Config :=
  {| PointwiseTrainer.batch_size := 1;
     PointwiseTrainer.ranker := map PointwiseTrainer.record_score;
     PointwiseTrainer.lossfn :=
       fun scores targets => fold_right PrimFloat.add 0%float scores;
     PointwiseTrainer.lossfn_name := "mse" |}.

Definition ten_batches : list (list PointwiseTrainer.PointwiseRecord) :=
  map (fun s => [PointwiseTrainer.mkPointwiseRecord "q" "d" s 1%float])
    [1; 2; nan; 4; 5; 6; 7; 8; 9; 10]%float.

(** A scorer that reads the score of a document in its content, ["nan"] for
    a NaN, and two batches of which the second holds a NaN. *)
Definition reads_content : DistillationPairwiseTrainer.Config :=
  let score_of := fun d : Document =>
    match document_text d with
    | Some "nan"%string => nan
    | _ => 1%float
    end in
  {| DistillationPairwiseTrainer.ranker := fun records =>
       map (fun r => score_of (positive r)) records
       ++ map (fun r => score_of (negative r)) records;
     DistillationPairwiseTrainer.hooks := fun scores teacher_scores =>
       [("pairwise-delta-MSE"%string, 0%float)] |}.

Definition distillation_batch (first second : string)
  : list DistillationPairwiseTrainer.PairwiseDistillationSample :=
  [DistillationPairwiseTrainer.mkSample (mkQuery None (Some "q"%string))
     (DistillationPairwiseTrainer.mkScoredText first 2%float)
     (DistillationPairwiseTrainer.mkScoredText second 1%float)].

End TrainerCases.

Module ListenerCases.
Import ValidationListener.

(** The [info] file holds the table: it is the table itself, or it is absent
    and the table is empty. *)
Definition persisted (w : World) : Prop :=
  info_file w = Some (top w) \/ (info_file w = None /\ top w = []).

(** The state of the next epoch. *)
Definition next_epoch (state : TrainState) : TrainState :=
  {| epoch := epoch state + 1; step := step state; path := path state |}.

(** What a validation pass over the metrics [items] sends to the writer: a
    scalar and a histogram for each of them, in order. *)
Definition telemetry (self : Config) (state : TrainState) (ev : Evaluation)
  (items : dict bool) : list WriterEvent :=
  flat_map
    (fun item : string * bool =>
       match get (means ev) (fst item), get (details ev) (fst item) with
       | Some value, Some per_query =>
           [add_scalar (id self ++ "/" ++ fst item ++ "/mean") value
              (step state);
            add_histogram (id self ++ "/" ++ fst item) (map snd per_query)
              (step state)]
       | _, _ => []
       end)
    items.

(** The statuses that a sequence of calls returned. *)
Definition statuses_of {A : Type}
  (r : result (A * list LearnerListenerStatus)) : list LearnerListenerStatus :=
  match r with
  | Ok (_, ss) => ss
  | Raise _ => []
  end.

(** The status that a call returned. *)
Definition status_of {A : Type} (r : result (A * LearnerListenerStatus))
  : LearnerListenerStatus :=
  match r with
  | Ok (_, s) => s
  | Raise _ => NO_DECISION
  end.

(** A listener on ["map"] that starts to record at epoch 5. *)
Definition warming_listener : Config :=
  {| id := "validation";
     metrics := [("map"%string, true)];
     warmup := 5;
     bestpath := "best";
     last_checkpoint_path := "last_checkpoint";
     store_last_checkpoint := true;
     info := "info.json";
     validation_interval := 2;
     early_stop := 4 |}.

(** A listener that also records ["ndcg"], without keeping its checkpoint. *)
Definition two_metrics_listener : Config :=
  {| id := "validation";
     metrics := [("map"%string, true); ("ndcg"%string, false)];
     warmup := -1;
     bestpath := "best";
     last_checkpoint_path := "last_checkpoint";
     store_last_checkpoint := true;
     info := "info.json";
     validation_interval := 2;
     early_stop := 4 |}.

(** An evaluation of ["map"] and ["ndcg"]. *)
Definition two_metrics_eval (v v' : float) : Evaluation :=
  {| means := [("map"%string, v); ("ndcg"%string, v')];
     details := [("map"%string, [("q1"%string, v)]);
                 ("ndcg"%string, [("q1"%string, v')])] |}.

(** The inputs of calls that evaluate ["map"] at the given epochs. *)
Definition map_inputs (values : list (Z * float))
  : list (TrainState * Evaluation) :=
  map (fun ev => (ValidationListenerCases.state_at (fst ev),
                  ValidationListenerCases.map_eval (snd ev))) values.

(** A run of a listener on ["map"] from a cold start. *)
Definition validations_of (self : Config) (values : list (Z * float))
  : result (World * list LearnerListenerStatus) :=
  calls self (map_inputs values)
    (initialize self ValidationListenerCases.cold_start).

End ListenerCases.

Module ExportReadCases.
Import ModelBasedHardNegativeSampler.

Definition tab_char : ascii := "009"%char.

(** The characters that end a line: line feed and carriage return. *)
Definition line_break (c : ascii) : Prop :=
  c = "010"%char \/ c = "013"%char.

(** What the file holds once [execute] is over: the strings given to
    [fp.write], one after the other. *)
Definition written_file (ws : list string) : string :=
  String.concat EmptyString ws.

(** No document that the retriever returns for a topic of the dataset has
    the character [c] in its id. *)
Definition docids_without (c : ascii) (self : Config) : Prop :=
  forall query sd,
    In query (topics (dataset self)) ->
    In sd (retrieve self (text query)) ->
    ~ PyStr.occurs c (docid sd).

(** The id of the last assessed topic does not hold the character [c]. *)
Definition last_qid_without (c : ascii) (self : Config) : Prop :=
  forall qrels,
    qrels_after_loop (assessments (dataset self)) = Some qrels ->
    ~ PyStr.occurs c (assessed_qid qrels).

End ExportReadCases.

Module TripletCases.
Import TripletBasedSampler.

(** The document that [pairwise_iter] builds from a string of the source:
    with ids the document of that id, with the text that the index has for
    it; without ids the document of that text. *)
Definition built_from (self : Config) (s : string) (d : Document) : Prop :=
  if source_ids self
  then document_docid d = Some s /\ document_score d = None /\
       exists document_text_of,
         index self = Some document_text_of /\
         document_text d = document_text_of s
  else d = mkDocument None (Some s) None.

(** A source of two triplets of ids, and an index that knows [d1] and [d2]. *)
Definition two_id_triplets : Config :=
  {| source_ids := true;
     source_iter := [("q1"%string, "d1"%string, "d2"%string);
                     ("q2"%string, "d2"%string, "d3"%string)];
     index := Some (fun docid =>
                if String.eqb docid "d3" then None
                else Some ("text of " ++ docid)%string) |}.

End TripletCases.

Module InBatchOrderCases.
Import PairwiseInBatchNegativesSampler.

(** A base iterator over a finite list of records. *)
Definition list_next (records : list PairwiseRecord)
  : result (PairwiseRecord * list PairwiseRecord) :=
  match records with
  | [] => Raise StopIteration
  | record :: rest => Ok (record, rest)
  end.

(** The batch of an exhausted base iterator. *)
Definition empty_batch (m : Tensor2) : ProductRecords :=
  {| queries := []; documents := []; relevances := Some m |}.

(** Three records, named by a letter. *)
Definition three_records : list PairwiseRecord :=
  map (fun name =>
         {| query := mkQuery None (Some name);
            positive := mkDocument (Some name) None None;
            negative := mkDocument None (Some name) None |})
    ["a"%string; "b"%string; "c"%string].

(** The first three batches of two over these three records. *)
Definition three_batches_of_two : list ProductRecords :=
  match batchwise_iter (list PairwiseRecord) list_next 2 three_records 3 with
  | Ok bs => bs
  | Raise _ => []
  end.

End InBatchOrderCases.

Module DrawCases.
Import SerializableIterators.

(** The document that [sample] builds from a candidate of [pool]: the id and
    the score of the candidate, and the text that the store has for it. *)
Definition candidate_document (self : PairwiseModelBasedSampler)
  (pool : list ModelBasedSampler.Candidate) (d : Document) : Prop :=
  exists docid rel score text,
    In (docid, rel, score) pool /\
    store_text self docid = Some text /\
    d = mkDocument (Some docid) (Some text) (Some score).

(** The record that [_Iterator.next] builds from a sample: its query, one of
    its positives, and a negative of one of its groups of negatives. *)
Definition drawn_from (sample : PairwiseSample) (record : PairwiseRecord)
  : Prop :=
  query record = sample_topic sample /\
  In (positive record) (sample_positives sample) /\
  exists negatives,
    In negatives (sample_negatives sample) /\ In (negative record) negatives.

(** A sample with a positive, a group of negatives, and no empty group. *)
Definition well_pooled (sample : PairwiseSample) : Prop :=
  sample_positives sample <> [] /\
  sample_negatives sample <> [] /\
  Forall (fun negatives => negatives <> []) (sample_negatives sample).

(** The first record that the generator of [IteratorCases.two_topics] draws
    from the seed 42. *)
Definition first_pair : PairwiseRecord :=
  {| query := mkQuery None (Some "t2"%string);
     positive := mkDocument (Some "p3"%string) (Some "text of p3"%string)
                   (Some 0%float);
     negative := mkDocument (Some "n3"%string) (Some "text of n3"%string)
                   (Some 1%float) |}.

(** A sampler of which no document has a text. *)
Definition without_texts : PairwiseModelBasedSampler :=
  {| sampler_topics :=
       [("t1"%string, [("p1"%string, 1, 0%float)],
         [("n1"%string, 0, 1%float)])];
     store_text := fun _ => None |}.

End DrawCases.

Module BatchwiseCases.
Import ModelBasedSampler.
Import ModelBasedSamplerBatchwise.

(** What is yielded for a topic: its text, its documents judged positive,
    and the negatives among the documents retrieved for it. *)
Definition yield_of (self : ModelBasedSampler.Config)
  (assessments : dict (dict Z)) (query : Topic) (y : Yielded) : Prop :=
  exists qa,
    get assessments (qid query) = Some qa /\
    y = (text query, positives_of qa,
         negatives_of qa (retrieve self (text query))).

(** [retrieve_all] returns, for each query of the dictionary and in its
    order, what [retrieve] returns for its text. *)
Definition retrieves_each (self : Config) : Prop :=
  forall queries_dict,
    retrieve_all self queries_dict
    = map (fun item : string * string =>
             (fst item, retrieve (sampler self) (snd item)))
        queries_dict.

(** The batches of [batchiter] are the queries, in their order. *)
Definition batches_in_order (self : Config) : Prop :=
  forall queries,
    List.concat (batchiter self (batch_size self) queries) = queries.

(** The message of the [AttributeError] of [qassessments.items()]. *)
Definition none_has_no_items : string :=
  "'NoneType' object has no attribute 'items'".

(** Batches of two queries. *)
Fixpoint by_two (queries : list Topic) : list (list Topic) :=
  match queries with
  | a :: b :: rest => [a; b] :: by_two rest
  | [a] => [[a]]
  | [] => []
  end.

(** Three judged topics, retrieved two by two; and the same with a fourth
    topic that has no assessments. *)
Definition three_judged_topics : Adhoc :=
  {| assessments :=
       [mkAssessedTopic "q1" [mkQrel "d1" 1; mkQrel "d2" 0];
        mkAssessedTopic "q2" [mkQrel "d2" 2];
        mkAssessedTopic "q3" [mkQrel "d4" 1; mkQrel "d9" 1]];
     topics := [mkTopic "q1" "first"; mkTopic "q2" "second";
                mkTopic "q3" "third"] |}.

Definition batched (data : Adhoc) (batch_size : Z) : Config :=
  {| sampler :=
       {| dataset := data;
          retrieve := SplitCases.retrieves_d1_d2_d4;
          max_query := -1;
          random_sample := fun population _ => Ok population |};
     batch_size := batch_size;
     batchiter := fun _ => by_two;
     retrieve_all := fun queries_dict =>
       map (fun item : string * string =>
              (fst item, SplitCases.retrieves_d1_d2_d4 (snd item)))
         queries_dict |}.

Definition with_unjudged_topic : Adhoc :=
  {| assessments := assessments three_judged_topics;
     topics := topics three_judged_topics ++ [mkTopic "q4" "fourth"] |}.

(** Every topic has assessments, a document judged positive, and a negative
    among the documents retrieved for it. *)
Definition complete (self : ModelBasedSampler.Config) : Prop :=
  forall query,
    In query (topics (dataset self)) ->
    exists qa,
      get (read_assessments (assessments (dataset self))) (qid query)
      = Some qa /\
      positives_of qa <> [] /\
      negatives_of qa (retrieve self (text query)) <> [].

(** Two topics, each with a positive and with retrieved negatives. *)
Definition two_complete_topics : Adhoc :=
  {| assessments :=
       [mkAssessedTopic "q1" [mkQrel "d1" 1; mkQrel "d2" 0];
        mkAssessedTopic "q2" [mkQrel "d2" 2]];
     topics := [mkTopic "q1" "first"; mkTopic "q2" "second"] |}.

(** The pools that [readrecords] returned. *)
Definition pools_of
  (r : outcome (list PointwiseModelBasedSampler.PointwiseRecord
                * list PointwiseModelBasedSampler.PointwiseRecord))
  : list PointwiseModelBasedSampler.PointwiseRecord
    * list PointwiseModelBasedSampler.PointwiseRecord :=
  match r with
  | Done pools => pools
  | Failed _ => ([], [])
  end.

End BatchwiseCases.

Module PointwiseCases.
Import PointwiseTrainer.
Import PointwiseTrainerBatches.

(** A trainer with the binary cross-entropy loss, on a scorer that returns
    the score stored in each record. *)
Definition with_bce (loss : list float -> list float -> float) : Config :=
  {| batch_size := 2;
     ranker := map record_score;
     lossfn := bce_compute loss;
     lossfn_name := "ce" |}.

(** A loss that counts the targets set to 1. *)
Definition count_ones (rel_scores targets : list float) : float :=
  fold_right PrimFloat.add 0%float targets.

(** A batch with a record of relevance -999. *)
Definition batch_with_missing_relevance : list PointwiseRecord :=
  [mkPointwiseRecord "q" "d1" 0.5%float 1%float;
   mkPointwiseRecord "q" "d2" 0.25%float (-999)%float].

(** The same batch with a third record, of a positive relevance that is
    below the float32 numbers. *)
Definition batch_with_tiny_relevance : list PointwiseRecord :=
  batch_with_missing_relevance
  ++ [mkPointwiseRecord "q" "d3" 0.125%float 1e-46%float].

(** An iterator over a finite list of records. *)
Definition list_next (records : list PointwiseRecord)
  : result (PointwiseRecord * list PointwiseRecord) :=
  match records with
  | [] => Raise StopIteration
  | record :: rest => Ok (record, rest)
  end.

End PointwiseCases.

Module RunCases.
Import ValidationListener.

(** The table is empty, or it has an entry for every metric of the
    listener. *)
Definition empty_or_complete (self : Config) (w : World) : Prop :=
  top w = [] \/
  forall metric, In metric (keys (metrics self)) -> get (top w) metric <> None.

End RunCases.

(* ===================================================================== *)
(** * Part II. Theorems                                                    *)
(* ===================================================================== *)

(** ** Dictionaries and floats *)

Section DictFacts.
Context {V : Type}.

Lemma get_setitem_eq (d : dict V) (k : string) (v : V) :
  get (setitem d k v) k = Some v.
Proof.
  induction d as [|[k' v'] d IH]; simpl.
  - now rewrite String.eqb_refl.
  - destruct (String.eqb k' k) eqn:E; simpl; rewrite E; auto.
Qed.

Lemma get_setitem_ne (d : dict V) (k k' : string) (v : V) :
  k <> k' -> get (setitem d k v) k' = get d k'.
Proof.
  intros Hne. induction d as [|[k0 v0] d IH]; simpl.
  - destruct (String.eqb_spec k k'); [contradiction | reflexivity].
  - destruct (String.eqb_spec k0 k) as [->|Hk0]; simpl.
    + destruct (String.eqb_spec k k'); [contradiction | reflexivity].
    + now rewrite IH.
Qed.

Lemma keys_setitem_in (d : dict V) (k : string) (v : V) (x : string) :
  In x (keys (setitem d k v)) -> x = k \/ In x (keys d).
Proof.
  unfold keys. induction d as [|[k0 v0] d IH]; simpl.
  - intros [<-|[]]; auto.
  - destruct (String.eqb_spec k0 k) as [->|Hk0]; simpl.
    + tauto.
    + intros [<-|H]; [tauto|]. destruct (IH H); tauto.
Qed.

(** Assigning an item never duplicates a key. *)
Lemma NoDup_keys_setitem (d : dict V) (k : string) (v : V) :
  NoDup (keys d) -> NoDup (keys (setitem d k v)).
Proof.
  unfold keys. induction d as [|[k0 v0] d IH]; simpl; intros Hd.
  - constructor; [intros [] | constructor].
  - inversion Hd as [|? ? Hnotin Hd']; subst.
    destruct (String.eqb_spec k0 k) as [->|Hk0]; simpl.
    + now constructor.
    + constructor; [|now apply IH].
      intros Hin. apply keys_setitem_in in Hin. destruct Hin; [congruence|].
      now apply Hnotin.
Qed.

Lemma get_Some_In (d : dict V) (k : string) (v : V) :
  get d k = Some v -> In (k, v) d.
Proof.
  induction d as [|[k0 v0] d IH]; simpl; [discriminate|].
  destruct (String.eqb_spec k0 k) as [->|Hk0].
  - intros [= ->]. now left.
  - intros H. right. now apply IH.
Qed.

Lemma getitem_Ok (d : dict V) (k : string) (v : V) :
  getitem d k = Ok v <-> get d k = Some v.
Proof.
  unfold getitem. destruct (get d k); split; congruence.
Qed.

End DictFacts.

Lemma float_gt_irrefl (x : float) : float_gt x x = false.
Proof.
  unfold float_gt. rewrite ltb_spec. unfold SFltb.
  destruct (Prim2SF x) as [s|s| |s m e]; simpl; try reflexivity.
  - now destruct s.
  - destruct s; rewrite Z.compare_refl, Pos.compare_cont_refl; reflexivity.
Qed.

(** Python's [==] on floats excludes [>]. *)
Lemma float_eqb_not_gt (a b : float) :
  PrimFloat.eqb a b = true -> float_gt a b = false.
Proof.
  unfold float_gt. rewrite eqb_spec, ltb_spec. unfold SFeqb, SFltb.
  destruct (Prim2SF a) as [sa|sa| |sa ma ea], (Prim2SF b) as [sb|sb| |sb mb eb];
    simpl; try discriminate; try reflexivity;
    try destruct sa; try destruct sb; simpl; try discriminate; try reflexivity.
  all: destruct (Z.compare_spec ea eb) as [->| |]; try discriminate;
    rewrite Z.compare_refl;
    destruct (Pos.compare_cont Eq ma mb) eqn:E; simpl; try discriminate;
    apply Pos.compare_eq in E; subst; now rewrite Pos.compare_cont_refl.
Qed.

(** ** ValidationListener *)

Module ValidationListenerFacts.
Import ValidationListener.
Import ValidationListenerCases.

Lemma fold_left_max_spec (xs : list Z) (x : Z) :
  (fold_left Z.max xs x = x \/ In (fold_left Z.max xs x) xs) /\
  x <= fold_left Z.max xs x /\
  (forall y, In y xs -> y <= fold_left Z.max xs x).
Proof.
  revert x. induction xs as [|a xs IH]; intros x; simpl.
  - split; [now left|]. split; [lia|]. intros y [].
  - destruct (IH (Z.max x a)) as (Hin & Hle & Hall).
    split; [|split].
    + destruct Hin as [Heq|Hin]; [|now right; right].
      rewrite Heq. destruct (Z.max_spec x a) as [[_ ->]|[_ ->]]; auto.
    + lia.
    + intros y [<-|Hy]; [lia | now apply Hall].
Qed.

Lemma max_spec (l : list Z) :
  l <> [] ->
  exists m, max_ l = Ok m /\ In m l /\ forall y, In y l -> y <= m.
Proof.
  destruct l as [|x xs]; [congruence|]. intros _. simpl.
  destruct (fold_left_max_spec xs x) as (Hin & Hle & Hall).
  eexists. split; [reflexivity|]. split.
  - destruct Hin as [->|Hin]; [now left | now right].
  - intros y [<-|Hy]; [exact Hle | now apply Hall].
Qed.

Lemma kept_epochs_spec (ms : dict bool) (items : dict TopState) :
  (forall k t, In (k, t) items -> get ms k <> None) ->
  exists es,
    kept_epochs ms items = Ok es /\
    forall x, In x es <->
      exists k t, In (k, t) items /\ get ms k = Some true /\ top_epoch t = x.
Proof.
  induction items as [|[k t] items IH]; intros Hkeys; simpl.
  - exists []. split; [reflexivity|]. intros x; split; [intros [] |].
    intros (? & ? & [] & _).
  - destruct IH as (es & Hes & Hspec).
    { intros k' t' Hin. apply (Hkeys k' t'). now right. }
    unfold getitem. destruct (get ms k) as [keep|] eqn:Hk.
    2:{ exfalso. apply (Hkeys k t); [now left | exact Hk]. }
    simpl. rewrite Hes. simpl. eexists. split; [reflexivity|].
    intros x. destruct keep; simpl; rewrite Hspec; split.
    + intros [<-|(k' & t' & Hin & Hm & Hx)].
      * exists k, t. auto.
      * exists k', t'. auto.
    + intros (k' & t' & [[= <- <-]|Hin] & Hm & Hx); [now left|].
      right. exists k', t'. auto.
    + intros (k' & t' & Hin & Hm & Hx). exists k', t'. auto.
    + intros (k' & t' & [[= <- <-]|Hin] & Hm & Hx); [congruence|].
      exists k', t'. auto.
Qed.

(** C9. [__validate__] accepts exactly the configurations on which
    [early_stop % validation_interval] evaluates to 0: a value of [early_stop]
    that is not a multiple of [validation_interval] fails the construction
    (with the assertion error as soon as the interval is not zero), and
    [early_stop = 0] passes for every non-zero interval. The check is a pure
    function of the configuration: nothing is retried. *)
Theorem validate_multiple_of_interval (self : Config) :
  (validate self = Ok tt <->
     mod_ (early_stop self) (validation_interval self) = Ok 0) /\
  (~ (exists k, early_stop self = k * validation_interval self) ->
     is_ok (validate self) = false) /\
  (validation_interval self <> 0 ->
     ~ (exists k, early_stop self = k * validation_interval self) ->
     validate self =
       Raise (AssertionError
                "Early stop should be a multiple of the validation interval")) /\
  (validation_interval self <> 0 -> early_stop self = 0 ->
     validate self = Ok tt).
Proof.
  unfold validate, mod_.
  destruct (Z.eqb_spec (validation_interval self) 0) as [Hz|Hnz]; simpl.
  - repeat split; try congruence.
  - assert (Hdiv : early_stop self mod validation_interval self = 0 <->
                   exists k, early_stop self = k * validation_interval self).
    { rewrite Z.mod_divide by exact Hnz. reflexivity. }
    destruct (Z.eqb_spec (early_stop self mod validation_interval self) 0)
      as [Hm|Hm].
    + split; [|split; [|split]]; try congruence.
      * rewrite Hm. split; reflexivity.
      * intros Hno. exfalso. apply Hno. now apply Hdiv.
      * intros _ Hno. exfalso. apply Hno. now apply Hdiv.
    + split; [|split; [|split]]; try congruence.
      * split; [discriminate|]. intros [= H0]. contradiction.
      * intros _. reflexivity.
      * intros _ He. exfalso. apply Hm. rewrite He. apply Z.mod_0_l. exact Hnz.
Qed.

Lemma validate_multiple_of_interval_witness :
  validate map_listener = Ok tt /\
  is_ok (validate {| id := "v"; metrics := []; warmup := -1; bestpath := "b";
                     last_checkpoint_path := "l";
                     store_last_checkpoint := false; info := "i";
                     validation_interval := 2; early_stop := 3 |}) = false.
Proof.
  split.
  - apply (proj1 (validate_multiple_of_interval map_listener)). reflexivity.
  - apply (proj1 (proj2 (validate_multiple_of_interval _))). simpl.
    intros [k Hk]. lia.
Defined.

(** C10. With an empty best-table, [should_stop] answers [DONT_STOP] at every
    epoch and for every value of [early_stop]; this is in particular the case
    after [initialize] could not read the persisted table. *)
Theorem should_stop_empty_table (self : Config) (w : World) (e : Z) :
  (top w = [] -> should_stop self w e = Ok DONT_STOP) /\
  (info_file w = None -> should_stop self (initialize self w) e = Ok DONT_STOP).
Proof.
  unfold should_stop, initialize. split; intros H; simpl; rewrite H; simpl;
    now rewrite andb_false_r.
Qed.

Lemma should_stop_empty_table_witness :
  should_stop map_listener cold_start 1000 = Ok DONT_STOP /\
  should_stop map_listener (initialize map_listener cold_start) 1000
    = Ok DONT_STOP.
Proof.
  split.
  - apply (proj1 (should_stop_empty_table map_listener cold_start 1000)).
    reflexivity.
  - apply (proj2 (should_stop_empty_table map_listener cold_start 1000)).
    reflexivity.
Defined.

Lemma is_max_kept_epoch_unique (self : Config) (w : World) (m m' : Z) :
  is_max_kept_epoch self w m -> is_max_kept_epoch self w m' -> m = m'.
Proof.
  intros [(k & t & Hin & Hk & <-) Hmax] [(k' & t' & Hin' & Hk' & <-) Hmax'].
  specialize (Hmax k' t' Hin' Hk'). specialize (Hmax' k t Hin Hk). lia.
Qed.

(** What [should_stop] computes once the table holds a best for a kept
    metric. *)
Lemma should_stop_eval (self : Config) (w : World) (e m : Z) :
  (forall k t, In (k, t) (top w) -> get (metrics self) k <> None) ->
  is_max_kept_epoch self w m ->
  should_stop self w e =
    Ok (if (0 <? early_stop self)
           && (early_stop self <=? epoch_or e (context_epoch w) - m)
        then STOP else DONT_STOP).
Proof.
  intros Hkeys Hm. unfold should_stop.
  destruct (0 <? early_stop self); simpl; [|reflexivity].
  destruct (kept_epochs_spec (metrics self) (top w) Hkeys) as (es & Hes & Hspec).
  assert (Hne : es <> []).
  { destruct Hm as [(k & t & Hin & Hk & Hx) _].
    assert (In m es) by (apply Hspec; eauto). intros ->. contradiction. }
  destruct (max_spec es Hne) as (m' & Hmax & Hin' & Hall).
  assert (Hm' : is_max_kept_epoch self w m').
  { split.
    - now apply Hspec.
    - intros k t Hin Hk. apply Hall. apply Hspec. eauto. }
  rewrite (is_max_kept_epoch_unique _ _ _ _ Hm Hm').
  destruct Hm as [(k & t & Hin & _) _].
  assert (Ht : truthy (top w) = true).
  { destruct (top w); [destruct Hin | reflexivity]. }
  rewrite Ht, Hes. simpl. rewrite Hmax. simpl.
  now destruct (early_stop self <=? epoch_or e (context_epoch w) - m').
Qed.

(** C1, as stated, fails at epoch 0: the argument 0 stands for "the epoch of the
    context". This is what the call at epoch 1 asks, through
    [should_stop(state.epoch - 1)]: with a best recorded at epoch 0 and
    [early_stop = 1] the listener stops, although [0 - 0 < early_stop]. The
    claim also fails when the table only holds metrics whose checkpoint is not
    kept: the maximum is then taken over nothing and [should_stop] raises. *)
Lemma should_stop_epoch_zero_counterexample :
  top best_at_0_seen_at_1 = [("map"%string, mkTop 0.5%float 0)] /\
  context_epoch best_at_0_seen_at_1 = 1 /\
  is_max_kept_epoch eager_listener best_at_0_seen_at_1 0 /\
  should_stop eager_listener best_at_0_seen_at_1 0 = Ok STOP /\
  ~ (0 < early_stop eager_listener /\ early_stop eager_listener <= 0 - 0) /\
  should_stop unkept_map_listener best_at_0_seen_at_1 5
    = Raise (ValueError "max() arg is an empty sequence").
Proof.
  split; [reflexivity|]. split; [reflexivity|].
  split; [|split; [reflexivity|split; [|reflexivity]]].
  - split.
    + exists "map"%string, (mkTop 0.5%float 0). split; [now left | auto].
    + intros k t Hin _. vm_compute in Hin.
      destruct Hin as [[= <- <-]|[]]. simpl. lia.
  - simpl. lia.
Qed.

(** C1 (amended). Write [e'] for [e] when [e] is not 0 and for the epoch of
    the context when [e] is 0. When every recorded metric is a configured one
    and [m] is the largest best-epoch recorded for a kept metric,
    [should_stop e] returns [STOP] if and only if [early_stop > 0] and
    [e' - m >= early_stop], and [DONT_STOP] otherwise. With
    [validation_interval = 2], [early_stop = 4] and bests of ["map"] recorded
    at epochs 0, 2 and 4, [should_stop 8] is [STOP] and [should_stop 6] is
    [DONT_STOP]. *)
Theorem should_stop_rule (self : Config) (w : World) (e m : Z) :
  ((forall k t, In (k, t) (top w) -> get (metrics self) k <> None) ->
   is_max_kept_epoch self w m ->
   (should_stop self w e = Ok STOP <->
      0 < early_stop self /\
      early_stop self <= epoch_or e (context_epoch w) - m) /\
   (should_stop self w e = Ok STOP \/ should_stop self w e = Ok DONT_STOP)) /\
  (e <> 0 -> epoch_or e (context_epoch w) = e) /\
  top bests_at_0_2_4 = [("map"%string, mkTop 0.5%float 4)] /\
  should_stop map_listener bests_at_0_2_4 8 = Ok STOP /\
  should_stop map_listener bests_at_0_2_4 6 = Ok DONT_STOP.
Proof.
  split; [|split; [|split; [|split]]]; try (vm_compute; reflexivity).
  - intros Hkeys Hm. rewrite (should_stop_eval self w e m Hkeys Hm).
    destruct (Z.ltb_spec 0 (early_stop self));
      destruct (Z.leb_spec (early_stop self)
                  (epoch_or e (context_epoch w) - m)); simpl.
    + split; [|now left]. split; auto.
    + split; [|now right]. split; [discriminate|]. intros [_ ?]. lia.
    + split; [|now right]. split; [discriminate|]. intros [? _]. lia.
    + split; [|now right]. split; [discriminate|]. intros [? _]. lia.
  - intros He. unfold epoch_or. destruct (Z.eqb_spec e 0); congruence.
Qed.

Lemma should_stop_rule_witness :
  (should_stop map_listener bests_at_0_2_4 8 = Ok STOP <->
     0 < 4 /\ 4 <= 8 - 4) /\
  (should_stop map_listener bests_at_0_2_4 8 = Ok STOP \/
   should_stop map_listener bests_at_0_2_4 8 = Ok DONT_STOP).
Proof.
  apply (proj1 (should_stop_rule map_listener bests_at_0_2_4 8 4)).
  - intros k t Hin. vm_compute in Hin.
    destruct Hin as [[= <- <-]|[]]. discriminate.
  - split.
    + exists "map"%string, (mkTop 0.5%float 4). simpl. auto.
    + intros k t Hin _. simpl in Hin.
      destruct Hin as [[= <- <-]|[]]. simpl. lia.
Defined.

(** *** The best-so-far table *)

Lemma update_top_context (self : Config) (state : TrainState) (metric : string)
  (keep : bool) (value : float) (w : World) :
  context_epoch (update_top self state metric keep value w) = context_epoch w.
Proof.
  unfold update_top, save_top.
  destruct (warmup self <=? epoch state); [|reflexivity].
  destruct (get (top w) metric) as [t|];
    [destruct (float_gt value (top_value t))|]; destruct keep; reflexivity.
Qed.

Lemma update_top_NoDup (self : Config) (state : TrainState) (metric : string)
  (keep : bool) (value : float) (w : World) :
  (NoDup (keys (top w)) ->
   NoDup (keys (top (update_top self state metric keep value w)))) /\
  (NoDup (keys (directories w)) ->
   NoDup (keys (directories (update_top self state metric keep value w)))).
Proof.
  unfold update_top, save_top.
  destruct (warmup self <=? epoch state); [|tauto].
  destruct (get (top w) metric) as [t|];
    [destruct (float_gt value (top_value t))|]; destruct keep; simpl;
    split; intros H; try exact H; now apply NoDup_keys_setitem.
Qed.

Lemma update_top_entry (self : Config) (state : TrainState) (metric : string)
  (keep : bool) (value : float) (w : World) (m : string) (t : TopState) :
  get (top w) m = Some t ->
  exists t', get (top (update_top self state metric keep value w)) m = Some t'
    /\ (t' = t \/
        (m = metric /\ top_value t' = value
         /\ float_gt value (top_value t) = true)).
Proof.
  intros Hget. unfold update_top, save_top.
  destruct (warmup self <=? epoch state); [|eauto].
  destruct (String.eqb_spec metric m) as [->|Hne].
  - rewrite Hget. destruct (float_gt value (top_value t)) eqn:Hgt; [|eauto].
    exists (mkTop value (context_epoch w)).
    split; [destruct keep; simpl; apply get_setitem_eq | right; auto].
  - exists t. split; [|now left].
    destruct (get (top w) metric) as [t0|];
      [destruct (float_gt value (top_value t0))|]; destruct keep; simpl;
      rewrite ?get_setitem_ne by exact Hne; exact Hget.
Qed.

Lemma update_top_not_greater (self : Config) (state : TrainState)
  (metric : string) (keep : bool) (value : float) (w : World) (t : TopState) :
  get (top w) metric = Some t ->
  float_gt value (top_value t) = false ->
  update_top self state metric keep value w = w.
Proof.
  intros Hget Hgt. unfold update_top.
  destruct (warmup self <=? epoch state); [|reflexivity].
  now rewrite Hget, Hgt.
Qed.

Lemma update_top_other (self : Config) (state : TrainState) (metric : string)
  (keep : bool) (value : float) (w : World) (m : string) :
  metric <> m ->
  get (top (update_top self state metric keep value w)) m = get (top w) m.
Proof.
  intros Hne. unfold update_top, save_top.
  destruct (warmup self <=? epoch state); [|reflexivity].
  destruct (get (top w) metric) as [t0|];
    [destruct (float_gt value (top_value t0))|]; destruct keep; simpl;
    rewrite ?get_setitem_ne by exact Hne; reflexivity.
Qed.

Lemma validate_metrics_NoDup (self : Config) (state : TrainState)
  (ev : Evaluation) (items : dict bool) (w w' : World) :
  validate_metrics self state ev items w = Ok w' ->
  (NoDup (keys (top w)) -> NoDup (keys (top w'))) /\
  (NoDup (keys (directories w)) -> NoDup (keys (directories w'))).
Proof.
  revert w. induction items as [|[metric keep] items IH]; intros w; simpl.
  - intros [= ->]. tauto.
  - destruct (getitem (means ev) metric) as [value|]; [simpl|discriminate].
    destruct (getitem (details ev) metric) as [pq|]; [simpl|discriminate].
    intros Hrest. destruct (IH _ Hrest) as [Htop Hdir].
    match type of Hrest with
    | validate_metrics _ _ _ _ (update_top _ _ _ _ _ ?w0) = _ =>
        destruct (update_top_NoDup self state metric keep value w0) as [H1 H2]
    end.
    split; intros H; [apply Htop, H1 | apply Hdir, H2]; exact H.
Qed.

Lemma validate_metrics_entry (self : Config) (state : TrainState)
  (ev : Evaluation) (items : dict bool) (w w' : World) (m : string)
  (t : TopState) :
  validate_metrics self state ev items w = Ok w' ->
  get (top w) m = Some t ->
  exists t', get (top w') m = Some t'
             /\ same_or_improved (get (means ev) m) t t'.
Proof.
  revert w t. induction items as [|[metric keep] items IH]; intros w t; simpl.
  - intros [= ->] Hget. exists t. split; [exact Hget | now left].
  - destruct (getitem (means ev) metric) as [value|] eqn:Hvalue;
      [simpl|discriminate].
    destruct (getitem (details ev) metric) as [pq|]; [simpl|discriminate].
    intros Hrest Hget.
    match type of Hrest with
    | validate_metrics _ _ _ _ (update_top _ _ _ _ _ ?w0) = _ =>
        destruct (update_top_entry self state metric keep value w0 m t Hget)
          as (t1 & Hget1 & Hstep)
    end.
    destruct (IH _ _ Hrest Hget1) as (t' & Hget' & Hrel).
    exists t'. split; [exact Hget'|].
    apply getitem_Ok in Hvalue.
    destruct Hstep as [->|(-> & Hv1 & Hgt)]; [exact Hrel|].
    destruct Hrel as [->|[Hv' Hgt']].
    + right. rewrite Hv1. auto.
    + exfalso. rewrite Hvalue in Hv'. injection Hv' as Hv'.
      rewrite <- Hv', <- Hv1, float_gt_irrefl in Hgt'. discriminate.
Qed.

Lemma validate_metrics_equal (self : Config) (state : TrainState)
  (ev : Evaluation) (items : dict bool) (w w' : World) (m : string)
  (t : TopState) (v : float) :
  validate_metrics self state ev items w = Ok w' ->
  get (top w) m = Some t ->
  get (means ev) m = Some v ->
  PrimFloat.eqb v (top_value t) = true ->
  get (top w') m = Some t.
Proof.
  intros Hrun Hget Hv Heq. revert w Hrun Hget.
  induction items as [|[metric keep] items IH]; intros w; simpl.
  - now intros [= ->].
  - destruct (getitem (means ev) metric) as [value|] eqn:Hvalue;
      [simpl|discriminate].
    destruct (getitem (details ev) metric) as [pq|]; [simpl|discriminate].
    intros Hrest Hget. apply (IH _ Hrest).
    destruct (String.eqb_spec metric m) as [->|Hne].
    + apply getitem_Ok in Hvalue. rewrite Hv in Hvalue.
      injection Hvalue as <-.
      rewrite update_top_not_greater with (t := t); auto.
      now apply float_eqb_not_gt.
    + rewrite update_top_other by exact Hne. exact Hget.
Qed.

(** A call either leaves the world alone or runs one validation pass. *)
Lemma call_cases (self : Config) (state : TrainState) (ev : Evaluation)
  (w w' : World) (s : LearnerListenerStatus) :
  call self state ev w = Ok (w', s) ->
  w' = w \/
  exists w1, validate_metrics self state ev (metrics self) w = Ok w1 /\
             top w' = top w1 /\
             (directories w' = directories w1 \/
              directories w' =
                setitem (directories w1) (last_checkpoint_path self)
                  (context_epoch w1)).
Proof.
  unfold call.
  destruct (should_stop self w (epoch state - 1)) as [early|]; [simpl|discriminate].
  assert (Hgo :
    (r <- mod_ (epoch state) (validation_interval self) ;;
     w'0 <- (if r =? 0 then validation_pass self state ev w else Ok w) ;;
     status <- should_stop self w'0 0 ;; Ok (w'0, status)) = Ok (w', s) ->
    w' = w \/
    exists w1, validate_metrics self state ev (metrics self) w = Ok w1 /\
               top w' = top w1 /\
               (directories w' = directories w1 \/
                directories w' =
                  setitem (directories w1) (last_checkpoint_path self)
                    (context_epoch w1))).
  { destruct (mod_ (epoch state) (validation_interval self)) as [r|];
      [simpl|discriminate].
    destruct (r =? 0).
    - unfold validation_pass.
      destruct (validate_metrics self state ev (metrics self) w) as [w1|];
        [simpl|discriminate].
      match goal with
      | |- context [should_stop self ?x 0] =>
          destruct (should_stop self x 0); [simpl|discriminate]
      end.
      intros [= <- _]. right. exists w1. split; [reflexivity|].
      destruct (store_last_checkpoint self); simpl; auto.
    - simpl. destruct (should_stop self w 0); [simpl|discriminate].
      intros [= <- _]. now left. }
  destruct early; auto. intros [= <- _]. now left.
Qed.

Lemma call_NoDup (self : Config) (state : TrainState) (ev : Evaluation)
  (w w' : World) (s : LearnerListenerStatus) :
  call self state ev w = Ok (w', s) ->
  (NoDup (keys (top w)) -> NoDup (keys (top w'))) /\
  (NoDup (keys (directories w)) -> NoDup (keys (directories w'))).
Proof.
  intros Hcall.
  destruct (call_cases _ _ _ _ _ _ Hcall) as [->|(w1 & Hrun & Htop & Hdir)];
    [tauto|].
  destruct (validate_metrics_NoDup _ _ _ _ _ _ Hrun) as [H1 H2].
  rewrite Htop. split; [exact H1|].
  intros H. destruct Hdir as [->| ->]; [now apply H2|].
  apply NoDup_keys_setitem. now apply H2.
Qed.

Lemma calls_NoDup (self : Config) (inputs : list (TrainState * Evaluation))
  (w w' : World) (ss : list LearnerListenerStatus) :
  calls self inputs w = Ok (w', ss) ->
  NoDup (keys (top w)) /\ NoDup (keys (directories w)) ->
  NoDup (keys (top w')) /\ NoDup (keys (directories w')).
Proof.
  revert w ss. induction inputs as [|[state ev] inputs IH]; intros w ss; simpl.
  - now intros [= -> _].
  - destruct (call self state ev (at_epoch (epoch state) w)) as [[w1 s1]|] eqn:Hc;
      [simpl|discriminate].
    destruct (calls self inputs w1) as [[w2 ss2]|] eqn:Hcs; [simpl|discriminate].
    intros [= <- _] [Ht Hd]. apply (IH _ _ Hcs).
    destruct (call_NoDup _ _ _ _ _ _ Hc) as [H1 H2]. split; auto.
Qed.

(** *** The checkpoints of the best values *)

Lemma update_top_cases (self : Config) (state : TrainState) (metric : string)
  (keep : bool) (value : float) (w : World) :
  update_top self state metric keep value w = w \/
  (update_top self state metric keep value w = save_top self metric keep value w
   /\ (get (top w) metric = None \/
       exists t, get (top w) metric = Some t
                 /\ float_gt value (top_value t) = true)).
Proof.
  unfold update_top. destruct (warmup self <=? epoch state); [|now left].
  destruct (get (top w) metric) as [t|] eqn:Hget.
  - destruct (float_gt value (top_value t)) eqn:Hgt; [|now left].
    right. split; [reflexivity|]. right. eauto.
  - right. auto.
Qed.

Lemma save_top_entry (self : Config) (metric : string) (keep : bool)
  (value : float) (w : World) :
  get (top (save_top self metric keep value w)) metric
    = Some (mkTop value (context_epoch w)) /\
  (forall m, metric <> m ->
     get (top (save_top self metric keep value w)) m = get (top w) m) /\
  (forall target,
     get (directories (save_top self metric keep value w)) target
       <> get (directories w) target ->
     target = path_join (bestpath self) metric).
Proof.
  unfold save_top. destruct keep; simpl.
  - split; [apply get_setitem_eq|]. split.
    + intros m Hne. now apply get_setitem_ne.
    + intros target Hchanged.
      destruct (string_dec (path_join (bestpath self) metric) target) as [<-|Hne];
        [reflexivity|].
      exfalso. apply Hchanged. now apply get_setitem_ne.
  - split; [apply get_setitem_eq|]. split.
    + intros m Hne. now apply get_setitem_ne.
    + intros target Hchanged. now exfalso.
Qed.

Lemma option_Z_eq_dec (a b : option Z) : a = b \/ a <> b.
Proof.
  destruct a as [x|], b as [y|]; try (right; discriminate); [|now left].
  destruct (Z.eq_dec x y) as [->|Hne]; [now left | right; congruence].
Qed.

(** A strictly greater value than itself does not exist. *)
Lemma recorded_anew_not_twice (v : option float) (value : float) (e : Z)
  (after : option TopState) :
  v = Some value -> ~ recorded_anew v (Some (mkTop value e)) after.
Proof.
  intros Hv (t' & _ & Hv' & [Hnone|(t & [= <-] & Hgt)]); [discriminate|].
  simpl in Hgt. rewrite Hv in Hv'. injection Hv' as ->.
  rewrite float_gt_irrefl in Hgt. discriminate.
Qed.

Lemma validate_metrics_checkpoint (self : Config) (state : TrainState)
  (ev : Evaluation) (items : dict bool) (w w' : World) (target : string) :
  validate_metrics self state ev items w = Ok w' ->
  get (directories w') target <> get (directories w) target ->
  exists metric,
    target = path_join (bestpath self) metric /\
    recorded_anew (get (means ev) metric) (get (top w) metric)
      (get (top w') metric).
Proof.
  revert w. induction items as [|[metric keep] items IH]; intros w; simpl.
  - intros [= ->] Hchanged. now exfalso.
  - destruct (getitem (means ev) metric) as [value|] eqn:Hvalue;
      [simpl|discriminate].
    destruct (getitem (details ev) metric) as [pq|]; [simpl|discriminate].
    apply getitem_Ok in Hvalue.
    set (w2 := write _ (write _ w)).
    assert (Htop2 : top w2 = top w) by reflexivity.
    assert (Hdir2 : directories w2 = directories w) by reflexivity.
    intros Hrest Hchanged.
    destruct (update_top_cases self state metric keep value w2)
      as [Hsame|[Hsave Hbefore]].
    + rewrite Hsame in Hrest. destruct (IH w2 Hrest) as (m0 & Hm0 & Hnew).
      { now rewrite Hdir2. }
      exists m0. split; [exact Hm0|]. now rewrite <- Htop2.
    + rewrite Hsave in Hrest.
      destruct (save_top_entry self metric keep value w2)
        as (Hentry & Hother & Hdir).
      destruct (option_Z_eq_dec
                  (get (directories (save_top self metric keep value w2)) target)
                  (get (directories w2) target)) as [Heq|Hne].
      * destruct (IH _ Hrest) as (m0 & Hm0 & Hnew).
        { now rewrite Heq, Hdir2. }
        exists m0. split; [exact Hm0|].
        destruct (string_dec metric m0) as [<-|Hm].
        -- exfalso. rewrite Hentry in Hnew.
           now apply (recorded_anew_not_twice _ _ _ _ Hvalue) in Hnew.
        -- rewrite (Hother m0 Hm), Htop2 in Hnew. exact Hnew.
      * exists metric. split; [now apply Hdir|].
        destruct (validate_metrics_entry _ _ _ _ _ _ _ _ Hrest Hentry)
          as (t' & Hget' & [->|[Hv' Hgt']]).
        -- exists (mkTop value (context_epoch w2)).
           rewrite <- Htop2. auto.
        -- exfalso. simpl in Hgt'. rewrite Hvalue in Hv'. injection Hv' as ->.
           rewrite float_gt_irrefl in Hgt'. discriminate.
Qed.

Lemma call_checkpoint (self : Config) (state : TrainState) (ev : Evaluation)
  (w w' : World) (s : LearnerListenerStatus) (target : string) :
  call self state ev w = Ok (w', s) ->
  target <> last_checkpoint_path self ->
  get (directories w') target <> get (directories w) target ->
  exists metric,
    target = path_join (bestpath self) metric /\
    recorded_anew (get (means ev) metric) (get (top w) metric)
      (get (top w') metric).
Proof.
  intros Hcall Hlast Hchanged.
  destruct (call_cases _ _ _ _ _ _ Hcall) as [->|(w1 & Hrun & Htop & Hdir)];
    [now exfalso|].
  rewrite Htop. apply (validate_metrics_checkpoint _ _ _ _ _ _ _ Hrun).
  destruct Hdir as [Hdir|Hdir]; rewrite Hdir in Hchanged; [exact Hchanged|].
  rewrite get_setitem_ne in Hchanged by congruence. exact Hchanged.
Qed.

(** C3. A call of the listener keeps the table a dictionary with one entry
    per metric, and the checkpoint store one snapshot per directory; this holds
    along every sequence of calls. An entry present before a call is
    still present after it, and is either unchanged or replaced by an entry
    with a strictly greater value; an evaluation equal to the stored value
    leaves the entry as it is. A checkpoint directory other than that of the
    last checkpoint changes only as the best directory of a metric whose
    entry the call recorded anew. Validations yielding 0.5 then 0.3 leave
    [{0.5, first epoch}] and the checkpoint of the first epoch; a subsequent
    0.6 overwrites both; a second 0.5 overwrites nothing. *)
Theorem best_entry_overwritten_on_strict_improvement
  (self : Config) (state : TrainState) (ev : Evaluation) (w w' : World)
  (s : LearnerListenerStatus) :
  (call self state ev w = Ok (w', s) ->
   (NoDup (keys (top w)) -> NoDup (keys (top w'))) /\
   (NoDup (keys (directories w)) -> NoDup (keys (directories w'))) /\
   (forall metric t, get (top w) metric = Some t ->
      exists t', get (top w') metric = Some t' /\
        (t' = t \/ float_gt (top_value t') (top_value t) = true)) /\
   (forall metric t v,
      get (top w) metric = Some t -> get (means ev) metric = Some v ->
      PrimFloat.eqb v (top_value t) = true ->
      get (top w') metric = Some t) /\
   (forall target,
      target <> last_checkpoint_path self ->
      get (directories w') target <> get (directories w) target ->
      exists metric,
        target = path_join (bestpath self) metric /\
        recorded_anew (get (means ev) metric) (get (top w) metric)
          (get (top w') metric))) /\
  (forall inputs ss,
     calls self inputs w = Ok (w', ss) ->
     NoDup (keys (top w)) /\ NoDup (keys (directories w)) ->
     NoDup (keys (top w')) /\ NoDup (keys (directories w'))) /\
  (top (validations [(2, 0.5%float); (4, 0.3%float)])
     = [("map"%string, mkTop 0.5%float 2)] /\
   directories (validations [(2, 0.5%float); (4, 0.3%float)])
     = [("best/map"%string, 2)]) /\
  (top (validations [(2, 0.5%float); (4, 0.3%float); (6, 0.6%float)])
     = [("map"%string, mkTop 0.6%float 6)] /\
   directories (validations [(2, 0.5%float); (4, 0.3%float); (6, 0.6%float)])
     = [("best/map"%string, 6)]) /\
  (top (validations [(2, 0.5%float); (4, 0.5%float)])
     = [("map"%string, mkTop 0.5%float 2)] /\
   directories (validations [(2, 0.5%float); (4, 0.5%float)])
     = [("best/map"%string, 2)]).
Proof.
  split; [|split; [|repeat split; vm_compute; reflexivity]].
  - intros Hcall.
    destruct (call_NoDup _ _ _ _ _ _ Hcall) as [Htop Hdir].
    split; [exact Htop|]. split; [exact Hdir|].
    assert (Hcheckpoint :=
      fun target => call_checkpoint _ _ _ _ _ _ target Hcall).
    destruct (call_cases _ _ _ _ _ _ Hcall) as [->|(w1 & Hrun & Hw1 & _)].
    + split; [eauto|]. split; [auto | exact Hcheckpoint].
    + split; [|split; [|exact Hcheckpoint]]; rewrite Hw1.
      * intros metric t Hget.
        destruct (validate_metrics_entry _ _ _ _ _ _ _ _ Hrun Hget)
          as (t' & Hget' & [->|[_ Hgt]]); eauto.
      * intros metric t v.
        now apply (validate_metrics_equal _ _ _ _ _ _ _ _ _ Hrun).
  - intros inputs ss. apply calls_NoDup.
Qed.

Lemma best_entry_overwritten_on_strict_improvement_witness :
  exists t',
    get (top (validations [(2, 0.5%float); (4, 0.3%float); (6, 0.6%float)]))
      "map" = Some t' /\
    (t' = mkTop 0.5%float 2 \/ float_gt (top_value t') 0.5%float = true).
Proof.
  refine (proj1 (proj2 (proj2
    (proj1 (best_entry_overwritten_on_strict_improvement
              map_listener (state_at 6) (map_eval 0.6%float)
              (at_epoch 6 (validations [(2, 0.5%float); (4, 0.3%float)]))
              (validations [(2, 0.5%float); (4, 0.3%float); (6, 0.6%float)])
              DONT_STOP) _))) "map"%string (mkTop 0.5%float 2) _);
    vm_compute; reflexivity.
Defined.

End ValidationListenerFacts.

(** ** NegativeSamplerListener *)

Module NegativeSamplerListenerFacts.
Import NegativeSamplerListener.
Import NegativeSamplerListenerCases.

Lemma alter_length {A : Type} (f : A -> A) (j : nat) (l : list A) :
  List.length (alter f j l) = List.length l.
Proof.
  revert j. induction l as [|a l IH]; intros [|j]; simpl; auto.
Qed.

Lemma alter_alter {A : Type} (f g : A -> A) (j : nat) (l : list A) :
  alter f j (alter g j l) = alter (fun a => f (g a)) j l.
Proof.
  revert j. induction l as [|a l IH]; intros [|j]; simpl; auto.
  now rewrite IH.
Qed.

Lemma alter_ext {A : Type} (f g : A -> A) (j : nat) (l : list A) :
  (forall a, f a = g a) -> alter f j l = alter g j l.
Proof.
  intros Hfg. revert j. induction l as [|a l IH]; intros [|j]; simpl; auto.
  - now rewrite Hfg.
  - now rewrite IH.
Qed.

(** Setting the index of the iterator that was just created. *)
Lemma alter_last {A : Type} (l : list A) (a b : A) :
  alter (fun _ => b) (List.length l) (l ++ [a]) = l ++ [b].
Proof.
  induction l as [|x l IH]; simpl; [reflexivity | now rewrite IH].
Qed.

Lemma position_alter {A : Type} (f : A -> A) (j : nat) (l : list A) (i : Z) :
  position (alter f j l) i = position l i.
Proof.
  unfold position. now rewrite alter_length.
Qed.

Lemma position_second {A : Type} (l : list A) :
  (2 <= List.length l)%nat -> position l 1 = Ok 1%nat.
Proof.
  intros Hlen. unfold position. simpl.
  destruct (Z.ltb_spec 1 (Z.of_nat (List.length l))); [reflexivity | lia].
Qed.

Lemma call_other_epoch (self : Listener) (state : TrainState) (tr : Trainer) :
  sampling_interval self <> 0 ->
  epoch state mod sampling_interval self <> 0 ->
  call self state tr = Ok (self, tr, NO_DECISION).
Proof.
  intros Hi Hm. unfold call, mod_.
  destruct (Z.eqb_spec (sampling_interval self) 0); [contradiction|]. simpl.
  destruct (Z.eqb_spec (epoch state mod sampling_interval self) 0);
    [contradiction | reflexivity].
Qed.

Lemma call_first_trigger (self : Listener) (state : TrainState) (tr : Trainer)
  (j : nat) :
  sampling_interval self <> 0 ->
  epoch state mod sampling_interval self = 0 ->
  change self = true ->
  position (samplers tr) (sampler_index self + 1) = Ok j ->
  call self state tr =
    Ok ({| sampling_interval := sampling_interval self;
           change := false;
           sampler_index := sampler_index self + 1 |},
        {| samplers := alter S j (samplers tr);
           iterators := iterators tr ++ [sampler_index self + 1] |},
        NO_DECISION).
Proof.
  intros Hi Hm Hc Hj. unfold call, mod_.
  destruct (Z.eqb_spec (sampling_interval self) 0); [contradiction|]. simpl.
  rewrite Hm, Hc. simpl. unfold update, set_current. simpl.
  rewrite Hj. simpl. now rewrite alter_last.
Qed.

Lemma call_later_trigger (self : Listener) (state : TrainState) (tr : Trainer)
  (j : nat) :
  sampling_interval self <> 0 ->
  epoch state mod sampling_interval self = 0 ->
  change self = false ->
  position (samplers tr) (sampler_index self) = Ok j ->
  call self state tr =
    Ok (self,
        {| samplers := alter S j (samplers tr); iterators := iterators tr |},
        NO_DECISION).
Proof.
  intros Hi Hm Hc Hj. unfold call, mod_.
  destruct (Z.eqb_spec (sampling_interval self) 0); [contradiction|]. simpl.
  rewrite Hm, Hc. simpl. unfold update. now rewrite Hj.
Qed.

(** Once the switch is done, a run only updates the sub-sampler of the
    listener's index, once per trigger. *)
Lemma calls_after_switch (self : Listener) (states : list TrainState)
  (tr : Trainer) (j : nat) :
  sampling_interval self <> 0 ->
  change self = false ->
  position (samplers tr) (sampler_index self) = Ok j ->
  calls self states tr =
    Ok (self,
        {| samplers :=
             alter (Nat.add (List.length (triggers self states))) j
               (samplers tr);
           iterators := iterators tr |}).
Proof.
  intros Hi Hc. revert tr.
  induction states as [|state states IH]; intros tr Hj; simpl.
  - destruct tr as [ss its]. simpl. f_equal. f_equal. f_equal.
    clear. revert j. induction ss as [|a ss IH]; intros [|j]; simpl; auto.
    now rewrite <- IH.
  - destruct (Z.eqb_spec (epoch state mod sampling_interval self) 0) as [Hm|Hm].
    + rewrite (call_later_trigger self state tr j Hi Hm Hc Hj). simpl.
      rewrite IH by (simpl; now rewrite position_alter).
      simpl. rewrite alter_alter. f_equal. f_equal. f_equal.
      apply alter_ext. intros a. lia.
    + rewrite (call_other_epoch self state tr Hi Hm). simpl. now apply IH.
Qed.

Lemma calls_from_initialize (self : Listener) (states : list TrainState)
  (tr : Trainer) :
  sampling_interval self <> 0 ->
  (2 <= List.length (samplers tr))%nat ->
  calls (initialize self) states tr =
    Ok (match List.length (triggers self states) with
        | O => (initialize self, tr)
        | S n =>
            (switched self,
             {| samplers := alter (Nat.add (S n)) 1 (samplers tr);
                iterators := iterators tr ++ [1] |})
        end).
Proof.
  intros Hi Hlen.
  induction states as [|state states IH]; simpl; [reflexivity|].
  destruct (Z.eqb_spec (epoch state mod sampling_interval self) 0) as [Hm|Hm].
  - rewrite (call_first_trigger (initialize self) state tr 1 Hi Hm eq_refl)
      by (simpl; now apply position_second).
    cbn [Py.bind fst snd].
    change (sampler_index (initialize self) + 1) with 1.
    change (sampling_interval (initialize self)) with (sampling_interval self).
    fold (switched self).
    rewrite (calls_after_switch (switched self) states _ 1 Hi eq_refl)
      by (unfold switched; cbn [samplers sampler_index];
          apply position_second; now rewrite alter_length).
    cbn [samplers iterators]. rewrite alter_alter.
    cbn [List.length]. f_equal. f_equal. f_equal.
    change (triggers (switched self) states) with (triggers self states).
    destruct (samplers tr) as [|a [|b l]]; simpl; try reflexivity.
    f_equal. f_equal. lia.
  - rewrite (call_other_epoch (initialize self) state tr Hi Hm). simpl.
    exact IH.
Qed.

Lemma calls_without_trigger (self : Listener) (states : list TrainState)
  (tr : Trainer) :
  sampling_interval self <> 0 ->
  triggers self states = [] ->
  calls (initialize self) states tr = Ok (initialize self, tr).
Proof.
  intros Hi. induction states as [|state states IH]; simpl; [reflexivity|].
  destruct (Z.eqb_spec (epoch state mod sampling_interval self) 0) as [Hm|Hm];
    [discriminate|].
  intros Hnone.
  rewrite (call_other_epoch (initialize self) state tr Hi Hm). simpl.
  now apply IH.
Qed.

Lemma calls_without_second_sampler (self : Listener)
  (states : list TrainState) (tr : Trainer) :
  sampling_interval self <> 0 ->
  (List.length (samplers tr) < 2)%nat ->
  triggers self states <> [] ->
  calls (initialize self) states tr = Raise IndexError.
Proof.
  intros Hi Hlen. induction states as [|state states IH]; simpl;
    [congruence|].
  destruct (Z.eqb_spec (epoch state mod sampling_interval self) 0)
    as [Hm|Hm]; intros Htrig.
  - unfold call, mod_. simpl.
    destruct (Z.eqb_spec (sampling_interval self) 0); [contradiction|].
    simpl. rewrite Hm. simpl. unfold update, position. simpl.
    destruct (Z.ltb_spec 1 (Z.of_nat (List.length (samplers tr))));
      [lia | reflexivity].
  - rewrite (call_other_epoch (initialize self) state tr Hi Hm). simpl.
    now apply IH.
Qed.

Lemma calls_zero_interval (self : Listener) (states : list TrainState)
  (tr : Trainer) :
  sampling_interval self = 0 ->
  states <> [] ->
  calls (initialize self) states tr = Raise ZeroDivisionError.
Proof.
  intros Hz Hne. destruct states as [|state states]; [congruence|].
  simpl. unfold call, mod_. simpl. rewrite Hz. reflexivity.
Qed.

(** C7. The switch does not reach the iterators in use. In any run from
    [initialize] that ends without an exception, every iterator that the
    samplers had handed out before the run keeps its index: the
    [set_current] of the first trigger is applied to the iterator that
    [pairwise_iter()] builds at that moment, which nothing else holds. Once
    there has been a trigger, the index of the listener is 1, the one
    iterator at index 1 is that new one, and sub-sampler 1 has received one
    [update()] per trigger; sub-sampler 0, on which the iterators in use
    still are, has received none. Without a trigger nothing changes. *)
Theorem switch_misses_iterators_in_use (self self' : Listener)
  (states : list TrainState) (tr tr' : Trainer) :
  calls (initialize self) states tr = Ok (self', tr') ->
  firstn (List.length (iterators tr)) (iterators tr') = iterators tr /\
  nth_error (samplers tr') 0 = nth_error (samplers tr) 0 /\
  (triggers self states <> [] ->
   sampler_index self' = 1 /\
   change self' = false /\
   iterators tr' = (iterators tr ++ [1])%list /\
   nth_error (samplers tr') 1
   = option_map (Nat.add (List.length (triggers self states)))
       (nth_error (samplers tr) 1)) /\
  (triggers self states = [] -> self' = initialize self /\ tr' = tr).
Proof.
  intros Hrun.
  destruct (Z.eq_dec (sampling_interval self) 0) as [Hz|Hi].
  { destruct states as [|state states].
    - simpl in Hrun. assert (Hs : self' = initialize self) by congruence.
      assert (Ht : tr' = tr) by congruence. subst.
      split; [apply firstn_all|]. split; [reflexivity|].
      split; [intros H; now contradiction H | auto].
    - rewrite calls_zero_interval in Hrun by (auto; discriminate).
      discriminate. }
  destruct (triggers self states) as [|t ts] eqn:Htrig.
  { rewrite (calls_without_trigger self states tr Hi Htrig) in Hrun.
    assert (Hs : self' = initialize self) by congruence.
    assert (Ht : tr' = tr) by congruence. subst.
    split; [apply firstn_all|]. split; [reflexivity|].
    split; [intros H; now contradiction H | auto]. }
  destruct (Nat.lt_ge_cases (List.length (samplers tr)) 2) as [Hshort|Hlen].
  { rewrite (calls_without_second_sampler self states tr Hi Hshort) in Hrun
      by (rewrite Htrig; discriminate).
    discriminate. }
  rewrite (calls_from_initialize self states tr Hi Hlen), Htrig in Hrun.
  cbn [List.length] in Hrun.
  assert (Hs : self' = switched self) by congruence.
  assert (Ht : tr' = {| samplers :=
                          alter (Nat.add (S (List.length ts))) 1 (samplers tr);
                        iterators := (iterators tr ++ [1])%list |})
    by congruence.
  subst self' tr'. cbn [samplers iterators sampler_index change switched].
  split; [|split; [|split]].
  - rewrite firstn_app, Nat.sub_diag, firstn_all. cbn [firstn].
    apply app_nil_r.
  - destruct (samplers tr) as [|a [|b l]]; reflexivity.
  - intros _. split; [reflexivity|]. split; [reflexivity|].
    split; [reflexivity|].
    destruct (samplers tr) as [|a [|b l]]; reflexivity.
  - discriminate.
Qed.

(** A run over epochs 1 to 6 with an interval of 2, on two sub-samplers and
    the iterator that the trainer already holds: that iterator is still at
    index 0 after the run, and the three [update()] went to sub-sampler 1. *)
Lemma switch_misses_iterators_in_use_witness :
  let self := mkListener 2 true 0 in
  let states :=
    map (fun e => mkTrainState e (10 * e) "checkpoint") [1; 2; 3; 4; 5; 6] in
  let tr := mkTrainer [0; 0]%nat [0] in
  let tr' := mkTrainer [0; 3]%nat [0; 1] in
  let self' := mkListener 2 false 1 in
  calls (initialize self) states tr = Ok (self', tr') /\
  firstn (List.length (iterators tr)) (iterators tr') = iterators tr /\
  nth_error (samplers tr') 0 = nth_error (samplers tr) 0 /\
  (triggers self states <> [] ->
   sampler_index self' = 1 /\
   change self' = false /\
   iterators tr' = (iterators tr ++ [1])%list /\
   nth_error (samplers tr') 1
   = option_map (Nat.add (List.length (triggers self states)))
       (nth_error (samplers tr) 1)) /\
  (triggers self states = [] -> self' = initialize self /\ tr' = tr).
Proof.
  split; [reflexivity|].
  apply (switch_misses_iterators_in_use (mkListener 2 true 0)
           (mkListener 2 false 1)
           (map (fun e => mkTrainState e (10 * e) "checkpoint")
              [1; 2; 3; 4; 5; 6])
           (mkTrainer [0; 0]%nat [0]) (mkTrainer [0; 3]%nat [0; 1])).
  reflexivity.
Defined.

End NegativeSamplerListenerFacts.

(** ** Retrieval-based samplers: positives and negatives *)

Section DictInvariants.
Context {V : Type}.

Lemma In_get (d : dict V) (k : string) (v : V) :
  NoDup (keys d) -> In (k, v) d -> get d k = Some v.
Proof.
  unfold keys. induction d as [|[k0 v0] d IH]; simpl; intros Hd Hin; [easy|].
  inversion Hd as [|? ? Hnotin Hd']; subst.
  destruct Hin as [[= -> ->]|Hin].
  - now rewrite String.eqb_refl.
  - destruct (String.eqb_spec k0 k) as [->|Hne]; [|now apply IH].
    exfalso. apply Hnotin. apply in_map_iff. now exists (k, v).
Qed.

Lemma In_setitem (d : dict V) (k : string) (v : V) (x : string * V) :
  In x (setitem d k v) -> x = (k, v) \/ In x d.
Proof.
  induction d as [|[k0 v0] d IH]; simpl.
  - intros [<-|[]]. now left.
  - destruct (String.eqb_spec k0 k) as [->|Hne]; simpl.
    + intros [<-|Hin]; auto.
    + intros [<-|Hin]; auto. destruct (IH Hin); auto.
Qed.

End DictInvariants.

Lemma doc2rel_NoDup (qrels : AssessedTopic) : NoDup (keys (doc2rel_of qrels)).
Proof.
  unfold doc2rel_of.
  assert (H : forall l acc, NoDup (keys acc) ->
    NoDup (keys (fold_left
      (fun doc2rel qrel => setitem doc2rel (docno qrel) (rel qrel)) l acc))).
  { induction l as [|q l IH]; intros acc Hacc; simpl; [exact Hacc|].
    apply IH. now apply NoDup_keys_setitem. }
  apply H. constructor.
Qed.

Lemma read_assessments_values (data : list AssessedTopic) (q : string)
  (qa : dict Z) :
  get (read_assessments data) q = Some qa ->
  exists qrels, In qrels data /\ assessed_qid qrels = q /\ qa = doc2rel_of qrels.
Proof.
  unfold read_assessments.
  assert (H : forall l acc,
    (forall k v, In (k, v) acc ->
       exists qrels, In qrels data /\ assessed_qid qrels = k
                     /\ v = doc2rel_of qrels) ->
    (forall x, In x l -> In x data) ->
    forall k v,
      In (k, v) (fold_left
        (fun acc qrels => setitem acc (assessed_qid qrels) (doc2rel_of qrels))
        l acc) ->
      exists qrels, In qrels data /\ assessed_qid qrels = k
                    /\ v = doc2rel_of qrels).
  { induction l as [|x l IH]; intros acc Hacc Hl k v; simpl; [now apply Hacc|].
    apply IH.
    - intros k' v' Hin. apply In_setitem in Hin. destruct Hin as [[= -> ->]|Hin].
      + exists x. split; [apply Hl; now left | auto].
      + now apply Hacc.
    - intros y Hy. apply Hl. now right. }
  intros Hget. apply (H data [] ); auto.
  - intros k v [].
  - now apply get_Some_In.
Qed.

Module SplitFacts.
Import SplitCases.

Lemma positives_of_spec (qa : dict Z) (d : string) (r : Z) (s : float) :
  In (d, r, s) (ModelBasedSampler.positives_of qa) <->
  In (d, r) qa /\ 0 < r /\ s = 0%float.
Proof.
  unfold ModelBasedSampler.positives_of. rewrite in_flat_map. split.
  - intros ([d' r'] & Hin & Hx). simpl in Hx.
    destruct (Z.ltb_spec 0 r'); [|destruct Hx].
    destruct Hx as [[= -> -> <-]|[]]. auto.
  - intros (Hin & Hr & ->). exists (d, r). split; [exact Hin|]. simpl.
    destruct (Z.ltb_spec 0 r); [now left | lia].
Qed.

Lemma negatives_of_spec (qa : dict Z) (sds : list ScoredDocument) (d : string) :
  In d (names (ModelBasedSampler.negatives_of qa sds)) <->
  In d (map docid sds) /\ get_default qa d 0 <= 0.
Proof.
  unfold names, ModelBasedSampler.negatives_of.
  rewrite in_map_iff. split.
  - intros ([[d' r] s] & Hd & Hin). simpl in Hd. subst d'.
    apply in_flat_map in Hin. destruct Hin as (sd & Hsd & Hx).
    cbv zeta in Hx.
    destruct (Z.ltb_spec 0 (get_default qa (docid sd) 0)); [destruct Hx|].
    destruct Hx as [[= <- <- <-]|[]]. split; [now apply in_map | assumption].
  - intros (Hin & Hr). apply in_map_iff in Hin. destruct Hin as (sd & <- & Hsd).
    exists (docid sd, get_default qa (docid sd) 0, score sd).
    split; [reflexivity|]. apply in_flat_map. exists sd. split; [exact Hsd|].
    cbv zeta. destruct (Z.ltb_spec 0 (get_default qa (docid sd) 0));
      [lia | now left].
Qed.

Lemma split_spec (qa : dict Z) (sds : list ScoredDocument) (d : string) :
  (In d (fst (ModelBasedHardNegativeSampler.split qa sds)) <->
     In d (map docid sds) /\ 0 < get_default qa d 0) /\
  (In d (snd (ModelBasedHardNegativeSampler.split qa sds)) <->
     In d (map docid sds) /\ get_default qa d 0 <= 0).
Proof.
  unfold ModelBasedHardNegativeSampler.split. simpl. split; split.
  - intros Hd. apply in_map_iff in Hd. destruct Hd as (sd & <- & Hin).
    apply filter_In in Hin. destruct Hin as [Hin Hr].
    split; [now apply in_map | now apply Z.ltb_lt].
  - intros (Hin & Hr). apply in_map_iff in Hin. destruct Hin as (sd & <- & Hsd).
    apply in_map. apply filter_In. split; [exact Hsd|]. now apply Z.ltb_lt.
  - intros Hd. apply in_map_iff in Hd. destruct Hd as (sd & <- & Hin).
    apply filter_In in Hin. destruct Hin as [Hin Hr].
    split; [now apply in_map|]. apply negb_true_iff, Z.ltb_ge in Hr. exact Hr.
  - intros (Hin & Hr). apply in_map_iff in Hin. destruct Hin as (sd & <- & Hsd).
    apply in_map. apply filter_In. split; [exact Hsd|].
    apply negb_true_iff, Z.ltb_ge. exact Hr.
Qed.

Lemma topics_loop_yields (self : ModelBasedSampler.Config)
  (assessments : dict (dict Z)) (queries : list Topic)
  (ys : list (string * list ModelBasedSampler.Candidate
              * list ModelBasedSampler.Candidate)) (skipped : Z)
  (t : string) (pos neg : list ModelBasedSampler.Candidate) :
  ModelBasedSampler.topics_loop self assessments queries = Ok (ys, skipped) ->
  In (t, pos, neg) ys ->
  exists query qa,
    In query queries /\ get assessments (qid query) = Some qa /\
    t = text query /\
    pos = ModelBasedSampler.positives_of qa /\
    neg = ModelBasedSampler.negatives_of qa
            (ModelBasedSampler.retrieve self (text query)) /\
    pos <> [] /\ neg <> [].
Proof.
  revert ys skipped. induction queries as [|query rest IH]; intros ys skipped.
  - simpl. intros [= <- _] [].
  - simpl.
    destruct (ModelBasedSampler.topic_step self assessments query)
      as [r|] eqn:Hstep; [simpl|discriminate].
    destruct (ModelBasedSampler.topics_loop self assessments rest) as [[ys' sk']|]
      eqn:Hrest; [simpl|discriminate].
    assert (Htail : In (t, pos, neg) ys' -> exists query0 qa,
      In query0 (query :: rest) /\ get assessments (qid query0) = Some qa /\
      t = text query0 /\ pos = ModelBasedSampler.positives_of qa /\
      neg = ModelBasedSampler.negatives_of qa
              (ModelBasedSampler.retrieve self (text query0)) /\
      pos <> [] /\ neg <> []).
    { intros Hin. destruct (IH _ _ eq_refl Hin) as (q0 & qa & Hq0 & Hrest').
      exists q0, qa. split; [now right | exact Hrest']. }
    destruct r as [y|]; intros [= <- _]; [|exact Htail].
    intros [->|Hin]; [|now apply Htail].
    unfold ModelBasedSampler.topic_step in Hstep.
    destruct (get assessments (qid query)) as [qa|] eqn:Hqa; [|discriminate].
    destruct (truthy qa); simpl in Hstep; [|discriminate].
    destruct (ModelBasedSampler.positives_of qa) as [|p ps] eqn:Hpos;
      simpl in Hstep; [discriminate|].
    destruct (ModelBasedSampler.negatives_of qa
                (ModelBasedSampler.retrieve self (text query))) as [|n ns] eqn:Hneg;
      simpl in Hstep; [discriminate|].
    injection Hstep as Ht Hp Hn. subst t pos neg.
    exists query, qa. simpl. repeat split; auto; discriminate.
Qed.

Lemma execute_writes (self : ModelBasedHardNegativeSampler.Config)
  (assessments : dict (dict Z)) (qrels : option AssessedTopic)
  (queries : list Topic) (ws : list string) (skipped : Z) (w : string) :
  ModelBasedHardNegativeSampler.topics_loop self assessments qrels queries
    = Ok (ws, skipped) ->
  In w ws ->
  exists query qa last_qrels,
    In query queries /\ get assessments (qid query) = Some qa /\
    qrels = Some last_qrels /\
    let sds := ModelBasedHardNegativeSampler.retrieve self (text query) in
    let positives := fst (ModelBasedHardNegativeSampler.split qa sds) in
    let negatives := snd (ModelBasedHardNegativeSampler.split qa sds) in
    w = ModelBasedHardNegativeSampler.line (assessed_qid last_qrels)
          (join " " positives) (join " " negatives) /\
    positives <> [] /\ negatives <> [].
Proof.
  revert ws skipped. induction queries as [|query rest IH]; intros ws skipped.
  - simpl. intros [= <- _] [].
  - simpl.
    destruct (ModelBasedHardNegativeSampler.topic_step self assessments qrels query)
      as [r|] eqn:Hstep; [simpl|discriminate].
    destruct (ModelBasedHardNegativeSampler.topics_loop self assessments qrels rest)
      as [[ws' sk']|] eqn:Hrest; [simpl|discriminate].
    assert (Htail : In w ws' -> exists query0 qa last_qrels,
      In query0 (query :: rest) /\ get assessments (qid query0) = Some qa /\
      qrels = Some last_qrels /\
      let sds := ModelBasedHardNegativeSampler.retrieve self (text query0) in
      let positives := fst (ModelBasedHardNegativeSampler.split qa sds) in
      let negatives := snd (ModelBasedHardNegativeSampler.split qa sds) in
      w = ModelBasedHardNegativeSampler.line (assessed_qid last_qrels)
            (join " " positives) (join " " negatives) /\
      positives <> [] /\ negatives <> []).
    { intros Hin. destruct (IH _ _ eq_refl Hin) as (q0 & qa & lq & Hq0 & Hrest').
      exists q0, qa, lq. split; [now right | exact Hrest']. }
    destruct r as [written|]; intros [= <- _]; [|exact Htail].
    intros [->|Hin]; [|now apply Htail].
    unfold ModelBasedHardNegativeSampler.topic_step in Hstep.
    destruct (get assessments (qid query)) as [qa|] eqn:Hqa; [|discriminate].
    destruct (truthy qa); cbn [negb] in Hstep; [|discriminate].
    destruct (ModelBasedHardNegativeSampler.split qa
                (ModelBasedHardNegativeSampler.retrieve self (text query)))
      as [positives negatives] eqn:Hsplit.
    destruct positives as [|p ps]; cbn [negb truthy] in Hstep; [discriminate|].
    destruct negatives as [|n ns]; cbn [negb truthy] in Hstep; [discriminate|].
    destruct qrels as [lq|]; [|discriminate].
    injection Hstep as <-.
    unfold ModelBasedHardNegativeSampler.split in Hsplit.
    injection Hsplit as Hp Hn.
    exists query, qa, lq. cbv zeta. simpl. rewrite Hp, Hn.
    repeat split; auto; discriminate.
Qed.

(** C4, as stated, fails on its own example: [d3] is judged, its relevance
    [-1] is not greater than 0, and yet it is no negative candidate, in
    neither sampler: the negatives are taken from the retrieved documents. *)
Lemma judged_unretrieved_counterexample :
  read_assessments (assessments judged_d1_d2_d3)
    = [("q1"%string, judgements_example)] /\
  get judgements_example "d3" = Some (-1) /\
  ModelBasedSampler.itertopics model_based_example
    = Ok ([("first query"%string,
            [("d1"%string, 1, 0%float)],
            [("d2"%string, 0, 2%float); ("d4"%string, 0, 1%float)])], 0) /\
  ~ In "d3"%string
      (names [("d2"%string, 0, 2%float); ("d4"%string, 0, 1%float)]) /\
  ModelBasedHardNegativeSampler.split judgements_example
    (retrieves_d1_d2_d4 "first query")
    = (["d1"%string], ["d2"%string; "d4"%string]) /\
  ~ In "d3"%string ["d2"%string; "d4"%string].
Proof.
  repeat split; try reflexivity.
  - simpl. intros [H|[H|[]]]; discriminate.
  - simpl. intros [H|[H|[]]]; discriminate.
Qed.

(** The split of [_itertopics] with the judgements of a query of the
    dataset. *)
Lemma judged_split (self : ModelBasedSampler.Config) (data : list AssessedTopic)
  (query : Topic) (qa : dict Z) :
  get (read_assessments data) (qid query) = Some qa ->
  (forall d,
     In d (names (ModelBasedSampler.positives_of qa)) <->
     exists r, get qa d = Some r /\ 0 < r) /\
  (forall d,
     In d (names (ModelBasedSampler.negatives_of qa
                    (ModelBasedSampler.retrieve self (text query)))) <->
     In d (map docid (ModelBasedSampler.retrieve self (text query)))
     /\ get_default qa d 0 <= 0).
Proof.
  intros Hqa. split.
  - destruct (read_assessments_values _ _ _ Hqa) as (qrels & _ & _ & ->).
    intros d. unfold names. rewrite in_map_iff. split.
    + intros ([[d' r] s0] & Hd & Hc). simpl in Hd. subst d'.
      apply positives_of_spec in Hc. destruct Hc as (Hc & Hr & _).
      exists r. split; [|exact Hr].
      apply In_get; [apply doc2rel_NoDup | exact Hc].
    + intros (r & Hget & Hr). exists (d, r, 0%float). split; [reflexivity|].
      apply positives_of_spec. split; [now apply get_Some_In | auto].
  - intros d. apply negatives_of_spec.
Qed.

(** A query that the loop goes over and that has a document judged positive
    is yielded, when the loop ends without failure. *)
Lemma topics_loop_includes (self : ModelBasedSampler.Config)
  (assessments : dict (dict Z)) (queries : list Topic)
  (ys : list (string * list ModelBasedSampler.Candidate
              * list ModelBasedSampler.Candidate)) (skipped : Z)
  (query : Topic) (qa : dict Z) :
  ModelBasedSampler.topics_loop self assessments queries = Ok (ys, skipped) ->
  In query queries ->
  get assessments (qid query) = Some qa ->
  ModelBasedSampler.positives_of qa <> [] ->
  In (text query, ModelBasedSampler.positives_of qa,
      ModelBasedSampler.negatives_of qa
        (ModelBasedSampler.retrieve self (text query))) ys.
Proof.
  revert ys skipped. induction queries as [|q rest IH]; intros ys skipped;
    [intros _ []|].
  cbn [ModelBasedSampler.topics_loop].
  destruct (ModelBasedSampler.topic_step self assessments q)
    as [r|] eqn:Hstep; [cbn [Py.bind]|discriminate].
  destruct (ModelBasedSampler.topics_loop self assessments rest)
    as [[ys' sk']|] eqn:Hrest; [cbn [Py.bind]|discriminate].
  intros Heq Hin Hqa Hpos.
  assert (Hys : ys = match r with Some y => y :: ys' | None => ys' end).
  { destruct r; unfold fst, snd in Heq; congruence. }
  subst ys. destruct Hin as [->|Hin].
  - unfold ModelBasedSampler.topic_step in Hstep. rewrite Hqa in Hstep.
    destruct qa as [|item qa]; [now contradiction Hpos|].
    cbn [truthy negb] in Hstep.
    destruct (ModelBasedSampler.positives_of (item :: qa)) as [|p ps];
      [congruence|].
    cbn [truthy negb andb] in Hstep.
    destruct (ModelBasedSampler.negatives_of (item :: qa)
                (ModelBasedSampler.retrieve self (text query))) as [|n ns];
      cbn [truthy] in Hstep; [discriminate|].
    assert (Hr : r = Some (text query, p :: ps, n :: ns)) by congruence.
    subst r. now left.
  - specialize (IH ys' sk' eq_refl Hin Hqa Hpos).
    destruct r; [now right | exact IH].
Qed.

(** C4 (amended). The entries of the two samplers are those of the queries
    they go over, each one split with the judgements of its own query.
    Every topic that [_itertopics] yields is that of a query of the loop,
    which is over the topics of the dataset, or over the sample drawn from
    them: its positives are the documents of that query judged with a
    relevance greater than 0, and its negatives are the documents retrieved
    for that query whose judged relevance (0 when unjudged) is not greater
    than 0; conversely every query of the loop that has a document judged
    positive is yielded with that split. Every string that [execute] writes
    is that of a topic of the dataset: its positives are the documents
    retrieved for that topic and judged greater than 0, and its negatives
    are the other documents retrieved for it. A judged document that is not
    retrieved is no negative candidate. With judgements
    [{d1: 1, d2: 0, d3: -1}] and retrieved documents [d1], [d2], [d4], both
    give positives [d1] and negatives [d2; d4]. *)
Theorem positives_and_retrieved_negatives :
  (forall self ys skipped,
     ModelBasedSampler.itertopics self = Ok (ys, skipped) ->
     exists queries,
       processed self queries /\
       (forall t pos neg,
          In (t, pos, neg) ys ->
          exists query qa,
            In query queries /\
            get (read_assessments
                   (assessments (ModelBasedSampler.dataset self)))
              (qid query) = Some qa /\
            (t, pos, neg)
            = (text query, ModelBasedSampler.positives_of qa,
               ModelBasedSampler.negatives_of qa
                 (ModelBasedSampler.retrieve self (text query))) /\
            (forall d,
               In d (names pos) <-> exists r, get qa d = Some r /\ 0 < r) /\
            (forall d,
               In d (names neg) <->
               In d (map docid (ModelBasedSampler.retrieve self (text query)))
               /\ get_default qa d 0 <= 0)) /\
       (forall query qa,
          In query queries ->
          get (read_assessments
                 (assessments (ModelBasedSampler.dataset self)))
            (qid query) = Some qa ->
          (exists d r, get qa d = Some r /\ 0 < r) ->
          exists pos neg,
            In (text query, pos, neg) ys /\
            (forall d,
               In d (names pos) <-> exists r, get qa d = Some r /\ 0 < r) /\
            (forall d,
               In d (names neg) <->
               In d (map docid (ModelBasedSampler.retrieve self (text query)))
               /\ get_default qa d 0 <= 0))) /\
  (forall self ws skipped w,
     ModelBasedHardNegativeSampler.execute self = Ok (ws, skipped) ->
     In w ws ->
     exists query qa written_qid pos neg,
       In query (topics (ModelBasedHardNegativeSampler.dataset self)) /\
       get (read_assessments
              (assessments (ModelBasedHardNegativeSampler.dataset self)))
         (qid query) = Some qa /\
       (pos, neg)
       = ModelBasedHardNegativeSampler.split qa
           (ModelBasedHardNegativeSampler.retrieve self (text query)) /\
       w = ModelBasedHardNegativeSampler.line written_qid
             (join " " pos) (join " " neg) /\
       (forall d, In d pos <->
          In d (map docid
                  (ModelBasedHardNegativeSampler.retrieve self (text query)))
          /\ 0 < get_default qa d 0) /\
       (forall d, In d neg <->
          In d (map docid
                  (ModelBasedHardNegativeSampler.retrieve self (text query)))
          /\ get_default qa d 0 <= 0)) /\
  ModelBasedSampler.itertopics model_based_example
    = Ok ([("first query"%string,
            [("d1"%string, 1, 0%float)],
            [("d2"%string, 0, 2%float); ("d4"%string, 0, 1%float)])], 0) /\
  ModelBasedHardNegativeSampler.split judgements_example
    (retrieves_d1_d2_d4 "first query")
    = (["d1"%string], ["d2"%string; "d4"%string]) /\
  ModelBasedHardNegativeSampler.execute hard_negative_example
    = Ok ([ModelBasedHardNegativeSampler.line "q1" "d1" "d2 d4"], 0).
Proof.
  split; [|split; [|repeat split; reflexivity]].
  - intros self ys skipped Hrun.
    unfold ModelBasedSampler.itertopics in Hrun. unfold processed.
    destruct (0 <=? ModelBasedSampler.max_query self).
    + destruct (ModelBasedSampler.random_sample self
                  (topics (ModelBasedSampler.dataset self))
                  (ModelBasedSampler.max_query self)) as [queries|];
        [cbn [Py.bind] in Hrun|discriminate].
      exists queries. split; [reflexivity|]. split.
      * intros t pos neg Hin.
        destruct (topics_loop_yields _ _ _ _ _ _ _ _ Hrun Hin)
          as (query & qa & Hquery & Hqa & -> & -> & -> & _).
        exists query, qa. split; [exact Hquery|]. split; [exact Hqa|].
        split; [reflexivity|]. exact (judged_split self _ query qa Hqa).
      * intros query qa Hquery Hqa (d & r & Hget & Hr).
        eexists _, _. split.
        -- apply (topics_loop_includes _ _ _ _ _ query qa Hrun Hquery Hqa).
           intros Hnil.
           assert (Hd : In (d, r, 0%float) (ModelBasedSampler.positives_of qa)).
           { apply positives_of_spec. split; [now apply get_Some_In | auto]. }
           rewrite Hnil in Hd. destruct Hd.
        -- exact (judged_split self _ query qa Hqa).
    + cbn [Py.bind] in Hrun.
      exists (topics (ModelBasedSampler.dataset self)).
      split; [reflexivity|]. split.
      * intros t pos neg Hin.
        destruct (topics_loop_yields _ _ _ _ _ _ _ _ Hrun Hin)
          as (query & qa & Hquery & Hqa & -> & -> & -> & _).
        exists query, qa. split; [exact Hquery|]. split; [exact Hqa|].
        split; [reflexivity|]. exact (judged_split self _ query qa Hqa).
      * intros query qa Hquery Hqa (d & r & Hget & Hr).
        eexists _, _. split.
        -- apply (topics_loop_includes _ _ _ _ _ query qa Hrun Hquery Hqa).
           intros Hnil.
           assert (Hd : In (d, r, 0%float) (ModelBasedSampler.positives_of qa)).
           { apply positives_of_spec. split; [now apply get_Some_In | auto]. }
           rewrite Hnil in Hd. destruct Hd.
        -- exact (judged_split self _ query qa Hqa).
  - intros self ws skipped w Hrun Hin.
    destruct (execute_writes _ _ _ _ _ _ _ Hrun Hin)
      as (query & qa & lq & Hquery & Hqa & _ & Hw & _).
    cbv zeta in Hw.
    exists query, qa, (assessed_qid lq),
      (fst (ModelBasedHardNegativeSampler.split qa
              (ModelBasedHardNegativeSampler.retrieve self (text query)))),
      (snd (ModelBasedHardNegativeSampler.split qa
              (ModelBasedHardNegativeSampler.retrieve self (text query)))).
    split; [exact Hquery|]. split; [exact Hqa|].
    split; [symmetry; apply surjective_pairing|]. split; [exact Hw|].
    split; intros d; apply split_spec.
Qed.

Lemma positives_and_retrieved_negatives_witness :
  (exists queries,
     processed model_based_example queries /\
     (forall t pos neg,
        In (t, pos, neg)
          [("first query"%string,
            [("d1"%string, 1, 0%float)],
            [("d2"%string, 0, 2%float); ("d4"%string, 0, 1%float)])] ->
        exists query qa,
          In query queries /\
          get (read_assessments (assessments judged_d1_d2_d3)) (qid query)
          = Some qa /\
          (t, pos, neg)
          = (text query, ModelBasedSampler.positives_of qa,
             ModelBasedSampler.negatives_of qa
               (retrieves_d1_d2_d4 (text query))) /\
          (forall d,
             In d (names pos) <-> exists r, get qa d = Some r /\ 0 < r) /\
          (forall d,
             In d (names neg) <->
             In d (map docid (retrieves_d1_d2_d4 (text query)))
             /\ get_default qa d 0 <= 0)) /\
     (forall query qa,
        In query queries ->
        get (read_assessments (assessments judged_d1_d2_d3)) (qid query)
        = Some qa ->
        (exists d r, get qa d = Some r /\ 0 < r) ->
        exists pos neg,
          In (text query, pos, neg)
            [("first query"%string,
              [("d1"%string, 1, 0%float)],
              [("d2"%string, 0, 2%float); ("d4"%string, 0, 1%float)])] /\
          (forall d,
             In d (names pos) <-> exists r, get qa d = Some r /\ 0 < r) /\
          (forall d,
             In d (names neg) <->
             In d (map docid (retrieves_d1_d2_d4 (text query)))
             /\ get_default qa d 0 <= 0))) /\
  (exists query qa written_qid pos neg,
     In query (topics judged_d1_d2_d3) /\
     get (read_assessments (assessments judged_d1_d2_d3)) (qid query) = Some qa /\
     (pos, neg)
     = ModelBasedHardNegativeSampler.split qa (retrieves_d1_d2_d4 (text query)) /\
     ModelBasedHardNegativeSampler.line "q1" "d1" "d2 d4"
       = ModelBasedHardNegativeSampler.line written_qid
           (join " " pos) (join " " neg) /\
     (forall d, In d pos <->
        In d (map docid (retrieves_d1_d2_d4 (text query)))
        /\ 0 < get_default qa d 0) /\
     (forall d, In d neg <->
        In d (map docid (retrieves_d1_d2_d4 (text query)))
        /\ get_default qa d 0 <= 0)).
Proof.
  split.
  - refine (proj1 positives_and_retrieved_negatives model_based_example
              _ 0 _).
    reflexivity.
  - refine (proj1 (proj2 positives_and_retrieved_negatives)
              hard_negative_example _ 0
              (ModelBasedHardNegativeSampler.line "q1" "d1" "d2 d4") _ _).
    + reflexivity.
    + simpl. now left.
Defined.

End SplitFacts.

(** ** The hard-negative export *)

Module ExportFacts.
Import ModelBasedHardNegativeSampler.
Import ExportCases.

(** Whatever [execute] writes starts with the id of the last assessed topic. *)
Lemma execute_writes_last_assessed (self : Config) (ws : list string)
  (skipped : Z) (w : string) :
  execute self = Ok (ws, skipped) ->
  In w ws ->
  exists last_qrels positive_str negative_str,
    qrels_after_loop (assessments (dataset self)) = Some last_qrels /\
    w = line (assessed_qid last_qrels) positive_str negative_str.
Proof.
  intros Hrun Hin.
  destruct (SplitFacts.execute_writes _ _ _ _ _ _ _ Hrun Hin)
    as (query & qa & lq & _ & _ & Hlast & Hw & _).
  cbv zeta in Hw. eauto.
Qed.

(** C6. On two assessed topics [q1], [q2] and the single topic [q1] to
    export, [execute] writes the fields of [q1] behind the id [q2]: the first
    field is the id of the last assessed topic, not of the exported query. *)
Theorem export_line_names_last_assessed_topic :
  execute two_assessed_topics = Ok ([line "q2" "d1" "d2"], 0) /\
  map qid (topics (dataset two_assessed_topics)) = ["q1"%string] /\
  line "q2" "d1" "d2" <> line "q1" "d1" "d2".
Proof.
  split; [reflexivity|]. split; [reflexivity|]. discriminate.
Qed.

End ExportFacts.

(** ** In-batch negatives *)

Module InBatchFacts.
Import PairwiseInBatchNegativesSampler.
Import InBatchCases.

Lemma cat1_rows (f : nat -> list float) (z : list float) (n start : nat) :
  Torch.cat1 (map f (seq start n)) (repeat z n)
  = Ok (map (fun i => f i ++ z) (seq start n)).
Proof.
  revert start. induction n as [|n IH]; intros start; simpl; [reflexivity|].
  now rewrite IH.
Qed.

Lemma relevance_matrix_rows (b : nat) :
  relevance_matrix (Z.of_nat b) = Ok (map (relevance_row b) (seq 0 b)).
Proof.
  unfold relevance_matrix, Torch.eye, Torch.zeros.
  destruct (Z.ltb_spec (Z.of_nat b) 0) as [Hneg|_]; [lia|]. simpl.
  rewrite Nat2Z.id. apply cat1_rows.
Qed.

Lemma relevance_row_length (n i : nat) :
  List.length (relevance_row n i) = (2 * n)%nat.
Proof.
  unfold relevance_row.
  rewrite length_app, length_map, length_seq, repeat_length. lia.
Qed.

Lemma relevance_row_entry (n i j : nat) :
  (i < n)%nat -> (j < 2 * n)%nat ->
  nth j (relevance_row n i) nan
  = if Nat.eqb i j then 1%float else 0%float.
Proof.
  intros Hi Hj. unfold relevance_row.
  destruct (Nat.lt_ge_cases j n) as [Hlt|Hge].
  - rewrite app_nth1 by (rewrite length_map, length_seq; exact Hlt).
    rewrite (nth_indep _ nan (if Nat.eqb i 0 then 1%float else 0%float))
      by (rewrite length_map, length_seq; exact Hlt).
    rewrite (map_nth (fun j => if Nat.eqb i j then 1%float else 0%float)).
    now rewrite seq_nth by exact Hlt.
  - rewrite app_nth2 by (rewrite length_map, length_seq; exact Hge).
    rewrite length_map, length_seq.
    destruct (Nat.eqb_spec i j) as [->|_]; [lia|].
    apply nth_repeat_lt. lia.
Qed.

Section Batches.
Variable PairIter : Type.
Variable pair_next : PairIter -> result (PairwiseRecord * PairIter).

Lemma next_keeps_matrix (g g' : Generator PairIter) (batch : ProductRecords) :
  next PairIter pair_next g = Ok (batch, g') ->
  relevances batch = Some (precomputed PairIter g) /\
  precomputed PairIter g' = precomputed PairIter g /\
  batch_size PairIter g' = batch_size PairIter g.
Proof.
  unfold next.
  destruct (take PairIter pair_next _ _) as [[records it']|];
    [simpl|discriminate].
  intros [= <- <-]. simpl. auto.
Qed.

Lemma batches_keep_matrix (n : nat) (g g' : Generator PairIter)
  (bs : list ProductRecords) :
  batches PairIter pair_next n g = Ok (bs, g') ->
  List.length bs = n /\
  precomputed PairIter g' = precomputed PairIter g /\
  forall batch, In batch bs -> relevances batch = Some (precomputed PairIter g).
Proof.
  revert g bs. induction n as [|n IH]; intros g bs; simpl.
  - intros [= <- <-]. repeat split; auto. intros batch [].
  - destruct (next PairIter pair_next g) as [[batch g1]|] eqn:Hnext;
      [simpl|discriminate].
    destruct (batches PairIter pair_next n g1) as [[bs' g2]|] eqn:Hrest;
      [simpl|discriminate].
    intros [= <- <-].
    destruct (next_keeps_matrix _ _ _ Hnext) as (Hb & Hm & _).
    destruct (IH _ _ Hrest) as (Hlen & Hm' & Hall).
    split; [simpl; now rewrite Hlen|]. split; [congruence|].
    intros b [<-|Hin]; [exact Hb|]. rewrite (Hall b Hin). now rewrite Hm.
Qed.

End Batches.

Section BatchesTotal.
Variable PairIter : Type.
Variable pair_next : PairIter -> result (PairwiseRecord * PairIter).

Lemma take_total (n : nat) (it : PairIter) :
  yields_or_stops PairIter pair_next ->
  is_ok (take PairIter pair_next n it) = true.
Proof.
  intros Hstop. revert it. induction n as [|n IH]; intros it; simpl; auto.
  destruct (pair_next it) as [[record it']|e] eqn:Hnext.
  - specialize (IH it'). destruct (take PairIter pair_next n it'); auto.
  - now rewrite (Hstop it e Hnext).
Qed.

Lemma batches_total (n : nat) (g : Generator PairIter) :
  yields_or_stops PairIter pair_next ->
  is_ok (batches PairIter pair_next n g) = true.
Proof.
  intros Hstop. revert g. induction n as [|n IH]; intros g; simpl; auto.
  unfold next.
  pose proof (take_total (Z.to_nat (batch_size PairIter g))
                (pair_iter PairIter g) Hstop) as Htake.
  destruct (take PairIter pair_next _ _) as [[records it']|]; [simpl|discriminate].
  match goal with
  | |- context [batches _ _ n ?g1] =>
      specialize (IH g1); destruct (batches PairIter pair_next n g1)
  end; auto.
Qed.

(** C8. For every batch size [b], the matrix computed before the loop of
    [batchwise_iter b] has [b] rows of [2 * b] columns and its entry [(i, j)]
    is 1 when [j = i] and 0 otherwise; every batch that the iterator yields
    carries that one matrix, which the loop never recomputes. Reading the
    iterator succeeds whenever the base iterator only yields or stops. For
    [b = 3] the matrix is the (3, 6) matrix with a single 1 per row, at
    [(i, i)]. *)
Theorem in_batch_relevance_matrix (b : nat) (it : PairIter) (n : nat) :
  (yields_or_stops PairIter pair_next ->
   is_ok (batchwise_iter PairIter pair_next (Z.of_nat b) it n) = true) /\
  (forall bs,
     batchwise_iter PairIter pair_next (Z.of_nat b) it n = Ok bs ->
     exists m,
       relevance_matrix (Z.of_nat b) = Ok m /\
       List.length bs = n /\
       (forall batch, In batch bs -> relevances batch = Some m) /\
       List.length m = b /\
       (forall i, (i < b)%nat -> List.length (nth i m []) = (2 * b)%nat) /\
       (forall i j, (i < b)%nat -> (j < 2 * b)%nat ->
          nth j (nth i m []) nan = if Nat.eqb i j then 1%float else 0%float)) /\
  relevance_matrix 3
  = Ok [[1; 0; 0; 0; 0; 0]; [0; 1; 0; 0; 0; 0]; [0; 0; 1; 0; 0; 0]]%float.
Proof.
  split; [|split; [|reflexivity]].
  - intros Hstop. unfold batchwise_iter, start.
    rewrite relevance_matrix_rows. simpl.
    match goal with
    | |- context [batches _ _ n ?g] =>
        pose proof (batches_total n g Hstop) as H;
        destruct (batches PairIter pair_next n g)
    end; auto.
  - intros bs. unfold batchwise_iter, start.
    rewrite relevance_matrix_rows. simpl.
    match goal with
    | |- context [batches _ _ n ?g] =>
        destruct (batches PairIter pair_next n g) as [[bs' g']|] eqn:Hrun
    end; [simpl|discriminate].
    intros [= <-].
    destruct (batches_keep_matrix PairIter pair_next _ _ _ _ Hrun)
      as (Hlen & _ & Hall).
    simpl in Hall.
    exists (map (relevance_row b) (seq 0 b)).
    split; [reflexivity|]. split; [exact Hlen|]. split; [exact Hall|].
    split; [now rewrite length_map, length_seq|].
    assert (Hrow : forall i, (i < b)%nat ->
              nth i (map (relevance_row b) (seq 0 b)) [] = relevance_row b i).
    { intros i Hi.
      rewrite (nth_indep _ [] (relevance_row b 0))
        by (rewrite length_map, length_seq; exact Hi).
      rewrite map_nth. now rewrite seq_nth by exact Hi. }
    split.
    + intros i Hi. rewrite (Hrow i Hi). apply relevance_row_length.
    + intros i j Hi Hj. rewrite (Hrow i Hi). now apply relevance_row_entry.
Qed.

End BatchesTotal.

Lemma in_batch_relevance_matrix_witness :
  exists m,
    relevance_matrix 3 = Ok m /\
    List.length first_numbered_batch = 1%nat /\
    (forall batch, In batch first_numbered_batch -> relevances batch = Some m) /\
    List.length m = 3%nat /\
    (forall i, (i < 3)%nat -> List.length (nth i m []) = (2 * 3)%nat) /\
    (forall i j, (i < 3)%nat -> (j < 2 * 3)%nat ->
       nth j (nth i m []) nan = if Nat.eqb i j then 1%float else 0%float).
Proof.
  apply (proj1 (proj2 (in_batch_relevance_matrix nat numbered 3 0%nat 1))
           first_numbered_batch).
  reflexivity.
Defined.

End InBatchFacts.

(** ** Serializable iterators: snapshot and restore *)

Module IteratorFacts.
Import SerializableIterators.
Import IteratorCases.

(** Drawing [n + m] items is drawing [n] items and then [m] more from the
    state reached. *)
Lemma draw_app {A State Snapshot : Type}
  (it : SerializableIterator A State Snapshot) (n m : nat) (st st1 : State)
  (items1 : list A) :
  draw n st = (items1, Some (Ok st1)) ->
  draw (n + m) st = (items1 ++ fst (draw m st1), snd (draw m st1)).
Proof.
  revert st items1. induction n as [|n IH]; intros st items1; simpl.
  - intros [= <- <-]. simpl. now destruct (draw m st).
  - destruct (next st) as [[[a st']|e]|]; try discriminate.
    destruct (draw n st') as [items' final'] eqn:Hrest. simpl.
    intros [= <- ->]. rewrite (IH st' items' Hrest). reflexivity.
Qed.

Section Restore.
Variable RandomState : Type.
Variable randint : Z -> Z -> RandomState -> result (Z * RandomState).

Lemma skipn_next {A : Type} (p : nat) (l rest : list A) (x : A) :
  skipn p l = x :: rest -> skipn (S p) l = rest.
Proof.
  revert l. induction p as [|p IH]; intros [|y l]; simpl; try discriminate.
  - now intros [= _ ->].
  - intros H. now apply (IH l).
Qed.

Lemma triplet_next_in_step (source : list PairwiseSample)
  (it it' : TripletIterator RandomState) (record : PairwiseRecord) :
  in_step RandomState source it ->
  triplet_next RandomState randint it = Ok (record, it') ->
  in_step RandomState source it'.
Proof.
  unfold in_step, triplet_next, skipping_next. intros Hinv.
  destruct (iter RandomState it) as [|sample rest] eqn:Hiter; [discriminate|].
  simpl.
  destruct (randint 0 _ (random RandomState it)) as [[i1 r1]|];
    [simpl|discriminate].
  destruct (getitem_list (sample_positives sample) i1) as [pos|];
    [simpl|discriminate].
  destruct (randint 0 _ r1) as [[i2 r2]|]; [simpl|discriminate].
  destruct (getitem_list (sample_negatives sample) i2) as [negatives|];
    [simpl|discriminate].
  destruct (randint 0 _ r2) as [[i3 r3]|]; [simpl|discriminate].
  destruct (getitem_list negatives i3) as [neg|]; [simpl|discriminate].
  intros [= _ <-]. simpl. symmetry in Hinv. now apply skipn_next in Hinv.
Qed.

Lemma draw_in_step (source : list PairwiseSample) (n : nat)
  (it it' : TripletIterator RandomState) (items : list PairwiseRecord) :
  in_step RandomState source it ->
  draw (it := TripletSerializableIterator RandomState randint source) n it
    = (items, Some (Ok it')) ->
  in_step RandomState source it'.
Proof.
  revert it items. induction n as [|n IH]; intros it items Hinv; simpl.
  - now intros [= _ <-].
  - destruct (triplet_next RandomState randint it) as [[a it1]|] eqn:Hnext;
      [|discriminate].
    destruct (draw n it1) as [items' final'] eqn:Hrest. simpl.
    intros [= _ ->]. apply (IH it1 items'); [|exact Hrest].
    now apply (triplet_next_in_step source it it1 a).
Qed.

(** Restoring the snapshot of a state in step with the source gives that
    state back, whatever the iterator it is restored into. *)
Lemma triplet_restore (source : list PairwiseSample)
  (it fresh : TripletIterator RandomState) :
  in_step RandomState source it ->
  triplet_load_state_dict RandomState source fresh
    (triplet_state_dict RandomState it) = it /\
  triplet_restore_state RandomState source fresh
    (triplet_state_dict RandomState it) = it.
Proof.
  unfold in_step. intros Hinv. destruct it as [r p rest]. simpl in *.
  unfold triplet_load_state_dict, triplet_restore_state, skipping_restore.
  simpl. now rewrite Hinv.
Qed.

Lemma getitem_list_in_range {A : Type} (l : list A) (i : Z) :
  0 <= i < Z.of_nat (List.length l) ->
  exists a, getitem_list l i = Ok a /\ In a l.
Proof.
  intros Hi. unfold getitem_list, Py.position.
  destruct (Z.ltb_spec i 0); [lia|].
  destruct (Z.leb_spec 0 i); [|lia].
  destruct (Z.ltb_spec i (Z.of_nat (List.length l))); [|lia]. simpl.
  destruct (nth_error l (Z.to_nat i)) as [a|] eqn:Hnth.
  - exists a. split; [reflexivity|]. now apply nth_error_In in Hnth.
  - apply nth_error_None in Hnth. lia.
Qed.

Lemma sample_total (self : PairwiseModelBasedSampler) (fuel : nat)
  (samples : list ModelBasedSampler.Candidate) (s : RandomState) :
  randint_in_range RandomState randint ->
  samples <> [] ->
  (forall docid rel score, In (docid, rel, score) samples ->
     store_text self docid <> None) ->
  exists d s', sample RandomState randint self (S fuel) samples s
               = Some (Ok (d, s')).
Proof.
  intros Hrand Hne Htext. simpl.
  destruct (Hrand (Z.of_nat (List.length samples)) s) as (i & s' & -> & Hi).
  { destruct samples; [congruence | simpl; lia]. }
  destruct (getitem_list_in_range samples i Hi) as ([[docid r] score] & -> & Hin).
  specialize (Htext docid r score Hin).
  destruct (store_text self docid); [eauto | congruence].
Qed.

Lemma pairwise_next_total (self : PairwiseModelBasedSampler) (fuel : nat)
  (s : RandomState) :
  randint_in_range RandomState randint -> pools_ready self ->
  exists record s',
    pairwise_next RandomState randint self (S fuel) s = Some (Ok (record, s')).
Proof.
  intros Hrand [Hne Hpools]. unfold pairwise_next.
  destruct (Hrand (Z.of_nat (List.length (sampler_topics self))) s)
    as (i & s1 & -> & Hi).
  { destruct (sampler_topics self); [congruence | simpl; lia]. }
  destruct (getitem_list_in_range (sampler_topics self) i Hi)
    as ([[title positives] negatives] & -> & Hin).
  destruct (Hpools title positives negatives Hin) as (Hpos & Hneg & Htext).
  destruct (sample_total self fuel positives s1 Hrand Hpos) as (pos & s2 & ->).
  { intros d r sc Hd. apply (Htext d r sc). apply in_or_app. now left. }
  destruct (sample_total self fuel negatives s2 Hrand Hneg) as (neg & s3 & ->).
  { intros d r sc Hd. apply (Htext d r sc). apply in_or_app. now right. }
  eauto.
Qed.

Lemma draw_total (self : PairwiseModelBasedSampler) (fuel n : nat)
  (s : RandomState) :
  randint_in_range RandomState randint -> pools_ready self ->
  exists items s',
    draw (it := RandomSerializableIterator RandomState randint self (S fuel))
      n s = (items, Some (Ok s')) /\
    List.length items = n.
Proof.
  intros Hrand Hready. revert s. induction n as [|n IH]; intros s.
  - exists [], s. auto.
  - cbn [draw next RandomSerializableIterator].
    destruct (pairwise_next_total self fuel s Hrand Hready) as (a & s1 & ->).
    destruct (IH s1) as (items & s' & -> & Hlen).
    exists (a :: items), s'. simpl. auto.
Qed.

(** C2. With the iterator of [PairwiseModelBasedSampler.pairwise_iter] and
    with the [_Iterator] of [PairwiseDatasetTripletBasedSampler]: when [n]
    items have been drawn, restoring the state saved at that point into any
    other iterator and drawing [m] further items gives, with the first [n],
    exactly the items and the end of an uninterrupted drawing of [n + m]
    items ([m = n]: [2 n] items). [restore_state] restores what
    [load_state_dict] restores. With a well-behaved [randint], non-empty
    pools and a text for every candidate, drawing never stops short. *)
Theorem snapshot_restore_determinism :
  (forall self fuel n m seed fresh items1 st1,
     let it := RandomSerializableIterator RandomState randint self fuel in
     draw (it := it) n seed = (items1, Some (Ok st1)) ->
     let restored :=
       load_state_dict (SerializableIterator := it) fresh
         (state_dict (SerializableIterator := it) st1) in
     draw (it := it) (n + m) seed
     = (items1 ++ fst (draw (it := it) m restored),
        snd (draw (it := it) m restored))) /\
  (forall source n m seed fresh items1 st1,
     let it := TripletSerializableIterator RandomState randint source in
     draw (it := it) n (triplet_create RandomState source seed)
       = (items1, Some (Ok st1)) ->
     let restored :=
       load_state_dict (SerializableIterator := it)
         (triplet_create RandomState source fresh)
         (state_dict (SerializableIterator := it) st1) in
     draw (it := it) (n + m) (triplet_create RandomState source seed)
     = (items1 ++ fst (draw (it := it) m restored),
        snd (draw (it := it) m restored)) /\
     triplet_restore_state RandomState source
       (triplet_create RandomState source fresh)
       (triplet_state_dict RandomState st1) = restored) /\
  (forall self fuel n seed,
     randint_in_range RandomState randint -> pools_ready self ->
     exists items st,
       draw (it := RandomSerializableIterator RandomState randint self (S fuel))
         n seed = (items, Some (Ok st)) /\
       List.length items = n).
Proof.
  split; [|split].
  - intros self fuel n m seed fresh items1 st1 it Hdraw restored.
    subst restored. simpl. now apply draw_app.
  - intros source n m seed fresh items1 st1 it Hdraw restored.
    assert (Hstep : in_step RandomState source st1).
    { apply (draw_in_step source n (triplet_create RandomState source seed)
               st1 items1); [reflexivity | exact Hdraw]. }
    destruct (triplet_restore source st1
                (triplet_create RandomState source fresh) Hstep)
      as [Hload Hrestore].
    assert (Hrestored : restored = st1) by exact Hload.
    rewrite Hrestored. split; [now apply draw_app | exact Hrestore].
  - intros self fuel n seed. apply draw_total.
Qed.

End Restore.

Lemma snapshot_restore_determinism_witness :
  (let st1 := state_after 0 (draw (it := lcg_iterator) 3 42) in
   let restored :=
     load_state_dict (SerializableIterator := lcg_iterator) 7
       (state_dict (SerializableIterator := lcg_iterator) st1) in
   draw (it := lcg_iterator) (3 + 3) 42
   = (fst (draw (it := lcg_iterator) 3 42)
        ++ fst (draw (it := lcg_iterator) 3 restored),
      snd (draw (it := lcg_iterator) 3 restored))) /\
  (let start := triplet_create Z three_samples 42 in
   let fresh := triplet_create Z three_samples 7 in
   let st1 := state_after start (draw (it := triplet_iterator) 1 start) in
   let restored :=
     load_state_dict (SerializableIterator := triplet_iterator) fresh
       (state_dict (SerializableIterator := triplet_iterator) st1) in
   draw (it := triplet_iterator) (1 + 2) start
   = (fst (draw (it := triplet_iterator) 1 start)
        ++ fst (draw (it := triplet_iterator) 2 restored),
      snd (draw (it := triplet_iterator) 2 restored)) /\
   triplet_restore_state Z three_samples fresh (triplet_state_dict Z st1)
   = restored).
Proof.
  split.
  - apply (proj1 (snapshot_restore_determinism Z lcg_randint)
             two_topics 8%nat 3%nat 3%nat 42 7
             (fst (draw (it := lcg_iterator) 3 42))
             (state_after 0 (draw (it := lcg_iterator) 3 42))).
    vm_compute. reflexivity.
  - apply (proj1 (proj2 (snapshot_restore_determinism Z lcg_randint))
             three_samples 1%nat 2%nat 42 7
             (fst (draw (it := triplet_iterator) 1
                     (triplet_create Z three_samples 42)))
             (state_after (triplet_create Z three_samples 42)
                (draw (it := triplet_iterator) 1
                   (triplet_create Z three_samples 42)))).
    vm_compute. reflexivity.
Defined.

End IteratorFacts.

(** ** Trainers: NaN and infinite scores *)

Module TrainerFacts.
Import TrainerCases.

(** The loop ends at the first batch whose step raises; the batches after it
    play no part in the result. *)
Lemma train_stops {Batch Output : Type} (train_batch : Batch -> result Output)
  (before after : list Batch) (bad : Batch) (e : exn) :
  (forall b, In b before -> is_ok (train_batch b) = true) ->
  train_batch bad = Raise e ->
  exists outputs,
    Trainer.train train_batch (before ++ bad :: after) = (outputs, Raise e) /\
    List.length outputs = List.length before /\
    Trainer.train train_batch before = (outputs, Ok tt).
Proof.
  intros Hbefore Hbad. induction before as [|b before IH]; simpl.
  - rewrite Hbad. exists []. auto.
  - destruct IH as (outputs & Hrun & Hlen & Hpre).
    { intros b' Hb'. apply Hbefore. now right. }
    pose proof (Hbefore b (or_introl eq_refl)) as Hb.
    destruct (train_batch b) as [o|]; [|discriminate].
    rewrite Hrun, Hpre. simpl. exists (o :: outputs). simpl. auto.
Qed.

Lemma pointwise_finite (self : PointwiseTrainer.Config)
  (batch : list PointwiseTrainer.PointwiseRecord) :
  nan_or_inf (PointwiseTrainer.ranker self batch) = false ->
  is_ok (PointwiseTrainer.train_batch self batch) = true.
Proof.
  intros H. unfold PointwiseTrainer.train_batch. now rewrite H.
Qed.

Lemma pointwise_abort (self : PointwiseTrainer.Config)
  (batch : list PointwiseTrainer.PointwiseRecord) :
  nan_or_inf (PointwiseTrainer.ranker self batch) = true ->
  PointwiseTrainer.train_batch self batch = Raise (SystemExit 1).
Proof.
  intros H. unfold PointwiseTrainer.train_batch. now rewrite H.
Qed.

(** The entries of [t.reshape(2, n).T] are the entries of [t]. *)
Lemma In_rows (a b : list float) (x : float) :
  List.length a = List.length b ->
  (In x (List.concat (map (fun pair => [fst pair; snd pair]) (combine a b)))
   <-> In x a \/ In x b).
Proof.
  revert b. induction a as [|u a IH]; intros [|v b]; simpl; try discriminate.
  - tauto.
  - intros [= Hlen]. rewrite (IH b Hlen). tauto.
Qed.

Lemma existsb_ext_In (p : float -> bool) (l l' : list float) :
  (forall x, In x l <-> In x l') -> existsb p l = existsb p l'.
Proof.
  intros Hin. apply eq_true_iff_eq. rewrite !existsb_exists.
  split; intros (x & Hx & Hp); exists x; split; auto; now apply Hin.
Qed.

Lemma reshape_nan_or_inf (t : list float) (n : nat) (scores : Tensor2) :
  DistillationPairwiseTrainer.reshape_2_T t n = Ok scores ->
  nan_or_inf (List.concat scores) = nan_or_inf t.
Proof.
  unfold DistillationPairwiseTrainer.reshape_2_T.
  destruct (Nat.eqb_spec (List.length t) (2 * n)) as [Hlen|]; [|discriminate].
  intros [= <-].
  assert (Hin : forall x,
    In x (List.concat (map (fun pair => [fst pair; snd pair])
                         (combine (firstn n t) (skipn n t)))) <-> In x t).
  { intros x. rewrite In_rows.
    - rewrite <- (firstn_skipn n t) at 3. now rewrite in_app_iff.
    - rewrite length_firstn, length_skipn. lia. }
  unfold nan_or_inf. f_equal; now apply existsb_ext_In.
Qed.

Lemma distillation_step (self : DistillationPairwiseTrainer.Config)
  (samples : list DistillationPairwiseTrainer.PairwiseDistillationSample) :
  List.length (DistillationPairwiseTrainer.ranker self
                 (DistillationPairwiseTrainer.records_of samples))
    = (2 * List.length samples)%nat ->
  DistillationPairwiseTrainer.train_batch self samples =
    if nan_or_inf (DistillationPairwiseTrainer.ranker self
                     (DistillationPairwiseTrainer.records_of samples))
    then Raise (SystemExit 1)
    else DistillationPairwiseTrainer.train_batch self samples.
Proof.
  intros Hlen. unfold DistillationPairwiseTrainer.train_batch.
  destruct (DistillationPairwiseTrainer.reshape_2_T _ _) as [scores|] eqn:Hr.
  - simpl. rewrite (reshape_nan_or_inf _ _ _ Hr).
    now destruct (nan_or_inf _).
  - exfalso. unfold DistillationPairwiseTrainer.reshape_2_T in Hr.
    unfold DistillationPairwiseTrainer.records_of in Hr at 2.
    rewrite length_map in Hr.
    destruct (Nat.eqb_spec
                (List.length (DistillationPairwiseTrainer.ranker self
                   (DistillationPairwiseTrainer.records_of samples)))
                (2 * List.length samples)); [discriminate | contradiction].
Qed.

Lemma distillation_finite (self : DistillationPairwiseTrainer.Config)
  (samples : list DistillationPairwiseTrainer.PairwiseDistillationSample) :
  List.length (DistillationPairwiseTrainer.ranker self
                 (DistillationPairwiseTrainer.records_of samples))
    = (2 * List.length samples)%nat ->
  nan_or_inf (DistillationPairwiseTrainer.ranker self
                (DistillationPairwiseTrainer.records_of samples)) = false ->
  is_ok (DistillationPairwiseTrainer.train_batch self samples) = true.
Proof.
  intros Hlen Hfin. unfold DistillationPairwiseTrainer.train_batch.
  destruct (DistillationPairwiseTrainer.reshape_2_T _ _) as [scores|] eqn:Hr.
  - simpl. rewrite (reshape_nan_or_inf _ _ _ Hr), Hfin. reflexivity.
  - exfalso. unfold DistillationPairwiseTrainer.reshape_2_T in Hr.
    unfold DistillationPairwiseTrainer.records_of in Hr at 2.
    rewrite length_map in Hr.
    destruct (Nat.eqb_spec
                (List.length (DistillationPairwiseTrainer.ranker self
                   (DistillationPairwiseTrainer.records_of samples)))
                (2 * List.length samples)); [discriminate | contradiction].
Qed.

(** C5. In both trainers, [train_batch] exits with status 1 on a batch for
    which some computed score is NaN or infinite, and returns no loss for it;
    the training loop then ends with that exit after the steps of the batches
    before it, whatever the batches after it are. With a NaN on batch 3 of 10
    the loop ends after two completed steps. *)
Theorem nan_or_inf_score_aborts :
  (forall self before bad after,
     (forall b, In b before ->
        nan_or_inf (PointwiseTrainer.ranker self b) = false) ->
     nan_or_inf (PointwiseTrainer.ranker self bad) = true ->
     PointwiseTrainer.train_batch self bad = Raise (SystemExit 1) /\
     exists outputs,
       Trainer.train (PointwiseTrainer.train_batch self)
         (before ++ bad :: after) = (outputs, Raise (SystemExit 1)) /\
       List.length outputs = List.length before /\
       Trainer.train (PointwiseTrainer.train_batch self) before
         = (outputs, Ok tt)) /\
  (forall self before bad after,
     (forall b, In b (before ++ [bad]) ->
        List.length (DistillationPairwiseTrainer.ranker self
                       (DistillationPairwiseTrainer.records_of b))
          = (2 * List.length b)%nat) ->
     (forall b, In b before ->
        nan_or_inf (DistillationPairwiseTrainer.ranker self
                      (DistillationPairwiseTrainer.records_of b)) = false) ->
     nan_or_inf (DistillationPairwiseTrainer.ranker self
                   (DistillationPairwiseTrainer.records_of bad)) = true ->
     DistillationPairwiseTrainer.train_batch self bad = Raise (SystemExit 1) /\
     exists outputs,
       Trainer.train (DistillationPairwiseTrainer.train_batch self)
         (before ++ bad :: after) = (outputs, Raise (SystemExit 1)) /\
       List.length outputs = List.length before /\
       Trainer.train (DistillationPairwiseTrainer.train_batch self) before
         = (outputs, Ok tt)) /\
  Trainer.train (PointwiseTrainer.train_batch stored_scores) ten_batches
  = ([(1%float, ("mse"%string, 1%float, 1));
      (2%float, ("mse"%string, 2%float, 1))],
     Raise (SystemExit 1)).
Proof.
  split; [|split; [|reflexivity]].
  - intros self before bad after Hbefore Hbad.
    split; [now apply pointwise_abort|].
    apply train_stops; [|now apply pointwise_abort].
    intros b Hb. apply pointwise_finite. now apply Hbefore.
  - intros self before bad after Hshape Hbefore Hbad.
    assert (Habort :
      DistillationPairwiseTrainer.train_batch self bad = Raise (SystemExit 1)).
    { rewrite distillation_step, Hbad; [reflexivity|].
      apply Hshape. apply in_or_app. right. now left. }
    split; [exact Habort|].
    apply train_stops; [|exact Habort].
    intros b Hb. apply distillation_finite.
    + apply Hshape. apply in_or_app. now left.
    + now apply Hbefore.
Qed.

Lemma nan_or_inf_score_aborts_witness :
  (PointwiseTrainer.train_batch stored_scores
     [PointwiseTrainer.mkPointwiseRecord "q" "d" nan 1%float]
     = Raise (SystemExit 1) /\
   exists outputs,
     Trainer.train (PointwiseTrainer.train_batch stored_scores) ten_batches
       = (outputs, Raise (SystemExit 1)) /\
     List.length outputs = 2%nat /\
     Trainer.train (PointwiseTrainer.train_batch stored_scores)
       (firstn 2 ten_batches) = (outputs, Ok tt)) /\
  (DistillationPairwiseTrainer.train_batch reads_content
     (distillation_batch "c" "nan") = Raise (SystemExit 1) /\
   exists outputs,
     Trainer.train (DistillationPairwiseTrainer.train_batch reads_content)
       [distillation_batch "a" "b"; distillation_batch "c" "nan";
        distillation_batch "d" "e"]
       = (outputs, Raise (SystemExit 1)) /\
     List.length outputs = 1%nat /\
     Trainer.train (DistillationPairwiseTrainer.train_batch reads_content)
       [distillation_batch "a" "b"] = (outputs, Ok tt)).
Proof.
  split.
  - apply (proj1 nan_or_inf_score_aborts stored_scores
             (firstn 2 ten_batches)
             [PointwiseTrainer.mkPointwiseRecord "q" "d" nan 1%float]
             (skipn 3 ten_batches)).
    + intros b [<-|[<-|[]]]; reflexivity.
    + reflexivity.
  - apply (proj1 (proj2 nan_or_inf_score_aborts) reads_content
             [distillation_batch "a" "b"] (distillation_batch "c" "nan")
             [distillation_batch "d" "e"]).
    + intros b [<-|[<-|[]]]; reflexivity.
    + intros b [<-|[]]. reflexivity.
    + reflexivity.
Defined.

End TrainerFacts.

(* ===================================================================== *)
(** * Part II (continued). Further properties of the sources              *)
(* ===================================================================== *)

(** ** ValidationListener: restart, stop, warmup and outputs *)

Module ListenerFacts.
Import ValidationListener ValidationListenerOutputs ListenerCases.

(** The three ways in which a call returns. *)
Lemma call_inv (self : Config) (state : TrainState) (ev : Evaluation)
  (w w' : World) (s : LearnerListenerStatus) :
  call self state ev w = Ok (w', s) ->
  (should_stop self w (epoch state - 1) = Ok STOP /\ w' = w /\ s = STOP) \/
  (should_stop self w' 0 = Ok s /\
   ((epoch state mod validation_interval self <> 0 /\ w' = w) \/
    (epoch state mod validation_interval self = 0 /\
     validation_pass self state ev w = Ok w'))).
Proof.
  unfold call.
  destruct (should_stop self w (epoch state - 1)) as [early|] eqn:Hearly;
    [simpl|discriminate].
  assert (Hgo :
    (r <- mod_ (epoch state) (validation_interval self) ;;
     w'0 <- (if r =? 0 then validation_pass self state ev w else Ok w) ;;
     status <- should_stop self w'0 0 ;; Ok (w'0, status)) = Ok (w', s) ->
    should_stop self w' 0 = Ok s /\
    ((epoch state mod validation_interval self <> 0 /\ w' = w) \/
     (epoch state mod validation_interval self = 0 /\
      validation_pass self state ev w = Ok w'))).
  { unfold mod_. destruct (validation_interval self =? 0); [discriminate|].
    simpl.
    destruct (Z.eqb_spec (epoch state mod validation_interval self) 0)
      as [Hm|Hm].
    - destruct (validation_pass self state ev w) as [w1|]; [simpl|discriminate].
      destruct (should_stop self w1 0) as [st|] eqn:Hs; [simpl|discriminate].
      intros [= <- <-]. auto.
    - simpl. destruct (should_stop self w 0) as [st|] eqn:Hs;
        [simpl|discriminate].
      intros [= <- <-]. auto. }
  destruct early; try (intros H; right; now apply Hgo).
  intros [= <- <-]. left. auto.
Qed.

Lemma update_top_frame (self : Config) (state : TrainState) (metric : string)
  (keep : bool) (value : float) (w : World) :
  writer (update_top self state metric keep value w) = writer w /\
  info_file (update_top self state metric keep value w) = info_file w /\
  context_epoch (update_top self state metric keep value w) = context_epoch w.
Proof.
  unfold update_top, save_top.
  destruct (warmup self <=? epoch state); [|auto].
  destruct (get (top w) metric) as [t|];
    [destruct (float_gt value (top_value t))|]; destruct keep; simpl; auto.
Qed.

Lemma validate_metrics_frame (self : Config) (state : TrainState)
  (ev : Evaluation) (items : dict bool) (w w' : World) :
  validate_metrics self state ev items w = Ok w' ->
  info_file w' = info_file w /\ context_epoch w' = context_epoch w.
Proof.
  revert w. induction items as [|[metric keep] items IH]; intros w; simpl.
  - intros [= ->]. auto.
  - destruct (getitem (means ev) metric) as [value|]; [simpl|discriminate].
    destruct (getitem (details ev) metric) as [pq|]; [simpl|discriminate].
    intros Hrest. destruct (IH _ Hrest) as [Hi Hc].
    match type of Hrest with
    | validate_metrics _ _ _ _ (update_top _ _ _ _ _ ?w0) = _ =>
        destruct (update_top_frame self state metric keep value w0)
          as (_ & Hi0 & Hc0)
    end.
    rewrite Hi, Hc, Hi0, Hc0. auto.
Qed.

Lemma validation_pass_inv (self : Config) (state : TrainState)
  (ev : Evaluation) (w w' : World) :
  validation_pass self state ev w = Ok w' ->
  exists w1,
    validate_metrics self state ev (metrics self) w = Ok w1 /\
    top w' = top w1 /\ writer w' = writer w1 /\
    info_file w' = Some (top w') /\
    context_epoch w' = context_epoch w /\
    directories w' =
      (if store_last_checkpoint self
       then setitem (directories w1) (last_checkpoint_path self)
              (context_epoch w1)
       else directories w1).
Proof.
  unfold validation_pass.
  destruct (validate_metrics self state ev (metrics self) w) as [w1|] eqn:Hrun;
    [simpl|discriminate].
  intros [= <-]. exists w1. split; [reflexivity|].
  destruct (validate_metrics_frame _ _ _ _ _ _ Hrun) as [_ Hc].
  destruct (store_last_checkpoint self); simpl; auto.
Qed.

Lemma call_context (self : Config) (state : TrainState) (ev : Evaluation)
  (w w' : World) (s : LearnerListenerStatus) :
  call self state ev w = Ok (w', s) -> context_epoch w' = context_epoch w.
Proof.
  intros Hcall.
  destruct (call_inv _ _ _ _ _ _ Hcall)
    as [(_ & -> & _)|(_ & [[_ ->]|[_ Hpass]])]; auto.
  now destruct (validation_pass_inv _ _ _ _ _ Hpass) as (w1 & _ & _ & _ & _ & Hc & _).
Qed.

Lemma call_persisted (self : Config) (state : TrainState) (ev : Evaluation)
  (w w' : World) (s : LearnerListenerStatus) :
  call self state ev w = Ok (w', s) -> persisted w -> persisted w'.
Proof.
  intros Hcall Hw.
  destruct (call_inv _ _ _ _ _ _ Hcall)
    as [(_ & -> & _)|(_ & [[_ ->]|[_ Hpass]])]; auto.
  destruct (validation_pass_inv _ _ _ _ _ Hpass) as (w1 & _ & _ & _ & Hi & _).
  now left.
Qed.

(** X1. Whatever calls a listener has answered since [initialize], the [info]
    file holds its table, so that initializing the listener again (a restart)
    gives back the world as it is: nothing that was recorded is lost. *)
Theorem restart_restores_table (self : Config)
  (inputs : list (TrainState * Evaluation)) (w0 w' : World)
  (ss : list LearnerListenerStatus) :
  calls self inputs (initialize self w0) = Ok (w', ss) ->
  persisted w' /\ initialize self w' = w'.
Proof.
  assert (Hrun : forall inputs w w' ss,
            persisted w -> calls self inputs w = Ok (w', ss) -> persisted w').
  { clear. induction inputs as [|[state ev] inputs IH]; intros w w' ss Hw; simpl.
    - now intros [= <- _].
    - destruct (call self state ev (at_epoch (epoch state) w))
        as [[w1 s1]|] eqn:Hc; [simpl|discriminate].
      destruct (calls self inputs w1) as [[w2 ss2]|] eqn:Hcs;
        [simpl|discriminate].
      intros [= <- _]. apply (IH _ _ _ (call_persisted _ _ _ _ _ _ Hc Hw) Hcs). }
  intros Hcalls.
  assert (Hp : persisted w').
  { apply (Hrun inputs (initialize self w0) w' ss); [|exact Hcalls].
    unfold persisted, initialize. simpl.
    destruct (info_file w0); [now left | now right]. }
  split; [exact Hp|].
  unfold initialize. destruct w' as [t c wr d i].
  unfold persisted in Hp. simpl in Hp. simpl.
  destruct Hp as [->|[-> ->]]; reflexivity.
Qed.

Lemma restart_restores_table_witness :
  persisted (ValidationListenerCases.world_of
               (validations_of ValidationListenerCases.map_listener
                  [(2, 0.5%float); (3, 0.5%float); (4, 0.75%float)])) /\
  initialize ValidationListenerCases.map_listener
    (ValidationListenerCases.world_of
       (validations_of ValidationListenerCases.map_listener
          [(2, 0.5%float); (3, 0.5%float); (4, 0.75%float)]))
  = ValidationListenerCases.world_of
      (validations_of ValidationListenerCases.map_listener
         [(2, 0.5%float); (3, 0.5%float); (4, 0.75%float)]).
Proof.
  apply (restart_restores_table ValidationListenerCases.map_listener
           (map_inputs [(2, 0.5%float); (3, 0.5%float); (4, 0.75%float)])
           ValidationListenerCases.cold_start _
           (statuses_of
              (validations_of ValidationListenerCases.map_listener
                 [(2, 0.5%float); (3, 0.5%float); (4, 0.75%float)]))).
  vm_compute. reflexivity.
Defined.

(** A later epoch stops as soon as an earlier one does: the answer of
    [should_stop] depends on the epoch only through the difference to the
    best epoch. *)
Lemma should_stop_later (self : Config) (w w2 : World) (e e2 : Z) :
  should_stop self w e = Ok STOP ->
  top w2 = top w ->
  epoch_or e (context_epoch w) <= epoch_or e2 (context_epoch w2) ->
  should_stop self w2 e2 = Ok STOP.
Proof.
  unfold should_stop. intros Hstop Htop Hle. rewrite Htop.
  destruct ((0 <? early_stop self) && truthy (top w)); [|discriminate].
  destruct (kept_epochs (metrics self) (top w)) as [es|]; [simpl in *|discriminate].
  destruct (max_ es) as [m|]; [simpl in *|discriminate].
  destruct (Z.leb_spec (early_stop self) (epoch_or e (context_epoch w) - m));
    [|discriminate].
  destruct (Z.leb_spec (early_stop self) (epoch_or e2 (context_epoch w2) - m));
    [reflexivity | lia].
Qed.

(** X2. Once a call has answered [STOP], the call of the next epoch answers
    [STOP] at once: it runs no validation and leaves the table, the
    checkpoints, the telemetry and the [info] file as they are. *)
Theorem stop_is_final (self : Config) (state : TrainState)
  (ev ev' : Evaluation) (w w1 : World) :
  call self state ev (at_epoch (epoch state) w) = Ok (w1, STOP) ->
  call self (next_epoch state) ev' (at_epoch (epoch state + 1) w1)
  = Ok (at_epoch (epoch state + 1) w1, STOP).
Proof.
  intros Hcall.
  assert (Hstop : should_stop self (at_epoch (epoch state + 1) w1)
                    (epoch (next_epoch state) - 1) = Ok STOP).
  { simpl. replace (epoch state + 1 - 1) with (epoch state) by lia.
    pose proof (call_context _ _ _ _ _ _ Hcall) as Hctx. simpl in Hctx.
    destruct (call_inv _ _ _ _ _ _ Hcall) as [(Hearly & -> & _)|(Hlast & _)].
    - apply (should_stop_later _ _ _ _ _ Hearly); [reflexivity|].
      simpl. unfold epoch_or.
      destruct (Z.eqb_spec (epoch state - 1) 0);
        destruct (Z.eqb_spec (epoch state) 0); lia.
    - apply (should_stop_later _ _ _ _ _ Hlast); [reflexivity|].
      simpl. rewrite Hctx. unfold epoch_or. simpl.
      destruct (Z.eqb_spec (epoch state) 0); lia. }
  unfold call. rewrite Hstop. reflexivity.
Qed.

Lemma stop_is_final_witness :
  call ValidationListenerCases.map_listener
    (next_epoch (ValidationListenerCases.state_at 6))
    (ValidationListenerCases.map_eval 0.9%float)
    (at_epoch (6 + 1)
       (ValidationListenerCases.world_of
          (validations_of ValidationListenerCases.map_listener
             [(2, 0.5%float); (4, 0.25%float); (6, 0.25%float)])))
  = Ok (at_epoch (6 + 1)
          (ValidationListenerCases.world_of
             (validations_of ValidationListenerCases.map_listener
                [(2, 0.5%float); (4, 0.25%float); (6, 0.25%float)])),
        STOP).
Proof.
  apply (stop_is_final ValidationListenerCases.map_listener
           (ValidationListenerCases.state_at 6)
           (ValidationListenerCases.map_eval 0.25%float)
           (ValidationListenerCases.map_eval 0.9%float)
           (ValidationListenerCases.world_of
              (validations_of ValidationListenerCases.map_listener
                 [(2, 0.5%float); (4, 0.25%float)]))).
  vm_compute. reflexivity.
Defined.

Lemma validate_metrics_writer (self : Config) (state : TrainState)
  (ev : Evaluation) (items : dict bool) (w w' : World) :
  validate_metrics self state ev items w = Ok w' ->
  writer w' = writer w ++ telemetry self state ev items /\
  List.length (telemetry self state ev items) = (2 * List.length items)%nat.
Proof.
  revert w. induction items as [|[metric keep] items IH]; intros w; simpl.
  - intros [= ->]. now rewrite app_nil_r.
  - unfold getitem.
    destruct (get (means ev) metric) as [value|]; [simpl|discriminate].
    destruct (get (details ev) metric) as [pq|]; [simpl|discriminate].
    intros Hrest. destruct (IH _ Hrest) as [Hw Hlen].
    match type of Hrest with
    | validate_metrics _ _ _ _ (update_top _ _ _ _ _ ?w0) = _ =>
        destruct (update_top_frame self state metric keep value w0)
          as (Hw0 & _ & _)
    end.
    rewrite Hw, Hw0. simpl. rewrite <- !app_assoc. simpl.
    split; [reflexivity | lia].
Qed.

Lemma validate_metrics_warmup (self : Config) (state : TrainState)
  (ev : Evaluation) (items : dict bool) (w w' : World) :
  epoch state < warmup self ->
  validate_metrics self state ev items w = Ok w' ->
  top w' = top w /\ directories w' = directories w.
Proof.
  intros Hwarm. revert w.
  induction items as [|[metric keep] items IH]; intros w; simpl.
  - intros [= ->]. auto.
  - destruct (getitem (means ev) metric) as [value|]; [simpl|discriminate].
    destruct (getitem (details ev) metric) as [pq|]; [simpl|discriminate].
    unfold update_top at 1.
    destruct (Z.leb_spec (warmup self) (epoch state)); [lia|].
    intros Hrest. destruct (IH _ Hrest) as [Ht Hd]. rewrite Ht, Hd. auto.
Qed.

(** X3. A call at an epoch below [warmup] records no best value and writes no
    best checkpoint: the table is as before, and so is every directory but
    that of the last checkpoint. The validation itself is not skipped: when
    the epoch is a validation epoch, the call still sends one scalar and one
    histogram per metric to the writer. *)
Theorem warmup_records_nothing (self : Config) (state : TrainState)
  (ev : Evaluation) (w w' : World) (s : LearnerListenerStatus) :
  epoch state < warmup self ->
  call self state ev w = Ok (w', s) ->
  top w' = top w /\
  (forall target, target <> last_checkpoint_path self ->
     get (directories w') target = get (directories w) target) /\
  (store_last_checkpoint self = false -> directories w' = directories w) /\
  (should_stop self w (epoch state - 1) <> Ok STOP ->
   epoch state mod validation_interval self = 0 ->
   writer w' = writer w ++ telemetry self state ev (metrics self) /\
   List.length (writer w')
   = (List.length (writer w) + 2 * List.length (metrics self))%nat).
Proof.
  intros Hwarm Hcall.
  destruct (call_inv _ _ _ _ _ _ Hcall)
    as [(Hearly & -> & _)|(_ & [[Hm ->]|[Hm Hpass]])].
  - repeat split; auto. all: intros; contradiction.
  - repeat split; auto. all: intros; contradiction.
  - destruct (validation_pass_inv _ _ _ _ _ Hpass)
      as (w1 & Hrun & Ht & Hw & _ & _ & Hd).
    destruct (validate_metrics_warmup _ _ _ _ _ _ Hwarm Hrun) as [Ht1 Hd1].
    destruct (validate_metrics_writer _ _ _ _ _ _ Hrun) as [Hw1 Hlen].
    split; [congruence|]. split; [|split].
    + intros target Hne. rewrite Hd.
      destruct (store_last_checkpoint self).
      * rewrite get_setitem_ne by congruence. now rewrite Hd1.
      * now rewrite Hd1.
    + intros Hlast. rewrite Hd, Hlast. exact Hd1.
    + intros _ _. rewrite Hw, Hw1. split; [reflexivity|].
      rewrite length_app, Hlen. reflexivity.
Qed.

Lemma warmup_records_nothing_witness :
  let result :=
    call warming_listener (ValidationListenerCases.state_at 2)
      (ValidationListenerCases.map_eval 0.5%float)
      (at_epoch 2 ValidationListenerCases.cold_start) in
  let w := at_epoch 2 ValidationListenerCases.cold_start in
  let w' := ValidationListenerCases.world_of result in
  top w' = top w /\
  (forall target, target <> last_checkpoint_path warming_listener ->
     get (directories w') target = get (directories w) target) /\
  (store_last_checkpoint warming_listener = false ->
   directories w' = directories w) /\
  (should_stop warming_listener w
     (epoch (ValidationListenerCases.state_at 2) - 1) <> Ok STOP ->
   epoch (ValidationListenerCases.state_at 2)
     mod validation_interval warming_listener = 0 ->
   writer w'
   = writer w ++ telemetry warming_listener (ValidationListenerCases.state_at 2)
                   (ValidationListenerCases.map_eval 0.5%float)
                   (metrics warming_listener) /\
   List.length (writer w')
   = (List.length (writer w) + 2 * List.length (metrics warming_listener))%nat).
Proof.
  apply (warmup_records_nothing warming_listener
           (ValidationListenerCases.state_at 2)
           (ValidationListenerCases.map_eval 0.5%float)
           (at_epoch 2 ValidationListenerCases.cold_start)
           (ValidationListenerCases.world_of
              (call warming_listener (ValidationListenerCases.state_at 2)
                 (ValidationListenerCases.map_eval 0.5%float)
                 (at_epoch 2 ValidationListenerCases.cold_start)))
           (status_of
              (call warming_listener (ValidationListenerCases.state_at 2)
                 (ValidationListenerCases.map_eval 0.5%float)
                 (at_epoch 2 ValidationListenerCases.cold_start)))).
  - simpl. lia.
  - vm_compute. reflexivity.
Defined.

(** *** [update_metrics] *)

Lemma append_cancel_l (p a b : string) :
  (p ++ a)%string = (p ++ b)%string -> a = b.
Proof.
  induction p as [|c p IH]; simpl; [tauto|]. intros [= H]. now apply IH.
Qed.

Lemma final_key_inj (self : Config) (m m' : string) :
  final_key self m = final_key self m' -> m = m'.
Proof.
  unfold final_key. intros H.
  apply append_cancel_l in H. now apply append_cancel_l in H.
Qed.

Lemma final_values_spec (self : Config) (w : World) (names : list string)
  (metrics : dict float) :
  (forall m, In m names -> get (top w) m <> None) ->
  exists out,
    final_values self w names metrics = Ok out /\
    (forall m, In m names ->
       exists t, get (top w) m = Some t
                 /\ get out (final_key self m) = Some (top_value t)) /\
    (forall k, (forall m, In m names -> k <> final_key self m) ->
       get out k = get metrics k).
Proof.
  revert metrics. induction names as [|m names IH]; intros metrics Hall; simpl.
  - exists metrics. repeat split; auto. intros m [].
  - unfold getitem. destruct (get (top w) m) as [t|] eqn:Hm.
    2:{ exfalso. apply (Hall m); [now left | exact Hm]. }
    simpl.
    destruct (IH (setitem metrics (final_key self m) (top_value t)))
      as (out & Hout & Hset & Hframe).
    { intros m' Hm'. apply Hall. now right. }
    exists out. split; [exact Hout|]. split.
    + intros m' [<-|Hin]; [|now apply Hset].
      destruct (in_dec string_dec m names) as [Hin|Hnotin]; [now apply Hset|].
      exists t. split; [exact Hm|].
      rewrite Hframe; [apply get_setitem_eq|].
      intros m' Hm' Heq. apply final_key_inj in Heq. congruence.
    + intros k Hk. rewrite Hframe.
      * apply get_setitem_ne. intros Heq. apply (Hk m); [now left | congruence].
      * intros m' Hm'. apply Hk. now right.
Qed.

Lemma final_values_missing (self : Config) (w : World) (names : list string)
  (metrics : dict float) (m : string) :
  In m names -> get (top w) m = None ->
  exists m', final_values self w names metrics = Raise (KeyError m')
             /\ In m' names /\ get (top w) m' = None.
Proof.
  revert metrics. induction names as [|m0 names IH]; intros metrics Hin Hm;
    [destruct Hin|]. simpl. unfold getitem.
  destruct (get (top w) m0) as [t|] eqn:Hm0.
  - simpl. destruct Hin as [->|Hin]; [congruence|].
    destruct (IH (setitem metrics (final_key self m0) (top_value t)) Hin Hm)
      as (m' & Hr & Hin' & Hm').
    exists m'. auto.
  - exists m0. simpl. auto.
Qed.

(** X4. [update_metrics] leaves the metrics alone while the table is empty.
    With a table that holds every configured metric it adds, under the key
    [id/final/metric], the best value of each of them, and changes no other
    key. With a table that is not empty but lacks a configured metric it
    raises [KeyError] for that metric. *)
Theorem final_metrics_of_table (self : Config) (w : World)
  (metrics : dict float) :
  (top w = [] -> update_metrics self w metrics = Ok metrics) /\
  (top w <> [] ->
   (forall m, In m (keys (ValidationListener.metrics self)) ->
      get (top w) m <> None) ->
   exists out,
     update_metrics self w metrics = Ok out /\
     (forall m, In m (keys (ValidationListener.metrics self)) ->
        exists t, get (top w) m = Some t
                  /\ get out (final_key self m) = Some (top_value t)) /\
     (forall k,
        (forall m, In m (keys (ValidationListener.metrics self)) ->
           k <> final_key self m) ->
        get out k = get metrics k)) /\
  (top w <> [] ->
   forall m, In m (keys (ValidationListener.metrics self)) ->
     get (top w) m = None ->
     exists m',
       update_metrics self w metrics = Raise (KeyError m') /\
       In m' (keys (ValidationListener.metrics self)) /\
       get (top w) m' = None).
Proof.
  unfold update_metrics. split; [|split].
  - now intros ->.
  - intros Hne Hall.
    assert (Ht : truthy (top w) = true)
      by (destruct (top w) eqn:E; [congruence | reflexivity]).
    rewrite Ht. now apply final_values_spec.
  - intros Hne m Hin Hm.
    assert (Ht : truthy (top w) = true)
      by (destruct (top w) eqn:E; [congruence | reflexivity]).
    rewrite Ht. now apply (final_values_missing self w _ metrics m).
Qed.

Lemma final_metrics_of_table_witness :
  let w := ValidationListenerCases.validations
             [(2, 0.5%float); (4, 0.75%float)] in
  (exists out,
     update_metrics ValidationListenerCases.map_listener w
       [("loss"%string, 1%float)] = Ok out /\
     (forall m,
        In m (keys (ValidationListener.metrics
                      ValidationListenerCases.map_listener)) ->
        exists t, get (top w) m = Some t
                  /\ get out (final_key ValidationListenerCases.map_listener m)
                     = Some (top_value t)) /\
     (forall k,
        (forall m,
           In m (keys (ValidationListener.metrics
                         ValidationListenerCases.map_listener)) ->
           k <> final_key ValidationListenerCases.map_listener m) ->
        get out k = get [("loss"%string, 1%float)] k)) /\
  (exists m',
     update_metrics two_metrics_listener w [("loss"%string, 1%float)]
       = Raise (KeyError m') /\
     In m' (keys (ValidationListener.metrics two_metrics_listener)) /\
     get (top w) m' = None).
Proof.
  split.
  - apply (proj1 (proj2 (final_metrics_of_table
                           ValidationListenerCases.map_listener
                           (ValidationListenerCases.validations
                              [(2, 0.5%float); (4, 0.75%float)])
                           [("loss"%string, 1%float)]))).
    + discriminate.
    + intros m [<-|[]]. discriminate.
  - apply (proj2 (proj2 (final_metrics_of_table two_metrics_listener
                           (ValidationListenerCases.validations
                              [(2, 0.5%float); (4, 0.75%float)])
                           [("loss"%string, 1%float)]))
             ltac:(discriminate) "ndcg"%string).
    + simpl. auto.
    + reflexivity.
Defined.

(** *** [taskoutputs] *)

Lemma validate_metrics_writes (self : Config) (state : TrainState)
  (ev : Evaluation) (items : dict bool) (w w' : World) (target : string) :
  validate_metrics self state ev items w = Ok w' ->
  get (directories w') target <> get (directories w) target ->
  exists metric,
    In (metric, true) items /\ target = path_join (bestpath self) metric.
Proof.
  revert w. induction items as [|[metric keep] items IH]; intros w; simpl.
  - intros [= ->] Hchanged. now exfalso.
  - destruct (getitem (means ev) metric) as [value|]; [simpl|discriminate].
    destruct (getitem (details ev) metric) as [pq|]; [simpl|discriminate].
    set (w2 := write _ (write _ w)).
    assert (Hdir2 : directories w2 = directories w) by reflexivity.
    intros Hrest Hchanged.
    destruct (ValidationListenerFacts.option_Z_eq_dec
                (get (directories (update_top self state metric keep value w2))
                   target)
                (get (directories w2) target)) as [Heq|Hne].
    + destruct (IH _ Hrest) as (m0 & Hin & Hm0).
      { now rewrite Heq, Hdir2. }
      exists m0. split; [now right | exact Hm0].
    + exists metric. revert Hne. unfold update_top, save_top.
      destruct (warmup self <=? epoch state); [|now intros []].
      assert (Hkeep : forall t,
        get (directories
               (if keep
                then copy (path_join (bestpath self) metric) (set_top metric t w2)
                else set_top metric t w2)) target
        <> get (directories w2) target ->
        (metric, keep) = (metric, true)
        /\ target = path_join (bestpath self) metric).
      { intros t. destruct keep; simpl; [|now intros []].
        intros Hne. split; [reflexivity|].
        destruct (string_dec (path_join (bestpath self) metric) target)
          as [<-|Hd]; [reflexivity|].
        exfalso. apply Hne. now apply get_setitem_ne. }
      destruct (get (top w2) metric) as [t|];
        [destruct (float_gt value (top_value t)); [|now intros []]|];
        intros Hne; destruct (Hkeep _ Hne) as [-> ->]; split; auto; now left.
Qed.

Lemma kept_outputs_frame (self : Config) (items : dict bool)
  (acc : dict Output) (key : string) :
  get acc key = Some (model_at (path_join (bestpath self) key)) ->
  get (fold_left
         (fun res (item : string * bool) =>
            if snd item
            then setitem res (fst item)
                   (model_at (path_join (bestpath self) (fst item)))
            else res) items acc) key
  = Some (model_at (path_join (bestpath self) key)).
Proof.
  revert acc. induction items as [|[k b] items IH]; intros acc Hacc; simpl;
    [exact Hacc|].
  apply IH. destruct b; simpl; [|exact Hacc].
  destruct (string_dec k key) as [->|Hne];
    [apply get_setitem_eq | now rewrite get_setitem_ne].
Qed.

Lemma kept_outputs (self : Config) (items : dict bool) (acc : dict Output)
  (key : string) :
  In (key, true) items ->
  get (fold_left
         (fun res (item : string * bool) =>
            if snd item
            then setitem res (fst item)
                   (model_at (path_join (bestpath self) (fst item)))
            else res) items acc) key
  = Some (model_at (path_join (bestpath self) key)).
Proof.
  revert acc. induction items as [|[k b] items IH]; intros acc; [intros []|].
  intros [[= -> ->]|Hin]; simpl.
  - apply kept_outputs_frame. apply get_setitem_eq.
  - now apply IH.
Qed.

(** X5. Every directory that a call of the listener writes is the checkpoint
    of an output that [taskoutputs] declares: the best checkpoint of a kept
    metric, or the last checkpoint. This needs that no kept metric is named
    ["last_checkpoint"] when the last checkpoint is stored, since that output
    takes the place of the metric's. *)
Theorem written_directories_are_outputs (self : Config) (state : TrainState)
  (ev : Evaluation) (w w' : World) (s : LearnerListenerStatus)
  (target : string) :
  (store_last_checkpoint self = true ->
   ~ In ("last_checkpoint"%string, true) (metrics self)) ->
  call self state ev w = Ok (w', s) ->
  get (directories w') target <> get (directories w) target ->
  exists key output,
    get (taskoutputs self) key = Some output /\
    checkpoint_of output = target.
Proof.
  intros Hname Hcall Hchanged.
  destruct (call_inv _ _ _ _ _ _ Hcall)
    as [(_ & -> & _)|(_ & [[_ ->]|[_ Hpass]])]; try now exfalso.
  destruct (validation_pass_inv _ _ _ _ _ Hpass)
    as (w1 & Hrun & _ & _ & _ & _ & Hd).
  unfold taskoutputs. rewrite Hd in Hchanged.
  destruct (store_last_checkpoint self) eqn:Hlast.
  - destruct (string_dec (last_checkpoint_path self) target) as [<-|Hne].
    + exists "last_checkpoint"%string, (scorer_at (last_checkpoint_path self)).
      split; [apply get_setitem_eq | reflexivity].
    + rewrite get_setitem_ne in Hchanged by exact Hne.
      destruct (validate_metrics_writes _ _ _ _ _ _ _ Hrun Hchanged)
        as (metric & Hin & ->).
      exists metric, (model_at (path_join (bestpath self) metric)).
      split; [|reflexivity].
      rewrite get_setitem_ne.
      * now apply kept_outputs.
      * intros <-. now apply Hname.
  - destruct (validate_metrics_writes _ _ _ _ _ _ _ Hrun Hchanged)
      as (metric & Hin & ->).
    exists metric, (model_at (path_join (bestpath self) metric)).
    split; [now apply kept_outputs | reflexivity].
Qed.

Lemma written_directories_are_outputs_witness :
  exists key output,
    get (taskoutputs two_metrics_listener) key = Some output /\
    checkpoint_of output = "best/map"%string.
Proof.
  apply (written_directories_are_outputs two_metrics_listener
           (ValidationListenerCases.state_at 2)
           (two_metrics_eval 0.5%float 0.25%float)
           (at_epoch 2 ValidationListenerCases.cold_start)
           (ValidationListenerCases.world_of
              (call two_metrics_listener (ValidationListenerCases.state_at 2)
                 (two_metrics_eval 0.5%float 0.25%float)
                 (at_epoch 2 ValidationListenerCases.cold_start)))
           (status_of
              (call two_metrics_listener (ValidationListenerCases.state_at 2)
                 (two_metrics_eval 0.5%float 0.25%float)
                 (at_epoch 2 ValidationListenerCases.cold_start)))).
  - intros _ [H|[H|[]]]; discriminate.
  - vm_compute. reflexivity.
  - vm_compute. discriminate.
Defined.

End ListenerFacts.

(** ** NegativeSamplerListener: runs that fail *)

Module NegativeSamplerListenerEdges.
Import NegativeSamplerListener NegativeSamplerListenerCases.

Lemma position_second_missing {A : Type} (l : list A) :
  (List.length l < 2)%nat -> position l 1 = Raise IndexError.
Proof.
  intros Hlen. unfold position. simpl.
  destruct (Z.ltb_spec 1 (Z.of_nat (List.length l))); [lia | reflexivity].
Qed.

(** X6. On a trainer with fewer than two sub-samplers, a run raises
    [IndexError] at its first triggering epoch: the listener always switches
    to the second sub-sampler. With an interval of zero, the first call
    raises [ZeroDivisionError]. *)
Theorem switch_needs_second_sampler (self : Listener)
  (states : list TrainState) (tr : Trainer) :
  (sampling_interval self <> 0 ->
   (List.length (samplers tr) < 2)%nat ->
   triggers self states <> [] ->
   calls (initialize self) states tr = Raise IndexError) /\
  (sampling_interval self = 0 ->
   states <> [] ->
   calls (initialize self) states tr = Raise ZeroDivisionError).
Proof.
  split.
  - intros Hi Hlen. induction states as [|state states IH]; simpl;
      [congruence|].
    destruct (Z.eqb_spec (epoch state mod sampling_interval self) 0)
      as [Hm|Hm]; intros Htrig.
    + unfold call, mod_. simpl.
      destruct (Z.eqb_spec (sampling_interval self) 0); [contradiction|].
      simpl. rewrite Hm. simpl. unfold update. simpl.
      now rewrite position_second_missing.
    + rewrite (NegativeSamplerListenerFacts.call_other_epoch
                 (initialize self) state tr Hi Hm).
      simpl. now apply IH.
  - intros Hz Hne. destruct states as [|state states]; [congruence|].
    simpl. unfold call, mod_. simpl. rewrite Hz. reflexivity.
Qed.

Lemma switch_needs_second_sampler_witness :
  calls (initialize (mkListener 2 true 0))
    (map (fun e => mkTrainState e (10 * e) "checkpoint") [1; 2; 3])
    (mkTrainer [0%nat] [0])
  = Raise IndexError /\
  calls (initialize (mkListener 0 true 0))
    (map (fun e => mkTrainState e (10 * e) "checkpoint") [1; 2; 3])
    (mkTrainer [0%nat; 0%nat] [0])
  = Raise ZeroDivisionError.
Proof.
  split.
  - apply (proj1 (switch_needs_second_sampler (mkListener 2 true 0)
                    (map (fun e => mkTrainState e (10 * e) "checkpoint")
                       [1; 2; 3])
                    (mkTrainer [0%nat] [0]))).
    + discriminate.
    + simpl. lia.
    + discriminate.
  - apply (proj2 (switch_needs_second_sampler (mkListener 0 true 0)
                    (map (fun e => mkTrainState e (10 * e) "checkpoint")
                       [1; 2; 3])
                    (mkTrainer [0%nat; 0%nat] [0]))).
    + reflexivity.
    + discriminate.
Defined.

End NegativeSamplerListenerEdges.

(** ** The file of the hard negatives, written and read back *)

Module PyStrFacts.
Import PyStr.

Lemma split_without (sep : ascii) (s : string) :
  ~ occurs sep s -> split sep s = [s].
Proof.
  induction s as [|c s IH]; simpl; intros H; [reflexivity|].
  destruct (Ascii.eqb_spec c sep) as [->|_]; [exfalso; apply H; now left|].
  rewrite IH by tauto. reflexivity.
Qed.

Lemma split_app (sep : ascii) (a b : string) :
  ~ occurs sep a ->
  split sep (a ++ String sep b)%string = a :: split sep b.
Proof.
  induction a as [|c a IH]; simpl; intros H.
  - now rewrite Ascii.eqb_refl.
  - destruct (Ascii.eqb_spec c sep) as [->|_]; [exfalso; apply H; now left|].
    rewrite IH by tauto. reflexivity.
Qed.

Lemma occurs_app (c : ascii) (a b : string) :
  occurs c (a ++ b)%string <-> occurs c a \/ occurs c b.
Proof.
  induction a as [|c' a IH]; simpl; [tauto|]. rewrite IH. tauto.
Qed.

Lemma occurs_join (c : ascii) (sep : string) (parts : list string) :
  occurs c (join sep parts) ->
  occurs c sep \/ exists p, In p parts /\ occurs c p.
Proof.
  induction parts as [|p [|q ps] IH].
  - intros [].
  - intros H. right. exists p. split; [now left | exact H].
  - change (join sep (p :: q :: ps))
      with (p ++ sep ++ join sep (q :: ps))%string.
    rewrite !occurs_app. intros [H|[H|H]].
    + right. exists p. split; [now left | exact H].
    + now left.
    + destruct (IH H) as [Hs|(p' & Hin & Hp')]; [now left|].
      right. exists p'. split; [now right | exact Hp'].
Qed.

(** Splitting what [join] glued gives the parts back, when there is at least
    one part and no part holds the separator. *)
Lemma split_join (sep : ascii) (parts : list string) :
  parts <> [] ->
  (forall p, In p parts -> ~ occurs sep p) ->
  split sep (join (String sep EmptyString) parts) = parts.
Proof.
  induction parts as [|p [|q ps] IH]; intros Hne Hparts.
  - congruence.
  - simpl. apply split_without. apply Hparts. now left.
  - change (join (String sep EmptyString) (p :: q :: ps))
      with (p ++ String sep (join (String sep EmptyString) (q :: ps)))%string.
    rewrite split_app by (apply Hparts; now left).
    rewrite IH; [reflexivity | discriminate|].
    intros p' Hin. apply Hparts. now right.
Qed.

End PyStrFacts.

Module ExportReadFacts.
Import ModelBasedHardNegativeSampler.
Import ExportReadCases.

Lemma line_fields (q p n : string) :
  line q p n = join tab [q; "positives:"%string; p; "negatives:"%string; n].
Proof. reflexivity. Qed.

Lemma split_docids (qa : dict Z) (sds : list ScoredDocument) (d : string) :
  In d (fst (split qa sds)) \/ In d (snd (split qa sds)) ->
  exists sd, In sd sds /\ docid sd = d.
Proof.
  unfold split. simpl. intros [H|H]; apply in_map_iff in H;
    destruct H as (sd & Hd & Hin); apply filter_In in Hin;
    exists sd; tauto.
Qed.

(** The last assessed topic exists as soon as there is an assessed topic. *)
Lemma qrels_after_loop_none (data : list AssessedTopic) :
  qrels_after_loop data = None -> data = [].
Proof.
  unfold qrels_after_loop. induction data as [|a [|b rest] IH];
    [reflexivity | discriminate |].
  intros H. exfalso. assert (Hrest : b :: rest = []) by (apply IH; exact H).
  discriminate.
Qed.

(** X7. What [execute] writes for a topic reads back: split at the
    tabulations and read by [PairwiseSampleDatasetFromTSV.iter] as the row of
    a file, a written string gives one sample, with the query id that was
    written and the very lists of positive and negative ids of the topic. This needs ids that can
    be told apart: no tabulation and no space in the id of a retrieved
    document, no tabulation in the written query id. *)
Theorem export_reads_back (self : Config) (ws : list string) (skipped : Z)
  (w : string) :
  docids_without tab_char self ->
  docids_without " "%char self ->
  last_qid_without tab_char self ->
  execute self = Ok (ws, skipped) ->
  In w ws ->
  exists query qa last_qrels,
    In query (topics (dataset self)) /\
    get (read_assessments (assessments (dataset self))) (qid query) = Some qa /\
    qrels_after_loop (assessments (dataset self)) = Some last_qrels /\
    PairwiseSampleDatasetFromTSV.iter [PyStr.split tab_char w]
    = Ok [PairwiseSampleDatasetFromTSV.mkPairwiseSample
            (assessed_qid last_qrels)
            (fst (split qa (retrieve self (text query))))
            (snd (split qa (retrieve self (text query))))].
Proof.
  intros Htab Hspace Hqid Hrun Hin.
  destruct (SplitFacts.execute_writes self _ _ _ _ _ w Hrun Hin)
    as (query & qa & lq & Hquery & Hqa & Hlast & Hw).
  cbv zeta in Hw. destruct Hw as (-> & Hpos & Hneg).
  exists query, qa, lq. split; [exact Hquery|]. split; [exact Hqa|].
  split; [exact Hlast|].
  set (sds := retrieve self (text query)) in *.
  assert (Hids : forall c d,
            docids_without c self ->
            In d (fst (split qa sds)) \/ In d (snd (split qa sds)) ->
            ~ PyStr.occurs c d).
  { intros c d Hc Hd. destruct (split_docids qa sds d Hd) as (sd & Hsd & <-).
    now apply (Hc query sd). }
  assert (Hjoined : forall parts,
            (forall d, In d parts ->
               In d (fst (split qa sds)) \/ In d (snd (split qa sds))) ->
            ~ PyStr.occurs tab_char (join " " parts)).
  { intros parts Hparts Hocc.
    destruct (PyStrFacts.occurs_join _ _ _ Hocc) as [Hsep|(p & Hp & Hp')].
    - simpl in Hsep. destruct Hsep as [Hsep|[]]. discriminate.
    - apply (Hids tab_char p Htab); auto. }
  rewrite line_fields.
  change tab with (String tab_char EmptyString).
  rewrite PyStrFacts.split_join; [|discriminate|].
  - cbn [PairwiseSampleDatasetFromTSV.iter].
    unfold PairwiseSampleDatasetFromTSV.sample_of_row.
    change (getitem_list [assessed_qid lq; "positives:"%string;
                          join " " (fst (split qa sds)); "negatives:"%string;
                          join " " (snd (split qa sds))] 0)
      with (Ok (A := string) (assessed_qid lq)).
    change (getitem_list [assessed_qid lq; "positives:"%string;
                          join " " (fst (split qa sds)); "negatives:"%string;
                          join " " (snd (split qa sds))] 2)
      with (Ok (join " " (fst (split qa sds)))).
    change (getitem_list [assessed_qid lq; "positives:"%string;
                          join " " (fst (split qa sds)); "negatives:"%string;
                          join " " (snd (split qa sds))] 4)
      with (Ok (join " " (snd (split qa sds)))).
    cbn [bind].
    rewrite !PyStrFacts.split_join; auto.
  - intros p [<-|[<-|[<-|[<-|[<-|[]]]]]].
    + now apply Hqid.
    + simpl. intuition discriminate.
    + apply Hjoined. auto.
    + simpl. intuition discriminate.
    + apply Hjoined. auto.
Qed.

Lemma export_reads_back_witness :
  exists query qa last_qrels,
    In query (topics (dataset SplitCases.hard_negative_example)) /\
    get (read_assessments (assessments (dataset SplitCases.hard_negative_example)))
      (qid query) = Some qa /\
    qrels_after_loop (assessments (dataset SplitCases.hard_negative_example))
      = Some last_qrels /\
    PairwiseSampleDatasetFromTSV.iter
      [PyStr.split tab_char (line "q1" "d1" "d2 d4")]
    = Ok [PairwiseSampleDatasetFromTSV.mkPairwiseSample
            (assessed_qid last_qrels)
            (fst (split qa (retrieve SplitCases.hard_negative_example
                              (text query))))
            (snd (split qa (retrieve SplitCases.hard_negative_example
                              (text query))))].
Proof.
  apply (export_reads_back SplitCases.hard_negative_example
           [line "q1" "d1" "d2 d4"] 0).
  - intros query sd _ Hsd. simpl in Hsd.
    destruct Hsd as [<-|[<-|[<-|[]]]]; simpl; intuition discriminate.
  - intros query sd _ Hsd. simpl in Hsd.
    destruct Hsd as [<-|[<-|[<-|[]]]]; simpl; intuition discriminate.
  - intros qrels [= <-]. simpl. intuition discriminate.
  - reflexivity.
  - now left.
Defined.

Lemma written_file_occurs (c : ascii) (ws : list string) :
  PyStr.occurs c (written_file ws) -> exists w, In w ws /\ PyStr.occurs c w.
Proof.
  unfold written_file. induction ws as [|w [|w' ws] IH].
  - intros [].
  - intros H. exists w. split; [now left | exact H].
  - change (String.concat EmptyString (w :: w' :: ws))
      with (w ++ String.concat EmptyString (w' :: ws))%string.
    rewrite PyStrFacts.occurs_app. intros [H|H].
    + exists w. split; [now left | exact H].
    + destruct (IH H) as (x & Hin & Hx). exists x. split; [now right | exact Hx].
Qed.

(** X8. [execute] writes no end of line: when no id holds a line feed or a
    carriage return, none is in the file, however many topics were written,
    so that the file is one single line. *)
Theorem export_is_one_line (self : Config) (ws : list string) (skipped : Z)
  (c : ascii) :
  line_break c ->
  docids_without c self ->
  last_qid_without c self ->
  execute self = Ok (ws, skipped) ->
  ~ PyStr.occurs c (written_file ws) /\
  PyStr.split c (written_file ws) = [written_file ws].
Proof.
  intros Hc Hdocs Hqid Hrun.
  assert (Hnone : ~ PyStr.occurs c (written_file ws)).
  { intros Hocc. destruct (written_file_occurs c ws Hocc) as (w & Hin & Hw).
    destruct (SplitFacts.execute_writes self _ _ _ _ _ w Hrun Hin)
      as (query & qa & lq & Hquery & Hqa & Hlast & Hline).
    cbv zeta in Hline. destruct Hline as (-> & _ & _).
    rewrite line_fields in Hw.
    destruct (PyStrFacts.occurs_join _ _ _ Hw) as [Hsep|(p & Hp & Hp')].
    { destruct Hc as [-> | ->]; simpl in Hsep; intuition discriminate. }
    assert (Hjoined : forall parts,
              (forall d, In d parts ->
                 exists sd, In sd (retrieve self (text query)) /\ docid sd = d) ->
              ~ PyStr.occurs c (join " " parts)).
    { intros parts Hparts Hj.
      destruct (PyStrFacts.occurs_join _ _ _ Hj) as [Hsep|(d & Hd & Hd')].
      - destruct Hc as [-> | ->]; simpl in Hsep; intuition discriminate.
      - destruct (Hparts d Hd) as (sd & Hsd & <-).
        now apply (Hdocs query sd). }
    destruct Hp as [<-|[<-|[<-|[<-|[<-|[]]]]]].
    - now apply (Hqid lq).
    - destruct Hc as [-> | ->]; simpl in Hp'; intuition discriminate.
    - revert Hp'. apply Hjoined. intros d Hd. apply (split_docids qa). now left.
    - destruct Hc as [-> | ->]; simpl in Hp'; intuition discriminate.
    - revert Hp'. apply Hjoined. intros d Hd. apply (split_docids qa). now right. }
  split; [exact Hnone | now apply PyStrFacts.split_without].
Qed.

Lemma export_is_one_line_witness :
  ~ PyStr.occurs "010"%char (written_file [line "q1" "d1" "d2 d4"]) /\
  PyStr.split "010"%char (written_file [line "q1" "d1" "d2 d4"])
  = [written_file [line "q1" "d1" "d2 d4"]].
Proof.
  apply (export_is_one_line SplitCases.hard_negative_example
           [line "q1" "d1" "d2 d4"] 0 "010"%char).
  - now left.
  - intros query sd _ Hsd. simpl in Hsd.
    destruct Hsd as [<-|[<-|[<-|[]]]]; simpl; intuition discriminate.
  - intros qrels [= <-]. simpl. intuition discriminate.
  - reflexivity.
Defined.

Lemma export_loop_counts (self : Config) (assessments : dict (dict Z))
  (qrels : option AssessedTopic) (queries : list Topic) :
  (qrels = None -> assessments = []) ->
  exists ws skipped,
    topics_loop self assessments qrels queries = Ok (ws, skipped) /\
    Z.of_nat (List.length ws) + skipped = Z.of_nat (List.length queries) /\
    0 <= skipped.
Proof.
  intros Hqrels. induction queries as [|query rest IH].
  - exists [], 0. simpl. auto with zarith.
  - destruct IH as (ws & skipped & Hrest & Hcount & Hpos).
    assert (Hstep : exists r, topic_step self assessments qrels query = Ok r).
    { unfold topic_step.
      destruct (get assessments (qid query)) as [qa|] eqn:Hqa; [|eauto].
      destruct (truthy qa); cbn [negb]; [|eauto].
      destruct (split qa (retrieve self (text query))) as [positives negatives].
      destruct (truthy positives); cbn [negb]; [|eauto].
      destruct (truthy negatives); cbn [negb]; [|eauto].
      destruct qrels as [lq|]; [eauto|].
      rewrite (Hqrels eq_refl) in Hqa. discriminate. }
    destruct Hstep as (r & Hstep).
    cbn [topics_loop]. rewrite Hstep, Hrest. cbn [bind fst snd].
    destruct r as [written|].
    + exists (written :: ws), skipped. split; [reflexivity|].
      cbn [List.length]. lia.
    + exists ws, (1 + skipped). split; [reflexivity|].
      cbn [List.length]. lia.
Qed.

(** X9. [execute] never raises: the variable [qrels] that its f-string reads
    is unbound only when no topic is assessed, and then every topic is
    skipped before the f-string is reached. Every topic is either written or
    counted as skipped. *)
Theorem execute_writes_or_skips (self : Config) :
  exists ws skipped,
    execute self = Ok (ws, skipped) /\
    Z.of_nat (List.length ws) + skipped
    = Z.of_nat (List.length (topics (dataset self))) /\
    0 <= skipped.
Proof.
  unfold execute. apply export_loop_counts.
  intros Hnone. now rewrite (qrels_after_loop_none _ Hnone).
Qed.

End ExportReadFacts.

(** ** [ModelBasedSampler._itertopics]: skipped topics and the assertion *)

Module TopicsFacts.
Import ModelBasedSampler.

Lemma topic_step_raises (self : Config) (assessments : dict (dict Z))
  (query : Topic) (e : exn) :
  topic_step self assessments query = Raise e ->
  e = AssertionError "" /\
  exists qa,
    get assessments (qid query) = Some qa /\
    positives_of qa <> [] /\
    negatives_of qa (retrieve self (text query)) = [].
Proof.
  unfold topic_step.
  destruct (get assessments (qid query)) as [qa|]; [|discriminate].
  destruct (truthy qa); cbn [negb]; [|discriminate].
  destruct (positives_of qa) as [|p ps] eqn:Hpos; cbn [negb truthy];
    [discriminate|].
  destruct (negatives_of qa (retrieve self (text query))) as [|n ns] eqn:Hneg;
    cbn [truthy andb]; [|discriminate].
  intros [= <-]. split; [reflexivity|]. exists qa.
  repeat split; auto. rewrite Hpos. discriminate.
Qed.

Lemma topic_step_asserts (self : Config) (assessments : dict (dict Z))
  (query : Topic) (qa : dict Z) :
  get assessments (qid query) = Some qa ->
  positives_of qa <> [] ->
  negatives_of qa (retrieve self (text query)) = [] ->
  topic_step self assessments query = Raise (AssertionError "").
Proof.
  intros Hqa Hpos Hneg. unfold topic_step. rewrite Hqa, Hneg.
  destruct qa as [|item qa]; [now contradiction Hpos|]. cbn [truthy negb].
  destruct (positives_of (item :: qa)); [congruence | reflexivity].
Qed.

Lemma topics_loop_raises (self : Config) (assessments : dict (dict Z))
  (queries : list Topic) (e : exn) :
  topics_loop self assessments queries = Raise e -> e = AssertionError "".
Proof.
  induction queries as [|query rest IH]; simpl; [discriminate|].
  destruct (topic_step self assessments query) as [r|e'] eqn:Hstep; simpl.
  - destruct (topics_loop self assessments rest) as [rs|e'']; simpl;
      [discriminate|].
    intros [= <-]. now apply IH.
  - intros [= <-]. now apply (topic_step_raises _ _ _ _ Hstep).
Qed.

Lemma topics_loop_asserts (self : Config) (assessments : dict (dict Z))
  (queries : list Topic) (query : Topic) :
  In query queries ->
  (exists e, topic_step self assessments query = Raise e) ->
  topics_loop self assessments queries = Raise (AssertionError "").
Proof.
  intros Hin Hraise.
  assert (H : exists e, topics_loop self assessments queries = Raise e).
  { induction queries as [|q rest IH]; [destruct Hin|]. simpl.
    destruct Hin as [->|Hin].
    - destruct Hraise as (e & ->). simpl. eauto.
    - destruct (topic_step self assessments q) as [r|e]; simpl; [|eauto].
      destruct (IH Hin) as (e & ->). simpl. eauto. }
  destruct H as (e & He). now rewrite He, (topics_loop_raises _ _ _ _ He).
Qed.

Lemma topics_loop_counts (self : Config) (assessments : dict (dict Z))
  (queries : list Topic) ys skipped :
  topics_loop self assessments queries = Ok (ys, skipped) ->
  Z.of_nat (List.length ys) + skipped = Z.of_nat (List.length queries) /\
  0 <= skipped.
Proof.
  revert ys skipped. induction queries as [|query rest IH]; intros ys skipped.
  - simpl. intros [= <- <-]. simpl. lia.
  - cbn [topics_loop].
    destruct (topic_step self assessments query) as [r|]; cbn [bind];
      [|discriminate].
    destruct (topics_loop self assessments rest) as [[ys' sk']|]; cbn [bind];
      [|discriminate].
    destruct (IH ys' sk' eq_refl) as [Hcount Hpos].
    destruct r as [y|]; unfold fst, snd; intros Heq.
    + assert (Hys : ys = y :: ys') by congruence.
      assert (Hsk : skipped = sk') by congruence.
      subst ys skipped. cbn [List.length]. lia.
    + assert (Hys : ys = ys') by congruence.
      assert (Hsk : skipped = 1 + sk') by congruence.
      subst ys skipped. cbn [List.length]. lia.
Qed.

Lemma topics_loop_raised (self : Config) (assessments : dict (dict Z))
  (queries : list Topic) (e : exn) :
  topics_loop self assessments queries = Raise e ->
  exists query, In query queries /\ topic_step self assessments query = Raise e.
Proof.
  induction queries as [|q rest IH]; simpl; [discriminate|].
  destruct (topic_step self assessments q) as [r|e'] eqn:Hstep; simpl.
  - destruct (topics_loop self assessments rest) as [rs|e'']; simpl;
      [discriminate|].
    intros [= <-]. destruct (IH eq_refl) as (query & Hin & He).
    exists query. split; [now right | exact He].
  - intros [= <-]. exists q. split; [now left | exact Hstep].
Qed.

(** X10. [_itertopics], read to its end over all the topics, fails on its
    assertion exactly when the retriever returns no negative for a topic
    that has a positive judgement: nothing retrieved, or only documents
    judged positive. Such a topic is not skipped, as a topic without
    judgement or without positive judgement is. When no topic is in that
    case, every topic is yielded or counted as skipped. *)
Theorem itertopics_needs_a_negative (self : Config) :
  max_query self < 0 ->
  let judged := read_assessments (assessments (dataset self)) in
  let lacks_negative := fun query =>
    exists qa,
      get judged (qid query) = Some qa /\
      positives_of qa <> [] /\
      negatives_of qa (retrieve self (text query)) = [] in
  ((exists query, In query (topics (dataset self)) /\ lacks_negative query) ->
   itertopics self = Raise (AssertionError "")) /\
  ((forall query, In query (topics (dataset self)) -> ~ lacks_negative query) ->
   exists ys skipped,
     itertopics self = Ok (ys, skipped) /\
     Z.of_nat (List.length ys) + skipped
     = Z.of_nat (List.length (topics (dataset self))) /\
     0 <= skipped).
Proof.
  intros Hmax judged lacks_negative. unfold itertopics.
  destruct (Z.leb_spec 0 (max_query self)) as [Hle|_]; [lia|].
  cbn [bind]. fold judged. split.
  - intros (query & Hin & qa & Hqa & Hpos & Hneg).
    apply (topics_loop_asserts self judged _ query Hin).
    exists (AssertionError ""). now apply (topic_step_asserts self judged query qa).
  - intros Hall.
    destruct (topics_loop self judged (topics (dataset self)))
      as [[ys skipped]|e] eqn:Hloop.
    + exists ys, skipped. split; [reflexivity|].
      now apply (topics_loop_counts self judged).
    + exfalso.
      destruct (topics_loop_raised self judged _ e Hloop) as (query & Hin & Hstep).
      apply (Hall query Hin).
      destruct (topic_step_raises _ _ _ _ Hstep) as (_ & qa & Hqa & Hpos & Hneg).
      exists qa. auto.
Qed.

Lemma itertopics_needs_a_negative_witness :
  let self := SplitCases.model_based_example in
  let judged := read_assessments (assessments (dataset self)) in
  let lacks_negative := fun query =>
    exists qa,
      get judged (qid query) = Some qa /\
      positives_of qa <> [] /\
      negatives_of qa (retrieve self (text query)) = [] in
  ((exists query, In query (topics (dataset self)) /\ lacks_negative query) ->
   itertopics self = Raise (AssertionError "")) /\
  ((forall query, In query (topics (dataset self)) -> ~ lacks_negative query) ->
   exists ys skipped,
     itertopics self = Ok (ys, skipped) /\
     Z.of_nat (List.length ys) + skipped
     = Z.of_nat (List.length (topics (dataset self))) /\
     0 <= skipped).
Proof.
  apply (itertopics_needs_a_negative SplitCases.model_based_example).
  reflexivity.
Defined.

End TopicsFacts.

(** ** [TripletBasedSampler] *)

Module TripletFacts.
Import TripletBasedSampler.
Import TripletCases.

Lemma getdoc_built (self : Config) (s : string) (d : Document) :
  getdoc self s = Ok d -> built_from self s d.
Proof.
  unfold getdoc, built_from, fromid, fromtext.
  destruct (source_ids self).
  - destruct (index self) as [document_text_of|]; [|discriminate].
    intros [= <-]. simpl. eauto.
  - now intros [= <-].
Qed.

Lemma getdoc_validated (self : Config) (s : string) :
  validate self = Ok tt -> exists d, getdoc self s = Ok d.
Proof.
  unfold validate, getdoc, fromid.
  destruct (source_ids self); cbn [negb orb]; [|eauto].
  destruct (index self); [eauto | discriminate].
Qed.

Lemma records_validated (self : Config)
  (triplets : list (string * string * string)) :
  validate self = Ok tt ->
  exists rs,
    records self triplets = Ok rs /\
    Forall2 (fun (t : string * string * string) r =>
               query r = mkQuery None (Some (fst (fst t))) /\
               built_from self (snd (fst t)) (positive r) /\
               built_from self (snd t) (negative r))
      triplets rs.
Proof.
  intros Hvalid. induction triplets as [|[[q pos] neg] rest IH].
  - exists []. split; [reflexivity | constructor].
  - destruct IH as (rs & Hrest & Hall).
    destruct (getdoc_validated self pos Hvalid) as (p & Hp).
    destruct (getdoc_validated self neg Hvalid) as (n & Hn).
    exists (mkPairwiseRecord (mkQuery None (Some q)) p n :: rs).
    cbn [records]. rewrite Hp, Hn, Hrest. split; [reflexivity|].
    constructor; [|exact Hall]. simpl.
    split; [reflexivity|]. split; now apply getdoc_built.
Qed.

(** X11. With a configuration that [__validate__] accepts, [pairwise_iter]
    never fails on the assertion of [_fromid]: it yields one record per
    triplet of the source, in the order of the source, with the query text of
    the triplet and the two documents built from its strings. With a
    configuration that [__validate__] rejects (ids and no index), the
    iterator fails on that assertion at its first triplet, and only an empty
    source is read without failure. *)
Theorem validated_triplets_are_read (self : Config) :
  (validate self = Ok tt ->
   exists rs,
     pairwise_iter self = Ok rs /\
     Forall2 (fun (t : string * string * string) r =>
                query r = mkQuery None (Some (fst (fst t))) /\
                built_from self (snd (fst t)) (positive r) /\
                built_from self (snd t) (negative r))
       (source_iter self) rs) /\
  (validate self <> Ok tt ->
   (source_iter self <> [] ->
    pairwise_iter self = Raise (AssertionError EmptyString)) /\
   (source_iter self = [] -> pairwise_iter self = Ok [])).
Proof.
  split.
  - intros Hvalid. now apply records_validated.
  - unfold validate, pairwise_iter. intros Hinvalid.
    destruct (source_ids self) eqn:Hids; cbn [negb orb] in Hinvalid;
      [|congruence].
    destruct (index self) as [document_text_of|] eqn:Hindex; [congruence|].
    split.
    + destruct (source_iter self) as [|[[q pos] neg] rest]; [congruence|].
      intros _. cbn [records]. unfold getdoc, fromid. now rewrite Hids, Hindex.
    + now intros ->.
Qed.

Lemma validated_triplets_are_read_witness :
  exists rs,
    pairwise_iter two_id_triplets = Ok rs /\
    Forall2 (fun (t : string * string * string) r =>
               query r = mkQuery None (Some (fst (fst t))) /\
               built_from two_id_triplets (snd (fst t)) (positive r) /\
               built_from two_id_triplets (snd t) (negative r))
      (source_iter two_id_triplets) rs.
Proof.
  apply (proj1 (validated_triplets_are_read two_id_triplets)).
  reflexivity.
Defined.

End TripletFacts.

(** ** In-batch negatives: the records of the batches *)

Module InBatchOrderFacts.
Import PairwiseInBatchNegativesSampler.
Import InBatchOrderCases.

Section Records.
Variable PairIter : Type.
Variable pair_next : PairIter -> result (PairwiseRecord * PairIter).

Lemma take_stopped (n : nat) (it : PairIter) :
  pair_next it = Raise StopIteration ->
  take PairIter pair_next n it = Ok ([], it).
Proof.
  intros Hstop. destruct n as [|n]; simpl; [reflexivity|]. now rewrite Hstop.
Qed.

(** Reading [n + m] records is reading [n] records and then [m] more: the
    loop of a batch consumes no record that it does not put in the batch. *)
Lemma take_app (n m : nat) (it : PairIter) :
  take PairIter pair_next (n + m) it
  = (r1 <- take PairIter pair_next n it ;;
     r2 <- take PairIter pair_next m (snd r1) ;;
     Ok (fst r1 ++ fst r2, snd r2))%list.
Proof.
  revert it. induction n as [|n IH]; intros it.
  - cbn [Nat.add PairwiseInBatchNegativesSampler.take bind fst snd].
    destruct (take PairIter pair_next m it) as [[l it']|e]; reflexivity.
  - cbn [Nat.add PairwiseInBatchNegativesSampler.take].
    destruct (pair_next it) as [[record it']|e] eqn:Hnext.
    + rewrite IH.
      destruct (take PairIter pair_next n it') as [[l1 it1]|e1];
        cbn [bind fst snd]; [|reflexivity].
      destruct (take PairIter pair_next m it1) as [[l2 it2]|e2]; reflexivity.
    + destruct e; try reflexivity.
      cbn [bind fst snd]. now rewrite (take_stopped m it Hnext).
Qed.

Lemma take_length (n : nat) (it it' : PairIter)
  (records : list PairwiseRecord) :
  take PairIter pair_next n it = Ok (records, it') ->
  (List.length records <= n)%nat.
Proof.
  revert it it' records. induction n as [|n IH]; intros it it' records; simpl.
  - intros [= <- _]. simpl. lia.
  - destruct (pair_next it) as [[record it1]|e].
    + destruct (take PairIter pair_next n it1) as [[l it2]|] eqn:Hrest; simpl;
        [|discriminate].
      intros [= <- _]. simpl. specialize (IH it1 it2 l Hrest). lia.
    + destruct e; try discriminate. intros [= <- _]. simpl. lia.
Qed.

Lemma batches_records (n : nat) (g g' : Generator PairIter)
  (bs : list ProductRecords) :
  batches PairIter pair_next n g = Ok (bs, g') ->
  exists records,
    take PairIter pair_next (n * Z.to_nat (batch_size PairIter g))
      (pair_iter PairIter g)
    = Ok (records, pair_iter PairIter g') /\
    flat_map queries bs = map query records /\
    Forall (fun batch =>
              exists rs,
                queries batch = map query rs /\
                documents batch = (map positive rs ++ map negative rs)%list /\
                (List.length rs <= Z.to_nat (batch_size PairIter g))%nat)
      bs.
Proof.
  revert g g' bs. induction n as [|n IH]; intros g g' bs.
  - simpl. intros [= <- <-]. exists []. repeat split; auto.
  - cbn [PairwiseInBatchNegativesSampler.batches]. unfold next.
    destruct (take PairIter pair_next (Z.to_nat (batch_size PairIter g))
                (pair_iter PairIter g))
      as [[rs it1]|] eqn:Htake; cbn [bind fst snd]; [|discriminate].
    match goal with
    | |- context [batches PairIter pair_next n ?g1] =>
        destruct (batches PairIter pair_next n g1) as [[bs' g2]|] eqn:Hrest;
        cbn [bind fst snd]; [|discriminate];
        destruct (IH g1 g2 bs' Hrest) as (records & Hrecords & Hqueries & Hall)
    end.
    cbn [batch_size pair_iter] in Hrecords, Hall.
    intros Heq.
    assert (Hbs : bs = {| queries := map query rs;
                          documents := (map positive rs ++ map negative rs)%list;
                          relevances := Some (precomputed PairIter g) |} :: bs')
      by congruence.
    assert (Hg : g' = g2) by congruence. subst bs g'.
    exists (rs ++ records)%list. split; [|split].
    + cbn [Nat.mul]. rewrite take_app, Htake. cbn [bind fst snd].
      now rewrite Hrecords.
    + cbn [flat_map queries]. now rewrite map_app, Hqueries.
    + constructor; [|exact Hall]. exists rs. cbn [queries documents].
      split; [reflexivity|]. split; [reflexivity|].
      apply (take_length _ _ _ _ Htake).
Qed.

Lemma batches_stopped (n : nat) (g : Generator PairIter) :
  pair_next (pair_iter PairIter g) = Raise StopIteration ->
  batches PairIter pair_next n g = Ok (repeat (empty_batch (precomputed PairIter g)) n, g).
Proof.
  intros Hstop. induction n as [|n IH]; [reflexivity|].
  cbn [PairwiseInBatchNegativesSampler.batches]. unfold next.
  rewrite (take_stopped _ _ Hstop). cbn [bind fst snd map app].
  destruct g as [b m it]. cbn [batch_size precomputed pair_iter] in *.
  rewrite IH. reflexivity.
Qed.

(** X12. The batches of [batchwise_iter] hand out the records of the base
    iterator in its order and lose none: the queries of the first [n]
    batches, one after the other, are the queries of the records that reading
    the base iterator [n * batch_size] times gives. A batch holds at most
    [batch_size] queries, and its documents are the positives of its records
    followed by their negatives. The iterator itself never stops: once the
    base iterator is exhausted, every further batch is empty, and still
    carries the relevance matrix of a full batch. *)
Theorem batches_follow_base_iterator (b : Z) (it : PairIter) (n : nat) :
  (forall bs,
     batchwise_iter PairIter pair_next b it n = Ok bs ->
     exists records it',
       take PairIter pair_next (n * Z.to_nat b) it = Ok (records, it') /\
       flat_map queries bs = map query records /\
       Forall (fun batch =>
                 exists rs,
                   queries batch = map query rs /\
                   documents batch
                   = (map positive rs ++ map negative rs)%list /\
                   (List.length rs <= Z.to_nat b)%nat)
         bs) /\
  (0 <= b ->
   pair_next it = Raise StopIteration ->
   exists m,
     relevance_matrix b = Ok m /\
     List.length m = Z.to_nat b /\
     batchwise_iter PairIter pair_next b it n = Ok (repeat (empty_batch m) n)).
Proof.
  unfold batchwise_iter, start. split.
  - intros bs.
    destruct (relevance_matrix b) as [m|]; cbn [bind]; [|discriminate].
    match goal with
    | |- context [batches PairIter pair_next n ?g] =>
        destruct (batches PairIter pair_next n g) as [[bs' g']|] eqn:Hrun; cbn [bind fst];
        [|discriminate];
        destruct (batches_records n g g' bs' Hrun) as (records & Htake & Hrest)
    end.
    intros [= <-]. exists records, (pair_iter PairIter g'). split; assumption.
  - intros Hb Hstop.
    rewrite <- (Z2Nat.id b Hb), InBatchFacts.relevance_matrix_rows.
    eexists. split; [reflexivity|]. split.
    + now rewrite length_map, length_seq, Nat2Z.id.
    + cbn [bind]. rewrite batches_stopped by exact Hstop. reflexivity.
Qed.

End Records.

Lemma batches_follow_base_iterator_witness :
  (exists records it',
     take (list PairwiseRecord) list_next (3 * Z.to_nat 2) three_records
     = Ok (records, it') /\
     flat_map queries three_batches_of_two = map query records /\
     Forall (fun batch =>
               exists rs,
                 queries batch = map query rs /\
                 documents batch = (map positive rs ++ map negative rs)%list /\
                 (List.length rs <= Z.to_nat 2)%nat)
       three_batches_of_two) /\
  (exists m,
     relevance_matrix 2 = Ok m /\
     List.length m = Z.to_nat 2 /\
     batchwise_iter (list PairwiseRecord) list_next 2 [] 3
     = Ok (repeat (empty_batch m) 3)).
Proof.
  split.
  - apply (proj1 (batches_follow_base_iterator (list PairwiseRecord) list_next
                    2 three_records 3)).
    reflexivity.
  - apply (proj2 (batches_follow_base_iterator (list PairwiseRecord) list_next
                    2 [] 3)).
    + lia.
    + reflexivity.
Defined.

End InBatchOrderFacts.

(** ** What the iterators of the samplers draw *)

Module DrawFacts.
Import SerializableIterators.
Import IteratorCases.
Import DrawCases.

Lemma getitem_list_In {A : Type} (l : list A) (i : Z) (a : A) :
  getitem_list l i = Ok a -> In a l.
Proof.
  unfold getitem_list. destruct (Py.position l i) as [j|]; [|discriminate].
  destruct (nth_error l j) as [a'|] eqn:Hnth; [|discriminate].
  intros [= <-]. now apply nth_error_In in Hnth.
Qed.

Lemma lcg_in_range : randint_in_range Z lcg_randint.
Proof.
  intros high s Hhigh. unfold lcg_randint.
  destruct (Z.leb_spec high 0); [lia|].
  eexists _, _. split; [reflexivity|].
  rewrite Z.sub_0_r, Z.add_0_l. now apply Z.mod_pos_bound.
Qed.

Section Draws.
Variable RandomState : Type.
Variable randint : Z -> Z -> RandomState -> result (Z * RandomState).

Lemma sample_document (self : PairwiseModelBasedSampler) (fuel : nat)
  (samples : list ModelBasedSampler.Candidate) (s s' : RandomState)
  (d : Document) :
  sample RandomState randint self fuel samples s = Some (Ok (d, s')) ->
  candidate_document self samples d.
Proof.
  revert s. induction fuel as [|fuel IH]; intros s; simpl; [discriminate|].
  destruct (randint 0 _ s) as [[i s1]|]; [|discriminate].
  destruct (getitem_list samples i) as [[[docid rel] score]|] eqn:Hget;
    [|discriminate].
  destruct (store_text self docid) as [text|] eqn:Htext.
  - intros [= <- _]. exists docid, rel, score, text.
    split; [now apply (getitem_list_In samples i) | auto].
  - apply IH.
Qed.

Lemma sample_without_text (self : PairwiseModelBasedSampler) (fuel : nat)
  (samples : list ModelBasedSampler.Candidate) (s : RandomState) :
  randint_in_range RandomState randint ->
  samples <> [] ->
  (forall docid rel score,
     In (docid, rel, score) samples -> store_text self docid = None) ->
  sample RandomState randint self fuel samples s = None.
Proof.
  intros Hrand Hne Hnone. revert s.
  induction fuel as [|fuel IH]; intros s; simpl; [reflexivity|].
  destruct (Hrand (Z.of_nat (List.length samples)) s) as (i & s' & -> & Hi).
  { destruct samples; [congruence | simpl; lia]. }
  destruct (IteratorFacts.getitem_list_in_range samples i Hi)
    as ([[docid rel] score] & -> & Hin).
  rewrite (Hnone docid rel score Hin). apply IH.
Qed.

(** X13. A record of [PairwiseModelBasedSampler.pairwise_iter] pairs two
    documents of one and the same topic: its query is the title of a topic
    of the sampler, its positive is built from a candidate of the positives
    of that topic and its negative from a candidate of its negatives, each
    with the text that the store has for it. A pool of which no document has
    a text is sampled for ever: whatever the number of rounds allowed,
    [sample] has not returned. *)
Theorem sampled_pair_of_one_topic (self : PairwiseModelBasedSampler) :
  (forall fuel s record s',
     pairwise_next RandomState randint self fuel s = Some (Ok (record, s')) ->
     exists title positives negatives,
       In (title, positives, negatives) (sampler_topics self) /\
       query record = mkQuery None (Some title) /\
       candidate_document self positives (positive record) /\
       candidate_document self negatives (negative record)) /\
  (forall samples,
     randint_in_range RandomState randint ->
     samples <> [] ->
     (forall docid rel score,
        In (docid, rel, score) samples -> store_text self docid = None) ->
     forall fuel s, sample RandomState randint self fuel samples s = None).
Proof.
  split.
  - intros fuel s record s'. unfold pairwise_next.
    destruct (randint 0 _ s) as [[i s1]|]; [|discriminate].
    destruct (getitem_list (sampler_topics self) i)
      as [[[title positives] negatives]|] eqn:Htopic; [|discriminate].
    destruct (sample RandomState randint self fuel positives s1)
      as [[[pos s2]|]|] eqn:Hpos; try discriminate.
    destruct (sample RandomState randint self fuel negatives s2)
      as [[[neg s3]|]|] eqn:Hneg; try discriminate.
    intros [= <- _]. exists title, positives, negatives. simpl.
    split; [now apply (getitem_list_In _ i)|]. split; [reflexivity|].
    split; [apply (sample_document _ _ _ _ _ _ Hpos)
           | apply (sample_document _ _ _ _ _ _ Hneg)].
  - intros samples Hrand Hne Hnone fuel s. now apply sample_without_text.
Qed.

Lemma triplet_next_drawn (it it' : TripletIterator RandomState)
  (record : PairwiseRecord) :
  triplet_next RandomState randint it = Ok (record, it') ->
  exists sample,
    iter RandomState it = sample :: iter RandomState it' /\
    stream_position RandomState it' = S (stream_position RandomState it) /\
    drawn_from sample record.
Proof.
  unfold triplet_next, skipping_next.
  destruct (iter RandomState it) as [|sample rest] eqn:Hiter; [discriminate|].
  cbn [bind fst snd random stream_position iter].
  destruct (randint 0 _ (random RandomState it)) as [[i1 r1]|];
    cbn [bind fst snd]; [|discriminate].
  destruct (getitem_list (sample_positives sample) i1) as [pos|] eqn:Hpos;
    cbn [bind]; [|discriminate].
  destruct (randint 0 _ r1) as [[i2 r2]|]; cbn [bind fst snd]; [|discriminate].
  destruct (getitem_list (sample_negatives sample) i2) as [negatives|] eqn:Hgroup;
    cbn [bind]; [|discriminate].
  destruct (randint 0 _ r2) as [[i3 r3]|]; cbn [bind fst snd]; [|discriminate].
  destruct (getitem_list negatives i3) as [neg|] eqn:Hneg;
    cbn [bind]; [|discriminate].
  intros [= <- <-]. exists sample. cbn [iter stream_position].
  split; [reflexivity|]. split; [reflexivity|].
  split; [reflexivity|]. split; [now apply (getitem_list_In _ i1)|].
  exists negatives.
  split; [now apply (getitem_list_In _ i2) | now apply (getitem_list_In _ i3)].
Qed.

Lemma triplet_next_total (it : TripletIterator RandomState)
  (sample : PairwiseSample) (rest : list PairwiseSample) :
  randint_in_range RandomState randint ->
  iter RandomState it = sample :: rest ->
  well_pooled sample ->
  exists record it',
    triplet_next RandomState randint it = Ok (record, it').
Proof.
  intros Hrand Hiter (Hpos & Hneg & Hgroups).
  unfold triplet_next, skipping_next. rewrite Hiter.
  cbn [bind fst snd random stream_position iter].
  destruct (Hrand (Z.of_nat (List.length (sample_positives sample)))
              (random RandomState it)) as (i1 & r1 & -> & Hi1).
  { destruct (sample_positives sample); [congruence | simpl; lia]. }
  cbn [bind fst snd].
  destruct (IteratorFacts.getitem_list_in_range _ i1 Hi1) as (pos & -> & _).
  cbn [bind].
  destruct (Hrand (Z.of_nat (List.length (sample_negatives sample))) r1)
    as (i2 & r2 & -> & Hi2).
  { destruct (sample_negatives sample); [congruence | simpl; lia]. }
  cbn [bind fst snd].
  destruct (IteratorFacts.getitem_list_in_range _ i2 Hi2)
    as (negatives & -> & Hin).
  cbn [bind].
  assert (Hne : negatives <> [])
    by (rewrite Forall_forall in Hgroups; now apply Hgroups).
  destruct (Hrand (Z.of_nat (List.length negatives)) r2)
    as (i3 & r3 & -> & Hi3).
  { destruct negatives; [congruence | simpl; lia]. }
  cbn [bind fst snd].
  destruct (IteratorFacts.getitem_list_in_range _ i3 Hi3) as (neg & -> & _).
  cbn [bind]. eauto.
Qed.

Lemma draw_follows (source : list PairwiseSample) (n : nat)
  (it st : TripletIterator RandomState) (items : list PairwiseRecord) :
  draw (it := TripletSerializableIterator RandomState randint source) n it
    = (items, Some (Ok st)) ->
  Forall2 drawn_from (firstn n (iter RandomState it)) items /\
  (n <= List.length (iter RandomState it))%nat /\
  stream_position RandomState st = (stream_position RandomState it + n)%nat /\
  iter RandomState st = skipn n (iter RandomState it).
Proof.
  revert it items. induction n as [|n IH]; intros it items.
  - cbn [draw]. intros Heq.
    assert (Hitems : items = []) by congruence.
    assert (Hst : st = it) by congruence. subst items st.
    cbn [firstn skipn]. repeat split; [constructor | lia | lia].
  - cbn [draw next TripletSerializableIterator].
    destruct (triplet_next RandomState randint it) as [[a it1]|] eqn:Hnext;
      [|discriminate].
    destruct (draw n it1) as [items' final'] eqn:Hrest. cbn [fst snd].
    intros Heq.
    assert (Hitems : items = a :: items') by congruence.
    assert (Hfinal : final' = Some (Ok st)) by congruence. subst items final'.
    destruct (triplet_next_drawn _ _ _ Hnext) as (sample & Hiter & Hpos & Hdrawn).
    destruct (IH it1 items' Hrest) as (Hall & Hlen & Hst & Hleft).
    rewrite Hiter. cbn [firstn skipn List.length].
    split; [now constructor|]. split; [lia|]. split; [lia | exact Hleft].
Qed.

Lemma draw_to_end (source : list PairwiseSample)
  (it : TripletIterator RandomState) :
  randint_in_range RandomState randint ->
  Forall well_pooled (iter RandomState it) ->
  exists items st,
    draw (it := TripletSerializableIterator RandomState randint source)
      (List.length (iter RandomState it)) it = (items, Some (Ok st)) /\
    iter RandomState st = [].
Proof.
  intros Hrand. remember (iter RandomState it) as left eqn:Hleft.
  revert it Hleft. induction left as [|sample rest IH]; intros it Hleft Hall.
  - exists [], it. split; [reflexivity | now symmetry].
  - inversion Hall as [|? ? Hsample Hrest]; subst.
    destruct (triplet_next_total it sample rest Hrand (eq_sym Hleft) Hsample)
      as (record & it1 & Hnext).
    destruct (triplet_next_drawn _ _ _ Hnext) as (sample' & Hiter & _).
    assert (Hit1 : rest = iter RandomState it1) by congruence.
    destruct (IH it1 Hit1 Hrest) as (items & st & Hdraw & Hend).
    exists (record :: items), st.
    cbn [List.length draw next TripletSerializableIterator].
    rewrite Hnext, Hdraw. auto.
Qed.

(** X14. The iterator of [PairwiseDatasetTripletBasedSampler] goes through
    the samples of the dataset in their order, one record per sample: the
    record of rank [k] has the query of the sample of rank [k], one of its
    positives, and a negative of one of its groups of negatives; after [n]
    records the iterator counts [n] items and is left with the samples that
    follow. When every sample has a positive, a group of negatives and no
    empty group, and the random numbers are in range, the iterator yields
    as many records as there are samples and then raises [StopIteration]. *)
Theorem triplets_follow_source (source : list PairwiseSample)
  (seed : RandomState) :
  (forall n items st,
     draw (it := TripletSerializableIterator RandomState randint source) n
       (triplet_create RandomState source seed) = (items, Some (Ok st)) ->
     Forall2 drawn_from (firstn n source) items /\
     (n <= List.length source)%nat /\
     stream_position RandomState st = n /\
     iter RandomState st = skipn n source) /\
  (randint_in_range RandomState randint ->
   Forall well_pooled source ->
   exists items,
     draw (it := TripletSerializableIterator RandomState randint source)
       (List.length source + 1) (triplet_create RandomState source seed)
     = (items, Some (Raise StopIteration)) /\
     Forall2 drawn_from source items).
Proof.
  split.
  - intros n items st Hdraw. now apply (draw_follows source) in Hdraw.
  - intros Hrand Hall.
    destruct (draw_to_end source (triplet_create RandomState source seed)
                Hrand Hall) as (items & st & Hdraw & Hend).
    cbn [iter triplet_create] in Hdraw.
    exists items.
    rewrite (IteratorFacts.draw_app _ _ 1 _ _ _ Hdraw).
    destruct (draw_follows source _ _ _ _ Hdraw) as (Hdrawn & _).
    cbn [iter triplet_create] in Hdrawn. rewrite firstn_all in Hdrawn.
    cbn [draw next TripletSerializableIterator].
    unfold triplet_next, skipping_next. rewrite Hend.
    cbn [bind fst snd]. now rewrite app_nil_r.
Qed.

End Draws.

Lemma sampled_pair_of_one_topic_witness :
  (exists title positives negatives,
     In (title, positives, negatives) (sampler_topics two_topics) /\
     query first_pair = mkQuery None (Some title) /\
     candidate_document two_topics positives (positive first_pair) /\
     candidate_document two_topics negatives (negative first_pair)) /\
  sample Z lcg_randint without_texts 100 [("p1"%string, 1, 0%float)] 42
  = None.
Proof.
  split.
  - apply (proj1 (sampled_pair_of_one_topic Z lcg_randint two_topics)
             8%nat 42 first_pair 1000676753).
    vm_compute. reflexivity.
  - apply (proj2 (sampled_pair_of_one_topic Z lcg_randint without_texts)
             [("p1"%string, 1, 0%float)]).
    + exact lcg_in_range.
    + discriminate.
    + reflexivity.
Defined.

Lemma triplets_follow_source_witness :
  (let drawn :=
     draw (it := triplet_iterator) 2 (triplet_create Z three_samples 42) in
   Forall2 drawn_from (firstn 2 three_samples) (fst drawn) /\
   (2 <= List.length three_samples)%nat /\
   stream_position Z
     (state_after (triplet_create Z three_samples 42) drawn) = 2%nat /\
   iter Z (state_after (triplet_create Z three_samples 42) drawn)
   = skipn 2 three_samples) /\
  (exists items,
     draw (it := triplet_iterator) (List.length three_samples + 1)
       (triplet_create Z three_samples 42)
     = (items, Some (Raise StopIteration)) /\
     Forall2 drawn_from three_samples items).
Proof.
  split.
  - apply (proj1 (triplets_follow_source Z lcg_randint three_samples 42)).
    vm_compute. reflexivity.
  - apply (proj2 (triplets_follow_source Z lcg_randint three_samples 42)).
    + exact lcg_in_range.
    + repeat constructor; discriminate.
Defined.

End DrawFacts.

(** ** [_itertopics_batchwise] and [readrecords] *)

Module BatchwiseFacts.
Import ModelBasedSampler.
Import ModelBasedSamplerBatchwise.
Import BatchwiseCases.

Lemma setitem_fresh {V : Type} (d : dict V) (k : string) (v : V) :
  ~ In k (keys d) -> setitem d k v = (d ++ [(k, v)])%list.
Proof.
  induction d as [|[k' v'] d IH]; simpl; intros Hk; [reflexivity|].
  destruct (String.eqb_spec k' k) as [->|_]; [exfalso; apply Hk; now left|].
  rewrite IH by tauto. reflexivity.
Qed.

(** The dictionary of a batch of queries with distinct ids lists them in
    their order. *)
Lemma queries_dict_distinct (batch : list Topic) :
  NoDup (map qid batch) ->
  queries_dict batch = map (fun q => (qid q, text q)) batch.
Proof.
  unfold queries_dict.
  assert (H : forall acc,
            NoDup (keys acc ++ map qid batch) ->
            fold_left (fun d query => setitem d (qid query) (text query))
              batch acc
            = (acc ++ map (fun q => (qid q, text q)) batch)%list).
  { induction batch as [|q batch IH]; intros acc Hnd; simpl.
    - now rewrite app_nil_r.
    - simpl in Hnd. rewrite setitem_fresh.
      + rewrite IH.
        * now rewrite <- app_assoc.
        * unfold keys. rewrite map_app. simpl. rewrite <- app_assoc. exact Hnd.
      + apply NoDup_remove_2 in Hnd. intros Hin. apply Hnd.
        apply in_or_app. now left. }
  intros Hnd. now rewrite H.
Qed.

Lemma get_distinct (batch : list Topic) (q : Topic) :
  NoDup (map qid batch) ->
  In q batch ->
  get (map (fun q => (qid q, text q)) batch) (qid q) = Some (text q).
Proof.
  induction batch as [|a batch IH]; intros Hnd Hin; [destruct Hin|].
  simpl. inversion Hnd as [|? ? Ha Hrest]; subst.
  destruct Hin as [->|Hin]; [now rewrite String.eqb_refl|].
  destruct (String.eqb_spec (qid a) (qid q)) as [Heq|_]; [|now apply IH].
  exfalso. apply Ha. rewrite Heq. now apply in_map.
Qed.

(** The items of a part of a batch: either every query of the part is
    assessed and each one yields, or one is not and the loop fails on it. *)
Lemma items_loop_spec (self : ModelBasedSampler.Config)
  (assessments : dict (dict Z)) (batch part : list Topic) :
  NoDup (map qid batch) ->
  incl part batch ->
  (exists ys,
     items_loop assessments (map (fun q => (qid q, text q)) batch)
       (map (fun q => (qid q, retrieve self (text q))) part) = Done ys /\
     Forall2 (yield_of self assessments) part ys) \/
  ((exists query, In query part /\ get assessments (qid query) = None) /\
   items_loop assessments (map (fun q => (qid q, text q)) batch)
     (map (fun q => (qid q, retrieve self (text q))) part)
   = Failed (AttributeError none_has_no_items)).
Proof.
  intros Hnd. induction part as [|q part IH]; intros Hincl.
  - left. exists []. split; [reflexivity | constructor].
  - cbn [map items_loop]. unfold item_step. cbn [fst snd].
    destruct (get assessments (qid q)) as [qa|] eqn:Hqa.
    + unfold getitem. rewrite (get_distinct batch q Hnd) by (apply Hincl; now left).
      cbn [and_then].
      destruct IH as [(ys & -> & Hall)|((query & Hin & Hnone) & ->)].
      * intros x Hx. apply Hincl. now right.
      * left. eexists. split; [reflexivity|].
        constructor; [|exact Hall]. exists qa. auto.
      * right. split; [|reflexivity]. exists query. split; [now right | exact Hnone].
    + right. split; [|reflexivity]. exists q. split; [now left | exact Hqa].
Qed.

Lemma yield_of_assessed (self : ModelBasedSampler.Config)
  (assessments : dict (dict Z)) (queries : list Topic) (ys : list Yielded) :
  Forall2 (yield_of self assessments) queries ys ->
  forall query, In query queries -> get assessments (qid query) <> None.
Proof.
  induction 1 as [|q y queries ys (qa & Hqa & _) _ IH]; intros query [].
  - subst. congruence.
  - now apply IH.
Qed.

Lemma batches_loop_spec (self : Config) (assessments : dict (dict Z))
  (batches : list (list Topic)) :
  retrieves_each self ->
  NoDup (map qid (List.concat batches)) ->
  (exists ys,
     batches_loop self assessments batches = Done ys /\
     Forall2 (yield_of (sampler self) assessments) (List.concat batches) ys) \/
  ((exists query,
      In query (List.concat batches) /\ get assessments (qid query) = None) /\
   batches_loop self assessments batches
   = Failed (AttributeError none_has_no_items)).
Proof.
  intros Hall. induction batches as [|batch rest IH]; intros Hnd.
  - left. exists []. split; [reflexivity | constructor].
  - cbn [List.concat] in Hnd. rewrite map_app in Hnd.
    assert (Hbatch : NoDup (map qid batch)) by (now apply NoDup_app_remove_r in Hnd).
    assert (Hrest : NoDup (map qid (List.concat rest)))
      by (now apply NoDup_app_remove_l in Hnd).
    cbn [batches_loop List.concat]. rewrite Hall, queries_dict_distinct by exact Hbatch.
    rewrite map_map. cbn [fst snd].
    destruct (items_loop_spec (sampler self) assessments batch batch Hbatch
                (incl_refl batch))
      as [(ys & -> & Hys)|((query & Hin & Hnone) & ->)]; cbn [and_then].
    + destruct (IH Hrest) as [(ys' & -> & Hys')|((query & Hin & Hnone) & ->)];
        cbn [and_then].
      * left. exists (ys ++ ys')%list. split; [reflexivity|].
        now apply Forall2_app.
      * right. split; [|reflexivity]. exists query.
        split; [apply in_or_app; now right | exact Hnone].
    + right. split; [|reflexivity]. exists query.
      split; [apply in_or_app; now left | exact Hnone].
Qed.

(** X15. Read batch by batch, every topic is yielded, with its positives and
    with the negatives among the documents retrieved for it, also a topic
    that has no positive or no negative, which [_itertopics] skips or
    refuses. This holds when every topic has assessments; as soon as one has
    none, the run fails with the [AttributeError] of [qassessments.items()]
    where [_itertopics] would skip the topic. The queries have distinct ids,
    the batches are the queries in their order, and [retrieve_all] retrieves
    for each query what [retrieve] does. *)
Theorem batchwise_yields_every_topic (self : Config) :
  max_query (sampler self) < 0 ->
  NoDup (map qid (topics (dataset (sampler self)))) ->
  batches_in_order self ->
  retrieves_each self ->
  let judged := read_assessments (assessments (dataset (sampler self))) in
  ((forall query,
      In query (topics (dataset (sampler self))) ->
      get judged (qid query) <> None) ->
   exists ys,
     itertopics_batchwise self = Done ys /\
     Forall2 (yield_of (sampler self) judged)
       (topics (dataset (sampler self))) ys) /\
  ((exists query,
      In query (topics (dataset (sampler self))) /\
      get judged (qid query) = None) ->
   itertopics_batchwise self = Failed (AttributeError none_has_no_items)).
Proof.
  intros Hmax Hnd Hbatches Hall judged. unfold itertopics_batchwise.
  destruct (Z.leb_spec 0 (max_query (sampler self))) as [Hle|_]; [lia|].
  cbn [lift and_then]. fold judged.
  specialize (Hbatches (topics (dataset (sampler self)))).
  rewrite <- Hbatches in Hnd.
  destruct (batches_loop_spec self judged _ Hall Hnd)
    as [(ys & Hrun & Hys)|((query & Hin & Hnone) & Hrun)];
    rewrite Hbatches in *.
  - split.
    + intros _. exists ys. auto.
    + intros (query & Hin & Hnone). exfalso.
      now apply (yield_of_assessed _ _ _ _ Hys query Hin).
  - split.
    + intros Hassessed. exfalso. now apply (Hassessed query Hin).
    + intros _. exact Hrun.
Qed.

Lemma by_two_in_order (queries : list Topic) :
  List.concat (by_two queries) = queries.
Proof.
  assert (H : forall n (l : list Topic),
            (List.length l <= n)%nat -> List.concat (by_two l) = l).
  { induction n as [|n IH]; intros [|a [|b l]] Hlen; simpl in *;
      try reflexivity; try lia.
    rewrite IH; [reflexivity | lia]. }
  now apply (H (List.length queries)).
Qed.

Lemma batchwise_yields_every_topic_witness :
  let self := batched three_judged_topics 2 in
  let unjudged := batched with_unjudged_topic 2 in
  (exists ys,
     itertopics_batchwise self = Done ys /\
     Forall2 (yield_of (sampler self)
                (read_assessments (assessments (dataset (sampler self)))))
       (topics (dataset (sampler self))) ys) /\
  itertopics_batchwise unjudged = Failed (AttributeError none_has_no_items).
Proof.
  split.
  - apply (proj1 (batchwise_yields_every_topic (batched three_judged_topics 2)
                    eq_refl
                    ltac:(repeat constructor; simpl; intuition discriminate)
                    by_two_in_order (fun _ => eq_refl))).
    intros query [<-|[<-|[<-|[]]]]; discriminate.
  - apply (proj2 (batchwise_yields_every_topic (batched with_unjudged_topic 2)
                    eq_refl
                    ltac:(repeat constructor; simpl; intuition discriminate)
                    by_two_in_order (fun _ => eq_refl))).
    exists (mkTopic "q4" "fourth"). split; [simpl; tauto | reflexivity].
Defined.

Lemma topics_loop_complete (self : ModelBasedSampler.Config)
  (assessments : dict (dict Z)) (queries : list Topic) :
  (forall query,
     In query queries ->
     exists qa,
       get assessments (qid query) = Some qa /\
       positives_of qa <> [] /\
       negatives_of qa (retrieve self (text query)) <> []) ->
  exists ys,
    topics_loop self assessments queries = Ok (ys, 0) /\
    Forall2 (yield_of self assessments) queries ys.
Proof.
  induction queries as [|q queries IH]; intros Hall.
  - exists []. split; [reflexivity | constructor].
  - destruct IH as (ys & Hrest & Hys).
    { intros query Hin. apply Hall. now right. }
    destruct (Hall q (or_introl eq_refl)) as (qa & Hqa & Hpos & Hneg).
    exists ((text q, positives_of qa, negatives_of qa (retrieve self (text q)))
            :: ys).
    split.
    + cbn [topics_loop]. unfold topic_step. rewrite Hqa, Hrest.
      destruct qa as [|item qa]; [now contradiction Hpos|].
      cbn [truthy negb].
      destruct (positives_of (item :: qa)); [congruence|].
      destruct (negatives_of (item :: qa) (retrieve self (text q)));
        [congruence | reflexivity].
    + constructor; [|exact Hys]. exists qa. auto.
Qed.

Lemma yield_of_functional (self : ModelBasedSampler.Config)
  (assessments : dict (dict Z)) (queries : list Topic) (ys ys' : list Yielded) :
  Forall2 (yield_of self assessments) queries ys ->
  Forall2 (yield_of self assessments) queries ys' ->
  ys = ys'.
Proof.
  intros H. revert ys'.
  induction H as [|q y queries ys (qa & Hqa & ->) _ IH]; intros ys' H';
    inversion H' as [|? y' ? ys'' (qa' & Hqa' & ->) Hrest]; subst;
    [reflexivity|].
  rewrite (IH _ Hrest). congruence.
Qed.

(** X16. On complete data, reading the topics batch by batch gives what
    reading them one by one gives: when every topic has assessments, a
    positive and a retrieved negative, [_itertopics] skips no topic, and
    [_readrecords] returns its topics whatever the batch size. The queries
    have distinct ids, the batches are the queries in their order, and
    [retrieve_all] retrieves for each query what [retrieve] does. *)
Theorem batch_size_changes_nothing (self : Config) :
  max_query (sampler self) < 0 ->
  NoDup (map qid (topics (dataset (sampler self)))) ->
  batches_in_order self ->
  retrieves_each self ->
  complete (sampler self) ->
  exists ys,
    itertopics (sampler self) = Ok (ys, 0) /\
    itertopics_batchwise self = Done ys /\
    _readrecords self = Done ys.
Proof.
  intros Hmax Hnd Hbatches Hall Hcomplete.
  set (judged := read_assessments (assessments (dataset (sampler self)))).
  destruct (topics_loop_complete (sampler self) judged
              (topics (dataset (sampler self))) Hcomplete)
    as (ys & Hone & Hys).
  assert (Hitertopics : itertopics (sampler self) = Ok (ys, 0)).
  { unfold itertopics.
    destruct (Z.leb_spec 0 (max_query (sampler self))) as [Hle|_]; [lia|].
    exact Hone. }
  assert (Hbatchwise : itertopics_batchwise self = Done ys).
  { unfold itertopics_batchwise.
    destruct (Z.leb_spec 0 (max_query (sampler self))) as [Hle|_]; [lia|].
    cbn [lift and_then]. fold judged.
    specialize (Hbatches (topics (dataset (sampler self)))).
    rewrite <- Hbatches in Hnd.
    destruct (batches_loop_spec self judged _ Hall Hnd)
      as [(ys' & Hrun & Hys')|((query & Hin & Hnone) & _)];
      rewrite Hbatches in *.
    - now rewrite Hrun, (yield_of_functional _ _ _ _ _ Hys Hys').
    - exfalso. now apply (yield_of_assessed _ _ _ _ Hys query Hin). }
  exists ys. split; [exact Hitertopics|]. split; [exact Hbatchwise|].
  unfold _readrecords. destruct (batch_size self =? 0); [|exact Hbatchwise].
  now rewrite Hitertopics.
Qed.

Lemma batch_size_changes_nothing_witness :
  exists ys,
    itertopics (sampler (batched two_complete_topics 2)) = Ok (ys, 0) /\
    itertopics_batchwise (batched two_complete_topics 2) = Done ys /\
    _readrecords (batched two_complete_topics 2) = Done ys.
Proof.
  apply (batch_size_changes_nothing (batched two_complete_topics 2) eq_refl
           ltac:(repeat constructor; simpl; intuition discriminate)
           by_two_in_order (fun _ => eq_refl)).
  intros query [<-|[<-|[]]]; eexists; (split; [reflexivity|]);
    split; discriminate.
Defined.

Lemma negatives_of_rel (qa : dict Z) (sds : list ScoredDocument)
  (c : Candidate) :
  In c (negatives_of qa sds) -> snd (fst c) <= 0.
Proof.
  unfold negatives_of. rewrite in_flat_map. intros (sd & _ & Hc).
  cbv zeta in Hc.
  destruct (Z.ltb_spec 0 (get_default qa (docid sd) 0)); [destruct Hc|].
  destruct Hc as [<-|[]]. exact H.
Qed.

Lemma positives_of_rel (qa : dict Z) (c : Candidate) :
  In c (positives_of qa) -> 0 < snd (fst c) /\ snd c = 0%float.
Proof.
  destruct c as [[d r] sc]. intros Hc.
  apply SplitFacts.positives_of_spec in Hc. simpl. tauto.
Qed.

(** What is yielded batch by batch is made by [positives_of] and
    [negatives_of]. *)
Lemma items_loop_yielded (assessments : dict (dict Z))
  (queries_dict : dict string) (items : dict (list ScoredDocument))
  (ys : list Yielded) :
  items_loop assessments queries_dict items = Done ys ->
  Forall (fun y : Yielded =>
            exists qa sds,
              snd (fst y) = positives_of qa /\ snd y = negatives_of qa sds)
    ys.
Proof.
  revert ys. induction items as [|item items IH]; intros ys; cbn [items_loop].
  - intros [= <-]. constructor.
  - unfold item_step.
    destruct (get assessments (fst item)) as [qa|]; [|discriminate].
    destruct (getitem queries_dict (fst item)) as [title|]; [|discriminate].
    cbn [and_then].
    destruct (items_loop assessments queries_dict items) as [ys'|];
      [|discriminate].
    cbn [and_then]. intros [= <-]. constructor; [|now apply IH].
    exists qa, (snd item). auto.
Qed.

Lemma batches_loop_yielded (self : Config) (assessments : dict (dict Z))
  (batches : list (list Topic)) (ys : list Yielded) :
  batches_loop self assessments batches = Done ys ->
  Forall (fun y : Yielded =>
            exists qa sds,
              snd (fst y) = positives_of qa /\ snd y = negatives_of qa sds)
    ys.
Proof.
  revert ys. induction batches as [|batch rest IH]; intros ys;
    cbn [batches_loop].
  - intros [= <-]. constructor.
  - destruct (items_loop assessments (queries_dict batch)
                (retrieve_all self (queries_dict batch))) as [ys1|] eqn:Hitems;
      [|discriminate].
    cbn [and_then].
    destruct (batches_loop self assessments rest) as [ys2|]; [|discriminate].
    cbn [and_then]. intros [= <-]. apply Forall_app.
    split; [now apply (items_loop_yielded _ _ _ _ Hitems) | now apply IH].
Qed.

Lemma readrecords_yielded (self : Config) (ys : list Yielded) :
  _readrecords self = Done ys ->
  Forall (fun y : Yielded =>
            exists qa sds,
              snd (fst y) = positives_of qa /\ snd y = negatives_of qa sds)
    ys /\
  (batch_size self = 0 ->
   Forall (fun y : Yielded => snd (fst y) <> [] /\ snd y <> []) ys).
Proof.
  unfold _readrecords. destruct (Z.eqb_spec (batch_size self) 0) as [Hb|Hb].
  - unfold itertopics.
    destruct (if 0 <=? max_query (sampler self)
              then random_sample (sampler self)
                     (topics (dataset (sampler self)))
                     (max_query (sampler self))
              else Ok (topics (dataset (sampler self)))) as [queries|];
      [|discriminate].
    cbn [bind].
    destruct (topics_loop (sampler self) _ queries) as [[ys' skipped]|] eqn:Hloop;
      [|discriminate].
    cbn [bind lift fst]. intros [= <-].
    assert (H : forall y, In y ys' ->
              (exists qa sds,
                 snd (fst y) = positives_of qa /\ snd y = negatives_of qa sds) /\
              snd (fst y) <> [] /\ snd y <> []).
    { intros [[t pos] neg] Hin.
      destruct (SplitFacts.topics_loop_yields _ _ _ _ _ _ _ _ Hloop Hin)
        as (query & qa & _ & _ & _ & -> & -> & Hpos & Hneg).
      split; [|split; assumption]. eexists _, _. split; reflexivity. }
    split; [|intros _]; apply Forall_forall; intros y Hin; now apply H.
  - unfold itertopics_batchwise.
    destruct (lift _) as [queries|]; [|discriminate]. cbn [and_then].
    intros Hrun. split; [|contradiction].
    now apply (batches_loop_yielded _ _ _ _ Hrun).
Qed.

Lemma records_of_nil (title : string) (candidates : list Candidate) :
  PointwiseModelBasedSampler.records_of title candidates = [] ->
  candidates = [].
Proof.
  unfold PointwiseModelBasedSampler.records_of.
  destruct candidates; [reflexivity | discriminate].
Qed.

(** X17. The pools of [readrecords]: a record of [pos_records] has a
    relevance greater than 0 and the score 0, a record of [neg_records] has a
    relevance of at most 0, and no record has a content yet. When the topics
    are read one by one, the two pools are empty together: there is a
    positive record as soon as there is a negative one, and conversely. *)
Theorem readrecords_pools (self : Config)
  (pos neg : list PointwiseModelBasedSampler.PointwiseRecord) :
  PointwiseModelBasedSampler.readrecords self = Done (pos, neg) ->
  (forall r,
     In r pos ->
     0 < PointwiseModelBasedSampler.record_rel r /\
     PointwiseModelBasedSampler.record_score r = 0%float /\
     PointwiseModelBasedSampler.record_content r = None) /\
  (forall r,
     In r neg ->
     PointwiseModelBasedSampler.record_rel r <= 0 /\
     PointwiseModelBasedSampler.record_content r = None) /\
  (batch_size self = 0 -> (pos = [] <-> neg = [])).
Proof.
  unfold PointwiseModelBasedSampler.readrecords.
  destruct (_readrecords self) as [ys|] eqn:Hread; [|discriminate].
  cbn [and_then]. intros Heq.
  assert (Hpos : pos = flat_map
                   (fun y : Yielded =>
                      PointwiseModelBasedSampler.records_of (fst (fst y))
                        (snd (fst y))) ys) by congruence.
  assert (Hneg : neg = flat_map
                   (fun y : Yielded =>
                      PointwiseModelBasedSampler.records_of (fst (fst y))
                        (snd y)) ys) by congruence.
  clear Heq. subst pos neg.
  destruct (readrecords_yielded self ys Hread) as [Hmade Hfull].
  rewrite Forall_forall in Hmade.
  split; [|split].
  - intros r Hr. apply in_flat_map in Hr. destruct Hr as (y & Hy & Hr).
    destruct (Hmade y Hy) as (qa & sds & Hp & _). rewrite Hp in Hr.
    unfold PointwiseModelBasedSampler.records_of in Hr.
    apply in_map_iff in Hr. destruct Hr as ([[d rel] sc] & <- & Hc).
    apply positives_of_rel in Hc. simpl in *. tauto.
  - intros r Hr. apply in_flat_map in Hr. destruct Hr as (y & Hy & Hr).
    destruct (Hmade y Hy) as (qa & sds & _ & Hn). rewrite Hn in Hr.
    unfold PointwiseModelBasedSampler.records_of in Hr.
    apply in_map_iff in Hr. destruct Hr as ([[d rel] sc] & <- & Hc).
    apply negatives_of_rel in Hc. simpl in *. tauto.
  - intros Hb. specialize (Hfull Hb).
    destruct ys as [|y ys]; [simpl; tauto|].
    inversion Hfull as [|? ? [Hp Hn] _]; subst.
    cbn [flat_map]. split; intros Hnil; apply app_eq_nil in Hnil;
      destruct Hnil as [Hnil _]; apply records_of_nil in Hnil; contradiction.
Qed.

Lemma readrecords_pools_witness :
  let pools :=
    pools_of (PointwiseModelBasedSampler.readrecords
                (batched three_judged_topics 0)) in
  (forall r,
     In r (fst pools) ->
     0 < PointwiseModelBasedSampler.record_rel r /\
     PointwiseModelBasedSampler.record_score r = 0%float /\
     PointwiseModelBasedSampler.record_content r = None) /\
  (forall r,
     In r (snd pools) ->
     PointwiseModelBasedSampler.record_rel r <= 0 /\
     PointwiseModelBasedSampler.record_content r = None) /\
  (batch_size (batched three_judged_topics 0) = 0 ->
   (fst pools = [] <-> snd pools = [])).
Proof.
  apply (readrecords_pools (batched three_judged_topics 0)).
  vm_compute. reflexivity.
Defined.

End BatchwiseFacts.

(** ** The tensors of the distillation trainer *)

Module DistillationFacts.
Import DistillationPairwiseTrainer.
Import DistillationPointwiseHooks.







End DistillationFacts.

(** ** The outputs of the validation listener *)

Module OutputsFacts.
Import ValidationListener.
Import ValidationListenerOutputs.

Lemma kept_keys (self : Config) (items : dict bool) (acc : dict Output) :
  NoDup (keys items) ->
  (forall k, In k (keys acc) -> ~ In k (keys items)) ->
  keys (fold_left
          (fun res (item : string * bool) =>
             if snd item
             then setitem res (fst item)
                    (model_at (path_join (bestpath self) (fst item)))
             else res) items acc)
  = (keys acc ++ map fst (filter (fun item : string * bool => snd item) items))%list.
Proof.
  revert acc. induction items as [|[k b] items IH]; intros acc Hnd Hfresh.
  - simpl. now rewrite app_nil_r.
  - cbn [keys map fst] in Hnd. inversion Hnd as [|? ? Hk Hrest]; subst.
    cbn [fold_left filter snd fst]. destruct b.
    + rewrite BatchwiseFacts.setitem_fresh
        by (intros Hin; apply (Hfresh k Hin); now left).
      rewrite IH; [|exact Hrest|].
      * unfold keys. rewrite map_app. cbn [map fst]. now rewrite <- app_assoc.
      * intros k'. unfold keys. rewrite map_app, in_app_iff. cbn [map fst In].
        intros [Hin|[<-|[]]]; [|exact Hk].
        intros Hin'. apply (Hfresh k' Hin). now right.
    + apply IH; [exact Hrest|].
      intros k' Hin Hin'. apply (Hfresh k' Hin). now right.
Qed.

(** X19. The outputs that [taskoutputs] declares are those of the metrics
    that [monitored] lists, in the same order, each with the checkpoint of
    the metric under [bestpath], followed by ["last_checkpoint"] when the
    last checkpoint is stored. This needs that no monitored metric is named
    ["last_checkpoint"]; the keys of [metrics], those of a dictionary, are
    distinct. *)
Theorem outputs_of_monitored_metrics (self : Config) :
  NoDup (keys (metrics self)) ->
  ~ In "last_checkpoint"%string (monitored self) ->
  keys (taskoutputs self)
  = (monitored self
     ++ (if store_last_checkpoint self then ["last_checkpoint"%string] else []))%list
  /\
  (forall metric,
     In metric (monitored self) ->
     get (taskoutputs self) metric
     = Some (model_at (path_join (bestpath self) metric))).
Proof.
  intros Hnd Hname.
  assert (Hkeys : keys (fold_left
                          (fun res (item : string * bool) =>
                             if snd item
                             then setitem res (fst item)
                                    (model_at (path_join (bestpath self)
                                                 (fst item)))
                             else res) (metrics self) [])
                  = monitored self).
  { rewrite kept_keys; [reflexivity | exact Hnd | intros k []]. }
  split.
  - unfold taskoutputs. destruct (store_last_checkpoint self).
    + rewrite BatchwiseFacts.setitem_fresh by (now rewrite Hkeys).
      unfold keys in *. rewrite map_app. now rewrite Hkeys.
    + now rewrite Hkeys, app_nil_r.
  - intros metric Hin.
    assert (Hkept : In (metric, true) (metrics self)).
    { unfold monitored in Hin. apply in_map_iff in Hin.
      destruct Hin as ([k b] & <- & Hin). apply filter_In in Hin.
      simpl in Hin. destruct Hin as [Hin ->]. exact Hin. }
    unfold taskoutputs. destruct (store_last_checkpoint self).
    + rewrite get_setitem_ne by (intros <-; contradiction).
      now apply ListenerFacts.kept_outputs.
    + now apply ListenerFacts.kept_outputs.
Qed.

Lemma outputs_of_monitored_metrics_witness :
  keys (taskoutputs ListenerCases.two_metrics_listener)
  = (monitored ListenerCases.two_metrics_listener
     ++ (if store_last_checkpoint ListenerCases.two_metrics_listener
         then ["last_checkpoint"%string] else []))%list /\
  (forall metric,
     In metric (monitored ListenerCases.two_metrics_listener) ->
     get (taskoutputs ListenerCases.two_metrics_listener) metric
     = Some (model_at
               (path_join (bestpath ListenerCases.two_metrics_listener)
                  metric))).
Proof.
  apply (outputs_of_monitored_metrics ListenerCases.two_metrics_listener).
  - repeat constructor; simpl; intuition discriminate.
  - simpl. intuition discriminate.
Defined.

End OutputsFacts.

(** ** The pointwise trainer: batches and binary targets *)

Module PointwiseFacts.
Import PointwiseTrainer.
Import PointwiseTrainerBatches.
Import PointwiseCases.

(** A float equal to -999 is not greater than 0. *)
Lemma missing_relevance_not_positive (r : float) :
  PrimFloat.eqb r (-999)%float = true -> float_gt r 0%float = false.
Proof.
  unfold float_gt. rewrite eqb_spec, ltb_spec.
  replace (Prim2SF (-999)%float)
    with (S754_finite true 8787296929185792 (-43)) by (vm_compute; reflexivity).
  replace (Prim2SF 0%float) with (S754_zero false) by (vm_compute; reflexivity).
  destruct (Prim2SF r) as [s|s| |s m e].
  - discriminate.
  - destruct s; discriminate.
  - discriminate.
  - destruct s; [reflexivity | discriminate].
Qed.

Lemma binary_targets_replaced (relevances : list float) :
  binary_targets
    (map (fun r => if PrimFloat.eqb r (-999)%float then 0%float else r)
       relevances)
  = binary_targets relevances.
Proof.
  unfold binary_targets. rewrite map_map. apply map_ext. intros r.
  destruct (PrimFloat.eqb r (-999)%float) eqn:Hr; [|reflexivity].
  rewrite (missing_relevance_not_positive r Hr). reflexivity.
Qed.

(** X20. With the binary cross-entropy loss, replacing the relevance -999 by
    0 in [train_batch] changes nothing: the loss only reads whether a target
    is greater than 0, which -999 and 0 both are not. The loss of a batch is
    that of its scores against the targets [relevance > 0] of its records,
    the relevance being read as the float32 number that
    [torch.FloatTensor] makes of it: a positive relevance too small for
    float32 counts as 0, and so as not relevant. *)
Theorem bce_reads_relevance_signs (self : Config)
  (loss : list float -> list float -> float)
  (batch : list PointwiseRecord) :
  lossfn self = bce_compute loss ->
  nan_or_inf (ranker self batch) = false ->
  let value :=
    loss (ranker self batch)
      (binary_targets (map to_float32 (map record_relevance batch))) in
  train_batch self batch
  = Ok (value, (lossfn_name self, value, batch_size self)).
Proof.
  intros Hloss Hfinite value. unfold train_batch.
  rewrite Hfinite, Hloss. unfold bce_compute.
  now rewrite binary_targets_replaced.
Qed.

Lemma bce_reads_relevance_signs_witness :
  let self := with_bce count_ones in
  let value :=
    count_ones (ranker self batch_with_tiny_relevance)
      (binary_targets
         (map to_float32
            (map record_relevance batch_with_tiny_relevance))) in
  train_batch self batch_with_tiny_relevance
  = Ok (value, (lossfn_name self, value, batch_size self)) /\
  binary_targets
    (map to_float32 (map record_relevance batch_with_tiny_relevance))
  = [1%float; 0%float; 0%float].
Proof.
  split.
  - apply (bce_reads_relevance_signs (with_bce count_ones) count_ones
             batch_with_tiny_relevance).
    + reflexivity.
    + vm_compute. reflexivity.
  - vm_compute. reflexivity.
Defined.

Section Batches.
Variable RecordIter : Type.
Variable record_next : RecordIter -> result (PointwiseRecord * RecordIter).

Lemma pointwise_take_length (n : nat) (it it' : RecordIter)
  (records : list PointwiseRecord) :
  take RecordIter record_next n it = Ok (records, it') ->
  (List.length records <= n)%nat.
Proof.
  revert it it' records. induction n as [|n IH]; intros it it' records; simpl.
  - intros [= <- _]. simpl. lia.
  - destruct (record_next it) as [[record it1]|e].
    + destruct (take RecordIter record_next n it1) as [[l it2]|] eqn:Hrest;
        simpl; [|discriminate].
      intros [= <- _]. simpl. specialize (IH it1 it2 l Hrest). lia.
    + destruct e; try discriminate. intros [= <- _]. simpl. lia.
Qed.

(** X21. [train_batch] trains on at most [batch_size] records and tells the
    metrics that [batch_size] records were seen, whatever the number of
    records of the batch. It never sees the end of the records: on an
    exhausted iterator, [iter_batches] yields an empty batch, and
    [train_batch] computes the loss of no score against no target, still
    counted for [batch_size] records. *)
Theorem train_step_counts_batch_size (self : Config) (it : RecordIter) :
  (forall loss update it',
     train_step RecordIter record_next self it = Ok (loss, update, it') ->
     exists batch,
       iter_batches_next RecordIter record_next self it = Ok (batch, it') /\
       (List.length batch <= Z.to_nat (batch_size self))%nat /\
       train_batch self batch = Ok (loss, update) /\
       update = (lossfn_name self, loss, batch_size self)) /\
  (record_next it = Raise StopIteration ->
   nan_or_inf (ranker self []) = false ->
   let loss := lossfn self (ranker self []) [] in
   train_step RecordIter record_next self it
   = Ok (loss, (lossfn_name self, loss, batch_size self), it)).
Proof.
  unfold train_step, iter_batches_next. split.
  - intros loss update it'.
    destruct (take RecordIter record_next _ it) as [[batch it1]|] eqn:Htake;
      cbn [bind fst snd]; [|discriminate].
    destruct (train_batch self batch) as [[loss' update']|] eqn:Htrain;
      cbn [bind]; [|discriminate].
    intros Heq.
    assert (Hloss : loss' = loss) by congruence.
    assert (Hupdate : update' = update) by congruence.
    assert (Hit : it1 = it') by congruence. subst.
    exists batch. split; [reflexivity|].
    split; [apply (pointwise_take_length _ _ _ _ Htake)|].
    split; [exact Htrain|].
    unfold train_batch in Htrain.
    destruct (nan_or_inf (ranker self batch)); [discriminate|]. congruence.
  - intros Hstop Hfinite.
    assert (Htake : take RecordIter record_next (Z.to_nat (batch_size self)) it
                    = Ok ([], it)).
    { destruct (Z.to_nat (batch_size self)); simpl; [reflexivity|].
      now rewrite Hstop. }
    rewrite Htake. cbn [bind fst snd]. unfold train_batch.
    rewrite Hfinite. reflexivity.
Qed.

End Batches.

Lemma train_step_counts_batch_size_witness :
  (exists batch,
     iter_batches_next (list PointwiseRecord) list_next
       (with_bce count_ones) batch_with_missing_relevance
     = Ok (batch, []) /\
     (List.length batch <= Z.to_nat (batch_size (with_bce count_ones)))%nat /\
     train_batch (with_bce count_ones) batch
     = Ok (1%float, ("ce"%string, 1%float, 2)) /\
     ("ce"%string, 1%float, 2)
     = (lossfn_name (with_bce count_ones), 1%float,
        batch_size (with_bce count_ones))) /\
  (let loss :=
     lossfn (with_bce count_ones) (ranker (with_bce count_ones) []) [] in
   train_step (list PointwiseRecord) list_next (with_bce count_ones) []
   = Ok (loss, (lossfn_name (with_bce count_ones), loss,
                batch_size (with_bce count_ones)), [])).
Proof.
  split.
  - apply (proj1 (train_step_counts_batch_size (list PointwiseRecord) list_next
                    (with_bce count_ones) batch_with_missing_relevance)).
    vm_compute. reflexivity.
  - apply (proj2 (train_step_counts_batch_size (list PointwiseRecord) list_next
                    (with_bce count_ones) [])).
    + reflexivity.
    + vm_compute. reflexivity.
Defined.

End PointwiseFacts.

(** ** The validation listener: an improvement resets the patience *)

Module PatienceFacts.
Import ValidationListener.

Lemma validate_metrics_untouched (self : Config) (state : TrainState)
  (ev : Evaluation) (items : dict bool) (w w' : World) (metric : string) :
  validate_metrics self state ev items w = Ok w' ->
  ~ In metric (keys items) ->
  get (top w') metric = get (top w) metric.
Proof.
  revert w. induction items as [|[k keep] items IH]; intros w; simpl.
  - now intros [= <-].
  - destruct (getitem (means ev) k) as [value|]; [simpl|discriminate].
    destruct (getitem (details ev) k) as [per_query|]; [simpl|discriminate].
    intros Hrest Hk. rewrite (IH _ Hrest) by tauto.
    rewrite ValidationListenerFacts.update_top_other by tauto. reflexivity.
Qed.

Lemma update_top_improved (self : Config) (state : TrainState)
  (metric : string) (keep : bool) (value : float) (w : World) :
  warmup self <= epoch state ->
  (forall t, get (top w) metric = Some t ->
     float_gt value (top_value t) = true) ->
  get (top (update_top self state metric keep value w)) metric
  = Some (mkTop value (context_epoch w)).
Proof.
  intros Hwarm Hbetter. unfold update_top.
  destruct (Z.leb_spec (warmup self) (epoch state)); [|lia].
  assert (Hsaved : get (top (save_top self metric keep value w)) metric
                   = Some (mkTop value (context_epoch w))).
  { unfold save_top. destruct keep; simpl; apply get_setitem_eq. }
  destruct (get (top w) metric) as [t|] eqn:Ht; [|exact Hsaved].
  now rewrite (Hbetter t eq_refl).
Qed.

Lemma validate_metrics_improved (self : Config) (state : TrainState)
  (ev : Evaluation) (items : dict bool) (w w' : World) (metric : string)
  (keep : bool) (value : float) :
  validate_metrics self state ev items w = Ok w' ->
  NoDup (keys items) ->
  In (metric, keep) items ->
  warmup self <= epoch state ->
  get (means ev) metric = Some value ->
  (forall t, get (top w) metric = Some t ->
     float_gt value (top_value t) = true) ->
  get (top w') metric = Some (mkTop value (context_epoch w)).
Proof.
  revert w. induction items as [|[k b] items IH]; intros w Hrun Hnd Hin Hwarm
    Hvalue Hbetter; [destruct Hin|].
  cbn [keys map fst] in Hnd. inversion Hnd as [|? ? Hk Hrest]; subst.
  cbn [validate_metrics] in Hrun.
  destruct (getitem (means ev) k) as [v|] eqn:Hv; [|discriminate].
  destruct (getitem (details ev) k) as [per_query|]; [|discriminate].
  cbn [bind] in Hrun.
  destruct Hin as [Heq|Hin].
  - assert (Hkm : k = metric) by congruence.
    assert (Hb : b = keep) by congruence. subst k b.
    unfold getitem in Hv. rewrite Hvalue in Hv.
    assert (Hvv : v = value) by congruence. subst v.
    rewrite (validate_metrics_untouched _ _ _ _ _ _ _ Hrun Hk).
    now rewrite update_top_improved.
  - assert (Hne : k <> metric).
    { intros ->. apply Hk. unfold keys. apply in_map_iff.
      exists (metric, keep). auto. }
    rewrite (IH _ Hrun Hrest Hin Hwarm Hvalue).
    + now rewrite ValidationListenerFacts.update_top_context.
    + rewrite ValidationListenerFacts.update_top_other by exact Hne.
      exact Hbetter.
Qed.

Lemma kept_epochs_In (ms : dict bool) (items : dict TopState) (es : list Z)
  (k : string) (t : TopState) :
  kept_epochs ms items = Ok es ->
  In (k, t) items ->
  get ms k = Some true ->
  In (top_epoch t) es.
Proof.
  revert es. induction items as [|[k' t'] items IH]; intros es; simpl;
    [intros _ []|].
  destruct (getitem ms k') as [keep|] eqn:Hkeep; [simpl|discriminate].
  destruct (kept_epochs ms items) as [es'|]; [simpl|discriminate].
  intros Heq Hin Hk.
  assert (Hes : es = if keep then top_epoch t' :: es' else es') by congruence.
  subst es. destruct Hin as [Hhead|Hin].
  - assert (Hkk : k' = k) by congruence.
    assert (Htt : t' = t) by congruence. subst k' t'.
    unfold getitem in Hkeep. rewrite Hk in Hkeep.
    assert (keep = true) by congruence. subst keep. now left.
  - specialize (IH es' eq_refl Hin Hk). destruct keep; [now right | exact IH].
Qed.

(** X22. An improvement resets the patience: when a call that was not stopped
    beforehand validates, past the warmup, a value of a kept metric that is
    greater than its best value, or the first value of that metric, it
    records that value with the current epoch and answers [DONT_STOP],
    whatever [early_stop], the other metrics and the age of their best
    values. *)
Theorem improvement_resets_patience (self : Config) (state : TrainState)
  (ev : Evaluation) (w w' : World) (s : LearnerListenerStatus)
  (metric : string) (value : float) :
  call self state ev w = Ok (w', s) ->
  should_stop self w (epoch state - 1) <> Ok STOP ->
  epoch state mod validation_interval self = 0 ->
  warmup self <= epoch state ->
  NoDup (keys (metrics self)) ->
  In (metric, true) (metrics self) ->
  get (means ev) metric = Some value ->
  (forall t, get (top w) metric = Some t ->
     float_gt value (top_value t) = true) ->
  get (top w') metric = Some (mkTop value (context_epoch w)) /\
  s = DONT_STOP.
Proof.
  intros Hcall Hearly Hmod Hwarm Hnd Hin Hvalue Hbetter.
  destruct (ListenerFacts.call_inv _ _ _ _ _ _ Hcall)
    as [(Hstop & _)|(Hstatus & [[Hm _]|[_ Hpass]])];
    [contradiction | contradiction |].
  destruct (ListenerFacts.validation_pass_inv _ _ _ _ _ Hpass)
    as (w1 & Hrun & Htop & _ & _ & Hctx & _).
  assert (Hentry : get (top w') metric = Some (mkTop value (context_epoch w))).
  { rewrite Htop.
    apply (validate_metrics_improved _ _ _ _ _ _ _ _ _ Hrun Hnd Hin Hwarm
             Hvalue Hbetter). }
  split; [exact Hentry|].
  unfold should_stop in Hstatus.
  destruct ((0 <? early_stop self) && truthy (top w')) eqn:Hguard;
    [|congruence].
  apply andb_true_iff in Hguard. destruct Hguard as [Hpos _].
  apply Z.ltb_lt in Hpos.
  destruct (kept_epochs (metrics self) (top w')) as [es|] eqn:Hes;
    [|discriminate].
  cbn [bind] in Hstatus.
  assert (Hkept : In (context_epoch w) es).
  { apply (kept_epochs_In _ _ _ metric (mkTop value (context_epoch w)) Hes).
    - now apply get_Some_In.
    - apply In_get; [exact Hnd | exact Hin]. }
  destruct es as [|e es]; [destruct Hkept|].
  destruct (ValidationListenerFacts.max_spec (e :: es)) as (m & Hmax & _ & Hle);
    [discriminate|].
  rewrite Hmax in Hstatus. cbn [bind] in Hstatus.
  specialize (Hle _ Hkept). unfold epoch_or in Hstatus. simpl in Hstatus.
  rewrite Hctx in Hstatus.
  destruct (Z.leb_spec (early_stop self) (context_epoch w - m)); [lia|].
  congruence.
Qed.

Lemma improvement_resets_patience_witness :
  let w := ValidationListenerCases.bests_at_0_2_4 in
  let r := call ValidationListenerCases.map_listener
             (ValidationListenerCases.state_at 8)
             (ValidationListenerCases.map_eval 0.9%float) (at_epoch 8 w) in
  get (top (ValidationListenerCases.world_of r)) "map"
  = Some (mkTop 0.9%float (context_epoch (at_epoch 8 w))) /\
  ListenerCases.status_of r = DONT_STOP.
Proof.
  apply (improvement_resets_patience ValidationListenerCases.map_listener
           (ValidationListenerCases.state_at 8)
           (ValidationListenerCases.map_eval 0.9%float)
           (at_epoch 8 ValidationListenerCases.bests_at_0_2_4)).
  - vm_compute. reflexivity.
  - vm_compute. discriminate.
  - reflexivity.
  - vm_compute. discriminate.
  - repeat constructor. simpl. tauto.
  - now left.
  - reflexivity.
  - intros t Ht. vm_compute in Ht. injection Ht as <-.
    vm_compute. reflexivity.
Defined.

End PatienceFacts.

(** ** The exported topics and the topics of [_itertopics] *)

Module ExportVsTopicsFacts.
Import SplitCases.

Lemma negatives_names (qa : dict Z) (sds : list ScoredDocument) :
  names (ModelBasedSampler.negatives_of qa sds)
  = snd (ModelBasedHardNegativeSampler.split qa sds).
Proof.
  unfold names, ModelBasedSampler.negatives_of,
    ModelBasedHardNegativeSampler.split. cbn [snd].
  induction sds as [|sd sds IH]; [reflexivity|].
  cbn [flat_map filter]. cbv zeta.
  destruct (0 <? get_default qa (docid sd) 0); cbn [negb app map fst];
    now rewrite IH.
Qed.

Lemma positives_names (qa : dict Z) (sds : list ScoredDocument) :
  incl (fst (ModelBasedHardNegativeSampler.split qa sds))
    (names (ModelBasedSampler.positives_of qa)).
Proof.
  intros d Hd. apply SplitFacts.split_spec in Hd. destruct Hd as [_ Hrel].
  unfold get_default in Hrel.
  destruct (get qa d) as [r|] eqn:Hget; [|lia].
  unfold names. apply in_map_iff. exists (d, r, 0%float).
  split; [reflexivity|]. apply SplitFacts.positives_of_spec.
  split; [now apply get_Some_In | auto].
Qed.

Lemma written_step_is_yielded (hn : ModelBasedHardNegativeSampler.Config)
  (mb : ModelBasedSampler.Config) (judged : dict (dict Z))
  (qrels : option AssessedTopic) (query : Topic) (w : string) :
  ModelBasedSampler.retrieve mb = ModelBasedHardNegativeSampler.retrieve hn ->
  ModelBasedHardNegativeSampler.topic_step hn judged qrels query = Ok (Some w) ->
  exists qa,
    get judged (qid query) = Some qa /\
    ModelBasedSampler.topic_step mb judged query
    = Ok (Some (text query, ModelBasedSampler.positives_of qa,
                ModelBasedSampler.negatives_of qa
                  (ModelBasedHardNegativeSampler.retrieve hn (text query)))).
Proof.
  intros Hretrieve. unfold ModelBasedHardNegativeSampler.topic_step,
    ModelBasedSampler.topic_step. rewrite Hretrieve.
  destruct (get judged (qid query)) as [qa|]; [|discriminate].
  destruct (truthy qa); cbn [negb]; [|discriminate].
  set (sds := ModelBasedHardNegativeSampler.retrieve hn (text query)).
  pose proof (positives_names qa sds) as Hpos.
  pose proof (negatives_names qa sds) as Hneg.
  destruct (ModelBasedHardNegativeSampler.split qa sds)
    as [positives negatives].
  cbn [fst snd] in Hpos, Hneg.
  destruct positives as [|p positives]; cbn [truthy negb]; [discriminate|].
  destruct negatives as [|n negatives]; cbn [truthy negb]; [discriminate|].
  intros _. exists qa. split; [reflexivity|].
  destruct (ModelBasedSampler.positives_of qa) as [|c cs];
    [destruct (Hpos p (or_introl eq_refl))|].
  destruct (ModelBasedSampler.negatives_of qa sds) as [|c' cs'];
    [discriminate | reflexivity].
Qed.

Lemma loops_compared (hn : ModelBasedHardNegativeSampler.Config)
  (mb : ModelBasedSampler.Config) (judged : dict (dict Z))
  (qrels : option AssessedTopic) (queries : list Topic)
  (ws : list string) (skipped : Z)
  (ys : list (string * list ModelBasedSampler.Candidate
              * list ModelBasedSampler.Candidate)) (skipped' : Z) :
  ModelBasedSampler.retrieve mb = ModelBasedHardNegativeSampler.retrieve hn ->
  ModelBasedHardNegativeSampler.topics_loop hn judged qrels queries
    = Ok (ws, skipped) ->
  ModelBasedSampler.topics_loop mb judged queries = Ok (ys, skipped') ->
  skipped' <= skipped /\
  (List.length ws <= List.length ys)%nat /\
  forall query w,
    In query queries ->
    ModelBasedHardNegativeSampler.topic_step hn judged qrels query
      = Ok (Some w) ->
    forall y,
      ModelBasedSampler.topic_step mb judged query = Ok (Some y) -> In y ys.
Proof.
  intros Hretrieve. revert ws skipped ys skipped'.
  induction queries as [|q queries IH]; intros ws skipped ys skipped'.
  - simpl. intros Hws Hys.
    assert (skipped = 0) by congruence. assert (skipped' = 0) by congruence.
    assert (ws = []) by congruence. assert (ys = []) by congruence. subst.
    split; [lia|]. split; [simpl; lia|]. intros query w [].
  - cbn [ModelBasedHardNegativeSampler.topics_loop
         ModelBasedSampler.topics_loop].
    destruct (ModelBasedHardNegativeSampler.topic_step hn judged qrels q)
      as [r|] eqn:Hstep; cbn [bind]; [|discriminate].
    destruct (ModelBasedHardNegativeSampler.topics_loop hn judged qrels queries)
      as [[ws1 sk1]|] eqn:Hrest; cbn [bind]; [|discriminate].
    destruct (ModelBasedSampler.topic_step mb judged q) as [r'|] eqn:Hstep';
      cbn [bind]; [|discriminate].
    destruct (ModelBasedSampler.topics_loop mb judged queries)
      as [[ys1 sk1']|] eqn:Hrest'; cbn [bind]; [|discriminate].
    destruct (IH _ _ _ _ eq_refl eq_refl) as (Hsk & Hlen & Hin1).
    unfold fst, snd. intros Hws Hys.
    assert (Hr : r <> None -> r' <> None).
    { destruct r as [w|]; [|congruence]. intros _.
      destruct (written_step_is_yielded hn mb judged qrels q w Hretrieve Hstep)
        as (qa & _ & Hy). congruence. }
    destruct r as [w|], r' as [y|].
    + assert (ws = w :: ws1) by congruence.
      assert (ys = y :: ys1) by congruence.
      assert (skipped = sk1) by congruence.
      assert (skipped' = sk1') by congruence. subst.
      split; [lia|]. split; [simpl; lia|].
      intros query w0 [<-|Hin] Hw0 y0 Hy0.
      * left. congruence.
      * right. now apply (Hin1 query w0).
    + exfalso. now apply Hr.
    + assert (ws = ws1) by congruence.
      assert (ys = y :: ys1) by congruence.
      assert (skipped = 1 + sk1) by congruence.
      assert (skipped' = sk1') by congruence. subst.
      split; [lia|]. split; [simpl; lia|].
      intros query w0 [<-|Hin] Hw0 y0 Hy0; [congruence|].
      right. now apply (Hin1 query w0).
    + assert (ws = ws1) by congruence.
      assert (ys = ys1) by congruence.
      assert (skipped = 1 + sk1) by congruence.
      assert (skipped' = 1 + sk1') by congruence. subst.
      split; [lia|]. split; [exact Hlen|].
      intros query w0 [<-|Hin] Hw0 y0 Hy0; [congruence|].
      now apply (Hin1 query w0).
Qed.

Lemma written_step (hn : ModelBasedHardNegativeSampler.Config)
  (judged : dict (dict Z)) (qrels : option AssessedTopic)
  (queries : list Topic) (ws : list string) (skipped : Z) (w : string) :
  ModelBasedHardNegativeSampler.topics_loop hn judged qrels queries
    = Ok (ws, skipped) ->
  In w ws ->
  exists query,
    In query queries /\
    ModelBasedHardNegativeSampler.topic_step hn judged qrels query
    = Ok (Some w).
Proof.
  revert ws skipped. induction queries as [|q queries IH]; intros ws skipped.
  - simpl. intros Heq. assert (ws = []) by congruence. subst. intros [].
  - cbn [ModelBasedHardNegativeSampler.topics_loop].
    destruct (ModelBasedHardNegativeSampler.topic_step hn judged qrels q)
      as [r|] eqn:Hstep; cbn [bind]; [|discriminate].
    destruct (ModelBasedHardNegativeSampler.topics_loop hn judged qrels queries)
      as [[ws1 sk1]|] eqn:Hrest; cbn [bind]; [|discriminate].
    unfold fst, snd. intros Heq Hin.
    destruct r as [w1|].
    + assert (ws = w1 :: ws1) by congruence. subst.
      destruct Hin as [->|Hin].
      * exists q. split; [now left | exact Hstep].
      * destruct (IH _ _ eq_refl Hin) as (query & Hq & Hw).
        exists query. split; [now right | exact Hw].
    + assert (ws = ws1) by congruence. subst.
      destruct (IH _ _ eq_refl Hin) as (query & Hq & Hw).
      exists query. split; [now right | exact Hw].
Qed.

(** X23. On the same dataset and retriever, a topic that [execute] writes is
    a topic that the loop of [_itertopics] yields, neither skipped nor
    refused: its negatives are the written negatives, in the same order, and
    its positives, which are all the documents judged positive, include the
    written ones, which are the retrieved ones among them. The run of
    [_itertopics] as a whole, read to its end, either ends normally or fails
    on its assertion at another topic. When it ends normally, every written
    topic is among the yielded ones, and [execute] skips at least the topics
    that [_itertopics] skips. *)
Theorem written_topics_are_yielded (hn : ModelBasedHardNegativeSampler.Config)
  (mb : ModelBasedSampler.Config) (ws : list string) (skipped : Z) :
  ModelBasedSampler.dataset mb = ModelBasedHardNegativeSampler.dataset hn ->
  ModelBasedSampler.retrieve mb = ModelBasedHardNegativeSampler.retrieve hn ->
  ModelBasedSampler.max_query mb < 0 ->
  ModelBasedHardNegativeSampler.execute hn = Ok (ws, skipped) ->
  let judged :=
    read_assessments
      (assessments (ModelBasedHardNegativeSampler.dataset hn)) in
  (forall w,
     In w ws ->
     exists query qa,
       In query (topics (ModelBasedHardNegativeSampler.dataset hn)) /\
       get judged (qid query) = Some qa /\
       let written :=
         ModelBasedHardNegativeSampler.split qa
           (ModelBasedHardNegativeSampler.retrieve hn (text query)) in
       let positives := ModelBasedSampler.positives_of qa in
       let negatives :=
         ModelBasedSampler.negatives_of qa
           (ModelBasedHardNegativeSampler.retrieve hn (text query)) in
       ModelBasedSampler.topic_step mb judged query
       = Ok (Some (text query, positives, negatives)) /\
       names negatives = snd written /\
       incl (fst written) (names positives) /\
       (exists last_qrels,
          w = ModelBasedHardNegativeSampler.line (assessed_qid last_qrels)
                (join " " (fst written)) (join " " (snd written))) /\
       (forall ys skipped',
          ModelBasedSampler.itertopics mb = Ok (ys, skipped') ->
          In (text query, positives, negatives) ys)) /\
  (forall ys skipped',
     ModelBasedSampler.itertopics mb = Ok (ys, skipped') ->
     skipped' <= skipped /\ (List.length ws <= List.length ys)%nat) /\
  ((exists ys skipped', ModelBasedSampler.itertopics mb = Ok (ys, skipped')) \/
   ModelBasedSampler.itertopics mb = Raise (AssertionError EmptyString)).
Proof.
  intros Hdata Hretrieve Hmax Hexecute judged.
  unfold ModelBasedHardNegativeSampler.execute in Hexecute. fold judged in Hexecute.
  assert (Hloop : ModelBasedSampler.itertopics mb
                  = ModelBasedSampler.topics_loop mb judged
                      (topics (ModelBasedHardNegativeSampler.dataset hn))).
  { unfold ModelBasedSampler.itertopics.
    destruct (Z.leb_spec 0 (ModelBasedSampler.max_query mb)) as [Hle|_];
      [lia|].
    cbn [bind]. now rewrite Hdata. }
  rewrite Hloop. split; [|split].
  - intros w Hw.
    destruct (written_step hn _ _ _ _ _ w Hexecute Hw)
      as (query & Hquery & Hstep).
    destruct (written_step_is_yielded hn mb _ _ query w Hretrieve Hstep)
      as (qa & Hqa & Hy).
    exists query, qa. split; [exact Hquery|]. split; [exact Hqa|].
    cbv zeta. split; [exact Hy|].
    split; [apply negatives_names|]. split; [apply positives_names|]. split.
    + unfold ModelBasedHardNegativeSampler.topic_step in Hstep.
      rewrite Hqa in Hstep.
      destruct (truthy qa); cbn [negb] in Hstep; [|discriminate].
      destruct (ModelBasedHardNegativeSampler.split qa
                  (ModelBasedHardNegativeSampler.retrieve hn (text query)))
        as [positives negatives].
      destruct (truthy positives); cbn [negb] in Hstep; [|discriminate].
      destruct (truthy negatives); cbn [negb] in Hstep; [|discriminate].
      destruct (qrels_after_loop _) as [last_qrels|]; [|discriminate].
      exists last_qrels. cbn [fst snd]. congruence.
    + intros ys skipped' Hyield.
      destruct (loops_compared hn mb _ _ _ _ _ _ _ Hretrieve Hexecute Hyield)
        as (_ & _ & Hin).
      apply (Hin query w Hquery Hstep _ Hy).
  - intros ys skipped' Hyield.
    destruct (loops_compared hn mb _ _ _ _ _ _ _ Hretrieve Hexecute Hyield)
      as (Hsk & Hlen & _).
    split; assumption.
  - destruct (ModelBasedSampler.topics_loop mb judged
                (topics (ModelBasedHardNegativeSampler.dataset hn)))
      as [[ys skipped']|e] eqn:Hrun.
    + left. eauto.
    + right. now rewrite (TopicsFacts.topics_loop_raises _ _ _ _ Hrun).
Qed.

Lemma written_topics_are_yielded_witness :
  let hn := hard_negative_example in
  let mb := model_based_example in
  let ws := [ModelBasedHardNegativeSampler.line "q1" "d1" "d2 d4"] in
  let judged :=
    read_assessments
      (assessments (ModelBasedHardNegativeSampler.dataset hn)) in
  (forall w,
     In w ws ->
     exists query qa,
       In query (topics (ModelBasedHardNegativeSampler.dataset hn)) /\
       get judged (qid query) = Some qa /\
       let written :=
         ModelBasedHardNegativeSampler.split qa
           (ModelBasedHardNegativeSampler.retrieve hn (text query)) in
       let positives := ModelBasedSampler.positives_of qa in
       let negatives :=
         ModelBasedSampler.negatives_of qa
           (ModelBasedHardNegativeSampler.retrieve hn (text query)) in
       ModelBasedSampler.topic_step mb judged query
       = Ok (Some (text query, positives, negatives)) /\
       names negatives = snd written /\
       incl (fst written) (names positives) /\
       (exists last_qrels,
          w = ModelBasedHardNegativeSampler.line (assessed_qid last_qrels)
                (join " " (fst written)) (join " " (snd written))) /\
       (forall ys skipped',
          ModelBasedSampler.itertopics mb = Ok (ys, skipped') ->
          In (text query, positives, negatives) ys)) /\
  (forall ys skipped',
     ModelBasedSampler.itertopics mb = Ok (ys, skipped') ->
     skipped' <= 0 /\ (List.length ws <= List.length ys)%nat) /\
  ((exists ys skipped', ModelBasedSampler.itertopics mb = Ok (ys, skipped')) \/
   ModelBasedSampler.itertopics mb = Raise (AssertionError EmptyString)).
Proof.
  apply (written_topics_are_yielded hard_negative_example model_based_example
           [ModelBasedHardNegativeSampler.line "q1" "d1" "d2 d4"] 0);
    reflexivity.
Defined.

End ExportVsTopicsFacts.

(** ** The validation listener: the final metrics after a run *)

Module RunFacts.
Import ValidationListener.
Import ValidationListenerOutputs.
Import RunCases.

Lemma update_top_recorded (self : Config) (state : TrainState)
  (metric : string) (keep : bool) (value : float) (w : World) :
  warmup self <= epoch state ->
  get (top (update_top self state metric keep value w)) metric <> None.
Proof.
  intros Hwarm. unfold update_top.
  destruct (Z.leb_spec (warmup self) (epoch state)); [|lia].
  assert (Hsaved : get (top (save_top self metric keep value w)) metric
                   <> None).
  { unfold save_top. destruct keep; simpl; rewrite get_setitem_eq;
      discriminate. }
  destruct (get (top w) metric) as [t|] eqn:Ht; [|exact Hsaved].
  destruct (float_gt value (top_value t)); [exact Hsaved | congruence].
Qed.

Lemma validate_metrics_recorded (self : Config) (state : TrainState)
  (ev : Evaluation) (items : dict bool) (w w' : World) (metric : string) :
  warmup self <= epoch state ->
  validate_metrics self state ev items w = Ok w' ->
  In metric (keys items) ->
  get (top w') metric <> None.
Proof.
  intros Hwarm. revert w. induction items as [|[k keep] items IH]; intros w;
    [intros _ []|].
  cbn [validate_metrics].
  destruct (getitem (means ev) k) as [value|]; [|discriminate].
  destruct (getitem (details ev) k) as [per_query|]; [|discriminate].
  cbn [bind]. intros Hrest [Hk|Hin].
  - simpl in Hk. subst k.
    match type of Hrest with
    | validate_metrics _ _ _ _ ?w3 = _ =>
        pose proof (update_top_recorded self state metric keep value
                      (write (add_histogram (id self ++ "/" ++ metric)
                                (map snd per_query) (step state))
                         (write (add_scalar
                                   (id self ++ "/" ++ metric ++ "/mean")
                                   value (step state)) w)) Hwarm) as Hrec;
        destruct (get (top w3) metric) as [t|] eqn:Ht; [|congruence]
    end.
    destruct (ValidationListenerFacts.validate_metrics_entry
                _ _ _ _ _ _ _ _ Hrest Ht) as (t' & -> & _).
    discriminate.
  - now apply (IH _ Hrest).
Qed.

Lemma call_empty_or_complete (self : Config) (state : TrainState)
  (ev : Evaluation) (w w' : World) (s : LearnerListenerStatus) :
  call self state ev w = Ok (w', s) ->
  empty_or_complete self w -> empty_or_complete self w'.
Proof.
  intros Hcall Hw.
  destruct (ListenerFacts.call_inv _ _ _ _ _ _ Hcall)
    as [(_ & -> & _)|(_ & [[_ ->]|[_ Hpass]])]; auto.
  destruct (ListenerFacts.validation_pass_inv _ _ _ _ _ Hpass)
    as (w1 & Hrun & Htop & _).
  unfold empty_or_complete. rewrite Htop.
  destruct (Z.le_gt_cases (warmup self) (epoch state)) as [Hwarm|Hcold].
  - right. intros metric Hin.
    now apply (validate_metrics_recorded _ _ _ _ _ _ _ Hwarm Hrun).
  - assert (Hlt : epoch state < warmup self) by lia.
    destruct (ListenerFacts.validate_metrics_warmup _ _ _ _ _ _ Hlt Hrun)
      as [-> _].
    exact Hw.
Qed.

(** X24. After any run of calls from a cold start, [update_metrics] finds
    what it reads: the table is empty, when no validation has passed the
    warmup yet, and the metrics are left as they are; or the table has an
    entry for every metric of the listener, and the final value of each one
    is added. The [KeyError] of [update_metrics] needs a table that was read
    from the [info] file of another configuration. *)
Theorem final_metrics_after_a_run (self : Config)
  (inputs : list (TrainState * Evaluation)) (w0 w' : World)
  (ss : list LearnerListenerStatus) (metrics0 : dict float) :
  info_file w0 = None ->
  calls self inputs (initialize self w0) = Ok (w', ss) ->
  exists out,
    update_metrics self w' metrics0 = Ok out /\
    (top w' = [] -> out = metrics0) /\
    (top w' <> [] ->
     forall metric,
       In metric (keys (metrics self)) ->
       exists t,
         get (top w') metric = Some t /\
         get out (final_key self metric) = Some (top_value t)).
Proof.
  intros Hcold Hcalls.
  assert (Hrun : forall inputs w w' ss,
            empty_or_complete self w ->
            calls self inputs w = Ok (w', ss) ->
            empty_or_complete self w').
  { clear. induction inputs as [|[state ev] inputs IH]; intros w w' ss Hw;
      simpl.
    - intros Heq. assert (w' = w) by congruence. now subst.
    - destruct (call self state ev (at_epoch (epoch state) w))
        as [[w1 s1]|] eqn:Hc; [simpl|discriminate].
      destruct (calls self inputs w1) as [[w2 ss2]|] eqn:Hcs;
        [simpl|discriminate].
      intros Heq. assert (w' = w2) by congruence. subst.
      apply (IH _ _ _ (call_empty_or_complete _ _ _ _ _ _ Hc Hw) Hcs). }
  assert (Hstate : empty_or_complete self w').
  { apply (Hrun inputs (initialize self w0) w' ss); [|exact Hcalls].
    left. unfold initialize. simpl. now rewrite Hcold. }
  unfold update_metrics.
  destruct (top w') as [|entry entries] eqn:Htop.
  - exists metrics0. cbn [truthy]. split; [reflexivity|].
    split; [reflexivity | congruence].
  - cbn [truthy]. destruct Hstate as [Hempty|Hcomplete]; [congruence|].
    rewrite Htop in Hcomplete.
    assert (Hall : forall m, In m (keys (metrics self)) ->
              get (top w') m <> None) by (now rewrite Htop).
    destruct (ListenerFacts.final_values_spec self w' _ metrics0 Hall)
      as (out & Hout & Hvalues & _).
    exists out. split; [exact Hout|]. split; [congruence|].
    intros _ metric Hin. rewrite <- Htop. now apply Hvalues.
Qed.

Lemma final_metrics_after_a_run_witness :
  let w' := ValidationListenerCases.bests_at_0_2_4 in
  exists out,
    update_metrics ValidationListenerCases.map_listener w' [] = Ok out /\
    (top w' = [] -> out = []) /\
    (top w' <> [] ->
     forall metric,
       In metric (keys (metrics ValidationListenerCases.map_listener)) ->
       exists t,
         get (top w') metric = Some t /\
         get out (final_key ValidationListenerCases.map_listener metric)
         = Some (top_value t)).
Proof.
  apply (final_metrics_after_a_run ValidationListenerCases.map_listener
           [(ValidationListenerCases.state_at 0,
             ValidationListenerCases.map_eval 0.125%float);
            (ValidationListenerCases.state_at 2,
             ValidationListenerCases.map_eval 0.25%float);
            (ValidationListenerCases.state_at 4,
             ValidationListenerCases.map_eval 0.5%float)]
           ValidationListenerCases.cold_start
           ValidationListenerCases.bests_at_0_2_4
           [DONT_STOP; DONT_STOP; DONT_STOP] []).
  - reflexivity.
  - vm_compute. reflexivity.
Defined.

End RunFacts.
